(** * Interview session orchestration: a shallow embedding

    The development embeds the TypeScript services of the interview
    back end that drive one interview session:

    - [ResponseEvaluatorService] and [InterviewOrchestratorService]
      (interwiz-backend/src/ai/services/response-evaluator.service.ts),
    - [ConversationManagerService] (conversation-manager.service.ts of
      the ai module),
    - [QuestionGeneratorService]
      (interwiz-backend/src/ai/services/question-generator.service.ts),
    - [InterviewSessionManager] and the joining, observing, disconnecting
      and trust-score parts of [InterviewGateway]
      (interwiz-backend/src/websockets/services/interview-session.manager.ts),
    - the proctoring data of [InterviewsService]
      (interwiz-backend/src/speech/dto/text-to-speech.dto.ts).

    Modelling conventions.
    - A JavaScript [number] that holds a score, a counter, a time or a
      length is a [Z].  The evaluation schema asks the language model for
      a score from 0 to 100; the development covers the answers whose
      score is a whole number.  Array indices (the plan cursor) are [nat],
      looked up with [!!].
    - A JavaScript string is the [string] of the bytes of its UTF-8
      encoding.  [length] counts UTF-16 code units, as JavaScript does;
      [trim] and the class [\s] cover the Unicode white space;
      [toLowerCase] changes the letters A to Z and keeps every other
      character.
    - A [Map] is a [gmap string _], and so is an object used as a
      dictionary, its own properties being the entries.  A plain object
      also inherits the members of [Object.prototype]
      ([JsObject.inherited]); [context.responses[id]] for such an [id]
      finds the inherited member when no response is stored.  The statements
      about what is stored for a question say where they need the id of
      the question not to be such a name.
    - An [async] method that can throw is a function from the store to the
      store after the call and either an error or a value: what was mutated
      before the [throw] stays mutated.
    - The answers of the external collaborators (language model, database)
      are inputs of each call, so every theorem holds whatever they
      answer.  The prompts sent to the language model are not built, and
      the rows written to the database are not kept. *)

From Stdlib Require Import ZArith QArith Qround Lia Ascii.
From stdpp Require Import gmap strings list fin_maps pretty.

Local Open Scope Z_scope.

(** ** JavaScript strings *)

Module JsString.

Definition lowerChar (c : ascii) : ascii :=
  let n := nat_of_ascii c in
  if (Nat.leb 65 n && Nat.leb n 90)%bool then ascii_of_nat (n + 32) else c.

(** [s.toLowerCase()] *)
Fixpoint toLowerCase (s : string) : string :=
  match s with
  | EmptyString => EmptyString
  | String c s' => String (lowerChar c) (toLowerCase s')
  end.

(** [s.startsWith(p)] *)
Fixpoint startsWith (s p : string) {struct p} : bool :=
  match p, s with
  | EmptyString, _ => true
  | String _ _, EmptyString => false
  | String a p', String b s' => if Ascii.eqb a b then startsWith s' p' else false
  end.

(** [s.includes(sub)] *)
Fixpoint includes (s sub : string) : bool :=
  startsWith s sub ||
  match s with
  | EmptyString => false
  | String _ s' => includes s' sub
  end.

(** A byte that continues a UTF-8 sequence: 10xxxxxx. *)
Definition isContinuation (c : ascii) : bool :=
  let n := nat_of_ascii c in
  Nat.leb 128 n && Nat.leb n 191.

(** The number of UTF-16 code units of the text: one for each character,
    and two for a character outside the basic plane, which is the one that
    takes four bytes (first byte 11110xxx). *)
Fixpoint codeUnits (s : string) : nat :=
  match s with
  | EmptyString => 0
  | String c s' =>
      (if isContinuation c then 0
       else if Nat.leb 240 (nat_of_ascii c) then 2
       else 1) + codeUnits s'
  end.

(** [s.length] *)
Definition length (s : string) : Z := Z.of_nat (codeUnits s).

(** [parts.join(sep)] *)
Fixpoint join (sep : string) (parts : list string) : string :=
  match parts with
  | [] => EmptyString
  | [p] => p
  | p :: rest => p +:+ sep +:+ join sep rest
  end.

(** [s.split(sep)] for a one-character separator *)
Fixpoint split (sep : ascii) (s : string) : list string :=
  match s with
  | EmptyString => [EmptyString]
  | String c s' =>
      if Ascii.eqb c sep then EmptyString :: split sep s'
      else match split sep s' with
           | first :: rest => String c first :: rest
           | [] => [String c EmptyString]
           end
  end.

(** The members of the class [\s] that take one byte: TAB, LF, VT, FF, CR
    and the space. *)
Definition isSpace (c : ascii) : bool :=
  let n := nat_of_ascii c in
  (Nat.leb 9 n && Nat.leb n 13) || Nat.eqb n 32.

(** The one that takes two bytes: U+00A0. *)
Definition isSpace2 (a b : ascii) : bool :=
  Ascii.eqb a "194" && Ascii.eqb b "160".

(** Those that take three: U+1680, U+2000 to U+200A, U+2028, U+2029,
    U+202F, U+205F, U+3000 and U+FEFF. *)
Definition isSpace3 (a b c : ascii) : bool :=
  (Ascii.eqb a "225" && Ascii.eqb b "154" && Ascii.eqb c "128")
  || (Ascii.eqb a "226" && Ascii.eqb b "128"
      && ((Nat.leb 128 (nat_of_ascii c) && Nat.leb (nat_of_ascii c) 138)
          || Ascii.eqb c "168" || Ascii.eqb c "169" || Ascii.eqb c "175"))
  || (Ascii.eqb a "226" && Ascii.eqb b "129" && Ascii.eqb c "159")
  || (Ascii.eqb a "227" && Ascii.eqb b "128" && Ascii.eqb c "128")
  || (Ascii.eqb a "239" && Ascii.eqb b "187" && Ascii.eqb c "191").

(** Drops the white space at the start ([\s*]). *)
Fixpoint dropSpaces (s : string) : string :=
  match s with
  | EmptyString => EmptyString
  | String a s1 =>
      if isSpace a then dropSpaces s1
      else
        match s1 with
        | String b s2 =>
            if isSpace2 a b then dropSpaces s2
            else
              match s2 with
              | String c s3 => if isSpace3 a b c then dropSpaces s3 else s
              | EmptyString => s
              end
        | EmptyString => s
        end
  end.

Definition allSpaces (s : string) : bool :=
  match dropSpaces s with
  | EmptyString => true
  | String _ _ => false
  end.

(** The class [\d]. *)
Definition isDigit (c : ascii) : bool :=
  let n := nat_of_ascii c in
  Nat.leb 48 n && Nat.leb n 57.

(** Drops a longest prefix of characters in a one-byte class ([\d*]). *)
Fixpoint dropWhile (p : ascii → bool) (s : string) : string :=
  match s with
  | EmptyString => EmptyString
  | String c s' => if p c then dropWhile p s' else s
  end.

(** Drops the white space at the end: the text is cut where what is left
    of it is white space only. *)
Fixpoint trimEnd (s : string) : string :=
  match s with
  | EmptyString => EmptyString
  | String c s' => if allSpaces s then EmptyString else String c (trimEnd s')
  end.

(** [s.trim()] *)
Definition trim (s : string) : string := trimEnd (dropSpaces s).

(** [s.match(/^\d+\./)], as a truth value *)
Definition matchesNumbered (s : string) : bool :=
  match s with
  | EmptyString => false
  | String c s' => isDigit c && startsWith (dropWhile isDigit s') "."
  end.

(** The bullet character U+2022, as its three UTF-8 bytes. *)
Definition bullet : string :=
  String "226" (String "128" (String "162" EmptyString)).

Fixpoint dropPrefix (n : nat) (s : string) : string :=
  match n, s with
  | O, _ => s
  | S n', String _ s' => dropPrefix n' s'
  | S _, EmptyString => EmptyString
  end.

(** [s.replace(/^[-\u2022]\s*/, '')] *)
Definition stripBullet (s : string) : string :=
  if startsWith s "-" then dropSpaces (dropPrefix 1 s)
  else if startsWith s bullet then dropSpaces (dropPrefix 3 s)
  else s.

(** [s.replace(/^\d+\.\s*/, '')] *)
Definition stripNumber (s : string) : string :=
  if matchesNumbered s
  then dropSpaces (dropPrefix 1 (dropWhile isDigit s))
  else s.

(** [s] contains [tok] when the case of letters is ignored. *)
Definition containsIgnoringCase (s tok : string) : Prop :=
  ∃ pre mid post, s = pre +:+ mid +:+ post ∧ toLowerCase mid = tok.

End JsString.

(** ** Plain objects used as dictionaries *)

Module JsObject.

(** The names every plain object inherits from [Object.prototype]: [o[key]]
    finds the member of the prototype when [o] has no own property
    [key]. *)
Definition inherited (key : string) : bool :=
  existsb (String.eqb key)
    ["constructor"; "toString"; "toLocaleString"; "valueOf";
     "hasOwnProperty"; "isPrototypeOf"; "propertyIsEnumerable"; "__proto__";
     "__defineGetter__"; "__defineSetter__"; "__lookupGetter__";
     "__lookupSetter__"].

End JsObject.

(** ** interfaces/interview-state.interface.ts *)

Inductive Recommendation := hire | no_hire | maybe.

Inductive Role := system | user | assistant.

Module ChatMessage.
Record t := mk { role : Role; content : string }.
End ChatMessage.

Module ScoringCriteria.
Record t := mk {
  rubric : string;
  keyPoints : list string;
  maxScore : Z;
  weight : Z;
}.
End ScoringCriteria.

Module Question.
Record t := mk {
  id : string;
  text : string;
  type : string;
  scoringCriteria : ScoringCriteria.t;
  timeLimit : option Z;
  order : Z;
}.

(** [{ ...question, text: newText }] *)
Definition withText (q : t) (newText : string) : t :=
  mk (id q) newText (type q) (scoringCriteria q) (timeLimit q) (order q).
End Question.

(** The evaluation the language model returns for an answer; [score] is
    the whole number it gives. *)
Module EvaluationResult.
Record t := mk {
  score : Z;
  strengths : list string;
  weaknesses : list string;
  recommendation : Recommendation;
  reasoning : string;
}.
End EvaluationResult.

(** The template as Prisma loads it: [template.assessments] is the ordered
    list of template-assessment rows, each with its [assessmentId], its
    [weightage] and the joined [assessment]; [assessment.questions] is a
    JSON column, read everywhere as [(questions as any[]) || []]. *)
Module Assessment.
Record t := mk {
  name : string;
  questions : option (list Question.t);
}.

(** [(assessment.questions as any[]) || []] *)
Definition questionsOrEmpty (a : t) : list Question.t :=
  default [] (questions a).
End Assessment.

Module TemplateAssessment.
Record t := mk {
  assessmentId : string;
  weightage : Z;
  assessment : Assessment.t;
}.
End TemplateAssessment.

Module Template.
Record t := mk {
  id : string;
  jobTitle : string;
  jobDescription : option string;
  assessments : list TemplateAssessment.t;
}.
End Template.

(** A value of [ConversationContext.responses]. *)
Module StoredResponse.
Record t := mk {
  text : string;
  score : Z;
  followUpsAsked : Z;
  evaluation : option string;
}.

(** [response.followUpsAsked++] *)
Definition incrFollowUps (r : t) : t :=
  mk (text r) (score r) (followUpsAsked r + 1) (evaluation r).
End StoredResponse.

Module CandidateInfo.
Record t := mk { name : string; email : string }.
End CandidateInfo.

Module ConversationContext.
Record t := mk {
  sessionId : string;
  interviewId : string;
  template : Template.t;
  currentAssessmentIndex : nat;
  currentQuestionIndex : nat;
  conversationHistory : list ChatMessage.t;
  candidateInfo : CandidateInfo.t;
  responses : gmap string StoredResponse.t;
}.

Definition setCursor (c : t) (a q : nat) : t :=
  mk (sessionId c) (interviewId c) (template c) a q
     (conversationHistory c) (candidateInfo c) (responses c).

Definition setHistory (c : t) (h : list ChatMessage.t) : t :=
  mk (sessionId c) (interviewId c) (template c) (currentAssessmentIndex c)
     (currentQuestionIndex c) h (candidateInfo c) (responses c).

Definition setResponses (c : t) (r : gmap string StoredResponse.t) : t :=
  mk (sessionId c) (interviewId c) (template c) (currentAssessmentIndex c)
     (currentQuestionIndex c) (conversationHistory c) (candidateInfo c) r.
End ConversationContext.

Module Progress.
Record t := mk {
  currentAssessment : Z;
  totalAssessments : Z;
  currentQuestion : Z;
  totalQuestions : Z;
}.
End Progress.

Module TurnResponse.
Record t := mk { text : string; score : Z; evaluation : string }.
End TurnResponse.

Module InterviewTurn.
Record t := mk {
  response : TurnResponse.t;
  nextQuestion : option Question.t;
  isComplete : bool;
  progress : Progress.t;
}.
End InterviewTurn.

Module InterviewSummary.
Record t := mk {
  interviewId : string;
  overallScore : Z;
  scoreBreakdown : gmap string Z;
  evaluation : string;
  strengths : list string;
  weaknesses : list string;
  recommendation : Recommendation;
  insights : list string;
}.
End InterviewSummary.

(** The interview row the orchestrator reads from the database. *)
Module Interview.
Record t := mk {
  id : string;
  templateId : string;
  candidateName : string;
  candidateEmail : string;
  status : string;
  template : Template.t;
}.
End Interview.

(** ** Asynchronous calls that can throw

    [Async S A] is a call on a store of type [S]: it returns the store as
    the call left it and either the exception it threw or its value. *)

Inductive Exception :=
  | NotFoundException (message : string)
  | BadRequestException (message : string)
  | TypeError
  | CollaboratorRejected.

Definition Async (S A : Type) : Type := S → S * (Exception + A).

Section async.
Context {S : Type}.

Definition resolve {A} (a : A) : Async S A := λ s, (s, inr a).

Definition throw {A} (e : Exception) : Async S A := λ s, (s, inl e).

Definition andThen {A B} (m : Async S A) (k : A → Async S B) : Async S B :=
  λ s, match m s with
       | (s', inl e) => (s', inl e)
       | (s', inr a) => k a s'
       end.

(** The answer of an external collaborator: [None] when its promise
    rejects. *)
Definition await {A} (outcome : option A) : Async S A :=
  match outcome with
  | Some a => resolve a
  | None => throw CollaboratorRejected
  end.

Definition modifyStore (f : S → S) : Async S unit := λ s, (f s, inr tt).
End async.

#[global] Instance Async_ret {S} : MRet (Async S) := @resolve S.
#[global] Instance Async_bind {S} : MBind (Async S) := λ A B k m, andThen m k.


(** ** ResponseEvaluatorService *)

Module ResponseEvaluatorService.

(** The [catch] branch of [evaluateResponse]. *)
Definition fallbackEvaluation : EvaluationResult.t :=
  EvaluationResult.mk 50 ["Response provided"] ["Unable to fully evaluate"]
    maybe "Evaluation service temporarily unavailable".

(** [evaluateResponse(question, response)]; [generateWithJSON] is what the
    language model call returned, [None] when it threw. *)
Definition evaluateResponse (question : Question.t) (response : string)
    (generateWithJSON : option EvaluationResult.t) : EvaluationResult.t :=
  match generateWithJSON with
  | Some evaluation =>
      if (EvaluationResult.score evaluation <? 0)
         || (EvaluationResult.score evaluation >? 100)
      then EvaluationResult.mk
             (Z.max 0 (Z.min 100 (EvaluationResult.score evaluation)))
             (EvaluationResult.strengths evaluation)
             (EvaluationResult.weaknesses evaluation)
             (EvaluationResult.recommendation evaluation)
             (EvaluationResult.reasoning evaluation)
      else evaluation
  | None => fallbackEvaluation
  end.

Definition weaknessAsksClarification (w : string) : bool :=
  JsString.includes (JsString.toLowerCase w) "unclear" ||
  JsString.includes (JsString.toLowerCase w) "vague" ||
  JsString.includes (JsString.toLowerCase w) "specific".

(** [needsFollowUp(evaluation, followUpsAlreadyAsked, responseLength)] *)
Definition needsFollowUp (evaluation : EvaluationResult.t)
    (followUpsAlreadyAsked responseLength : Z) : bool :=
  if followUpsAlreadyAsked >=? 2 then false
  else if (EvaluationResult.score evaluation <? 50) && (followUpsAlreadyAsked <? 1)
  then true
  else if (responseLength <? 50) && (followUpsAlreadyAsked <? 1) then true
  else if existsb weaknessAsksClarification (EvaluationResult.weaknesses evaluation)
          && (followUpsAlreadyAsked <? 1)
  then true
  else false.

(** [generateEvaluationText(evaluation)] *)
Definition generateEvaluationText (evaluation : EvaluationResult.t) : string :=
  let parts :=
    (if 0 <? Z.of_nat (length (EvaluationResult.strengths evaluation))
     then ["Strengths: " +:+ JsString.join ", " (EvaluationResult.strengths evaluation)]
     else [])
    ++ (if 0 <? Z.of_nat (length (EvaluationResult.weaknesses evaluation))
        then ["Areas for improvement: "
                +:+ JsString.join ", " (EvaluationResult.weaknesses evaluation)]
        else [])
    ++ ["Score: " +:+ pretty (EvaluationResult.score evaluation) +:+ "/100"]
    ++ ["Reasoning: " +:+ EvaluationResult.reasoning evaluation] in
  JsString.join (String "010" EmptyString) parts.

End ResponseEvaluatorService.

(** ** QuestionGeneratorService

    Each method builds a prompt and awaits [openaiService.chat]; the
    argument [chat] is what that call returned. *)

Module QuestionGeneratorService.

Definition generateOpeningMessage (candidateName jobTitle : string)
    {S} (chat : option string) : Async S string :=
  await chat.

(** [adaptQuestionToContext]: without a job description the base text is
    returned and the model is not called; a failing call falls back to
    the base text. *)
Definition adaptQuestionToContext (baseQuestion : Question.t)
    (candidateInfo : CandidateInfo.t) (jobDescription : option string)
    (chat : option string) : string :=
  match jobDescription with
  | None => Question.text baseQuestion
  | Some EmptyString => Question.text baseQuestion
  | Some _ =>
      match chat with
      | Some adapted => adapted
      | None => Question.text baseQuestion
      end
  end.

Definition generateFollowUp (originalQuestion candidateResponse : string)
    (scoringCriteria : ScoringCriteria.t)
    {S} (chat : option string) : Async S string :=
  await chat.

Definition generateTransitionMessage (currentAssessment nextAssessment : string)
    {S} (chat : option string) : Async S string :=
  await chat.

End QuestionGeneratorService.

(** ** ConversationManagerService

    [sessionStore] is a [Map<string, ConversationContext>].  The map holds
    references: [getContext] hands out the stored object itself, and every
    method of one call mutates that one object.  Here the object is named
    by the key it is stored under: [mutate key context] is an in-place
    mutation of it, and a read of a field after a mutation is a fresh
    [getContext].  [createSession] stores each context under its own
    [sessionId] and no method changes that field ([reachable_wellKeyed]
    below), so [updateContext] writes an object back to the key it was
    read from. *)

Module ConversationManagerService.

Abbreviation Store := (gmap string ConversationContext.t).

Definition mutate (key : string) (context : ConversationContext.t)
  : Async Store unit :=
  modifyStore (λ sessionStore, <[key := context]> sessionStore).

(** [createSession(interview)]; [now] is [Date.now()] and [findTemplate]
    what [prisma.template.findUnique] returned ([Some None] for [null]). *)
Definition createSession (interview : Interview.t) (now : Z)
    (findTemplate : option (option Template.t)) : Async Store string :=
  let sessionId :=
    "interview:" +:+ Interview.id interview +:+ ":" +:+ pretty now in
  template ← await findTemplate;
  match template with
  | None => throw (NotFoundException "Template not found")
  | Some template =>
      let context :=
        ConversationContext.mk sessionId (Interview.id interview) template
          0%nat 0%nat []
          (CandidateInfo.mk (Interview.candidateName interview)
                            (Interview.candidateEmail interview))
          ∅ in
      modifyStore (λ sessionStore, <[sessionId := context]> sessionStore);;
      resolve sessionId
  end.

(** [getContext(sessionId)] *)
Definition getContext (sessionId : string) : Async Store ConversationContext.t :=
  λ sessionStore,
    match sessionStore !! sessionId with
    | None => (sessionStore, inl (NotFoundException "Session not found or expired"))
    | Some context => (sessionStore, inr context)
    end.

(** [updateContext(context)] *)
Definition updateContext (context : ConversationContext.t) : Async Store unit :=
  modifyStore (λ sessionStore,
    <[ConversationContext.sessionId context := context]> sessionStore).

(** [addMessage(sessionId, role, content)] *)
Definition addMessage (sessionId : string) (role : Role) (content : string)
  : Async Store unit :=
  context ← getContext sessionId;
  let context :=
    ConversationContext.setHistory context
      (ConversationContext.conversationHistory context
         ++ [ChatMessage.mk role content]) in
  mutate sessionId context;;
  updateContext context.

(** [getCurrentQuestion(context)] *)
Definition getCurrentQuestion (context : ConversationContext.t)
  : option Question.t :=
  let assessments := Template.assessments (ConversationContext.template context) in
  if (length assessments <=? ConversationContext.currentAssessmentIndex context)%nat
  then None
  else
    match assessments !! ConversationContext.currentAssessmentIndex context with
    | None => None
    | Some assessment =>
        let questions :=
          Assessment.questionsOrEmpty (TemplateAssessment.assessment assessment) in
        if (length questions <=? ConversationContext.currentQuestionIndex context)%nat
        then None
        else questions !! ConversationContext.currentQuestionIndex context
    end.

(** [moveToNextQuestion(sessionId)]; reading [.assessment] of a missing
    array element is a [TypeError]. *)
Definition moveToNextQuestion (sessionId : string) : Async Store bool :=
  context ← getContext sessionId;
  let assessments := Template.assessments (ConversationContext.template context) in
  match assessments !! ConversationContext.currentAssessmentIndex context with
  | None => throw TypeError
  | Some currentAssessment =>
      let questions :=
        Assessment.questionsOrEmpty
          (TemplateAssessment.assessment currentAssessment) in
      let context :=
        ConversationContext.setCursor context
          (ConversationContext.currentAssessmentIndex context)
          (ConversationContext.currentQuestionIndex context + 1) in
      mutate sessionId context;;
      if (length questions <=? ConversationContext.currentQuestionIndex context)%nat
      then
        let context :=
          ConversationContext.setCursor context
            (ConversationContext.currentAssessmentIndex context + 1) 0 in
        mutate sessionId context;;
        if (length assessments
              <=? ConversationContext.currentAssessmentIndex context)%nat
        then updateContext context;; resolve true
        else updateContext context;; resolve false
      else updateContext context;; resolve false
  end.

(** [getProgress(context)] *)
Definition getProgress (context : ConversationContext.t) : Progress.t :=
  let assessments := Template.assessments (ConversationContext.template context) in
  let questions :=
    match assessments !! ConversationContext.currentAssessmentIndex context with
    | Some currentAssessment =>
        Assessment.questionsOrEmpty
          (TemplateAssessment.assessment currentAssessment)
    | None => []
    end in
  Progress.mk
    (Z.of_nat (ConversationContext.currentAssessmentIndex context) + 1)
    (Z.of_nat (length assessments))
    (Z.of_nat (ConversationContext.currentQuestionIndex context) + 1)
    (Z.of_nat (length questions)).

(** [deleteSession(sessionId)] *)
Definition deleteSession (sessionId : string) : Async Store unit :=
  modifyStore (λ sessionStore, delete sessionId sessionStore).

End ConversationManagerService.

(** ** Math *)

Module Math.
(** [Math.round(a / b)] for integers [a] and [b > 0]: [Math.round] is
    [floor(x + 0.5)], and the double nearest to [a / b] lies on the same
    side of every half-integer as the quotient itself for operands
    below 2^52. *)
Definition roundQuot (a b : Z) : Z := (2 * a + b) / (2 * b).

(** [Math.round] of an integer. *)
Definition round (x : Z) : Z := x.
End Math.

(** The result of [startInterview]. *)
Module InterviewSession.
Record t := mk {
  sessionId : string;
  interviewId : string;
  openingMessage : string;
  firstQuestion : Question.t;
  context : ConversationContext.t;
}.
End InterviewSession.

(** ** InterviewOrchestratorService *)

Module InterviewOrchestratorService.
Import ConversationManagerService.

(** What the collaborators answer during one [startInterview]. *)
Module StartInterviewIO.
Record t := mk {
  findInterview : option (option Interview.t);
  now : Z;
  findTemplate : option (option Template.t);
  openingChat : option string;
  adaptChat : option string;
}.
End StartInterviewIO.

(** What the collaborators answer during one [processResponse]. *)
Module ProcessResponseIO.
Record t := mk {
  generateWithJSON : option EvaluationResult.t;
  followUpChat : option string;
  saveResponseToDatabase : option unit;
  transitionChat : option string;
  findInterview : option (option Interview.t);
  adaptChat : option string;
}.
End ProcessResponseIO.

(** What the collaborators answer during one [completeInterview]. *)
Module CompleteInterviewIO.
Record t := mk {
  chat : option string;
  interviewUpdate : option unit;
}.
End CompleteInterviewIO.

(** [startInterview(interviewId)] *)
Definition startInterview (interviewId : string) (io : StartInterviewIO.t)
  : Async Store InterviewSession.t :=
  interview ← await (StartInterviewIO.findInterview io);
  match interview with
  | None => throw (NotFoundException "Interview not found")
  | Some interview =>
      if negb (String.eqb (Interview.status interview) "ONGOING")
      then throw (BadRequestException
                    "Interview must be in ONGOING status to start AI session")
      else
        sessionId ← createSession interview (StartInterviewIO.now io)
                      (StartInterviewIO.findTemplate io);
        _ ← getContext sessionId;
        openingMessage ←
          QuestionGeneratorService.generateOpeningMessage
            (Interview.candidateName interview)
            (Template.jobTitle (Interview.template interview))
            (StartInterviewIO.openingChat io);
        addMessage sessionId assistant openingMessage;;
        context ← getContext sessionId;
        match getCurrentQuestion context with
        | None => throw (BadRequestException "No questions found in template")
        | Some firstQuestion =>
            let adaptedQuestion :=
              QuestionGeneratorService.adaptQuestionToContext firstQuestion
                (ConversationContext.candidateInfo context)
                (Template.jobDescription (Interview.template interview))
                (StartInterviewIO.adaptChat io) in
            addMessage sessionId assistant adaptedQuestion;;
            updatedContext ← getContext sessionId;
            resolve (InterviewSession.mk sessionId interviewId openingMessage
                       (Question.withText firstQuestion adaptedQuestion)
                       updatedContext)
        end
  end.

(** [handleInterviewComplete(sessionId)] *)
Definition handleInterviewComplete (sessionId : string) : InterviewTurn.t :=
  InterviewTurn.mk (TurnResponse.mk "" 0 "") None true (Progress.mk 0 0 0 0).

(** [processResponse(sessionId, responseText)].  [context] and
    [updatedContext] are the same stored object, so each read of a field
    is a read of the object as it is at that point. *)
Definition processResponse (sessionId responseText : string)
    (io : ProcessResponseIO.t) : Async Store InterviewTurn.t :=
  _ ← getContext sessionId;
  addMessage sessionId user responseText;;
  context ← getContext sessionId;
  match getCurrentQuestion context with
  | None => resolve (handleInterviewComplete sessionId)
  | Some currentQuestion =>
      let evaluation :=
        ResponseEvaluatorService.evaluateResponse currentQuestion responseText
          (ProcessResponseIO.generateWithJSON io) in
      let questionId := Question.id currentQuestion in
      let existingResponse :=
        default
          (StoredResponse.mk responseText (EvaluationResult.score evaluation) 0
             (Some (ResponseEvaluatorService.generateEvaluationText evaluation)))
          (ConversationContext.responses context !! questionId) in
      let needsFollowUp :=
        ResponseEvaluatorService.needsFollowUp evaluation
          (StoredResponse.followUpsAsked existingResponse)
          (JsString.length responseText) in
      '(nextQuestion, isComplete) ←
        ((if needsFollowUp then
           followUpText ←
             QuestionGeneratorService.generateFollowUp
               (Question.text currentQuestion) responseText
               (Question.scoringCriteria currentQuestion)
               (ProcessResponseIO.followUpChat io);
           let existingResponse := StoredResponse.incrFollowUps existingResponse in
           let context :=
             ConversationContext.setResponses context
               (<[questionId := existingResponse]>
                  (ConversationContext.responses context)) in
           mutate sessionId context;;
           updateContext context;;
           addMessage sessionId assistant followUpText;;
           resolve (Some (Question.withText currentQuestion followUpText), false)
         else
           let context :=
             ConversationContext.setResponses context
               (<[questionId := existingResponse]>
                  (ConversationContext.responses context)) in
           mutate sessionId context;;
           updateContext context;;
           await (ProcessResponseIO.saveResponseToDatabase io);;
           isComplete ← moveToNextQuestion sessionId;
           if (isComplete : bool) then resolve (None, true)
           else
             updatedContext ← getContext sessionId;
             match getCurrentQuestion updatedContext with
             | None => resolve (None, false)
             | Some nextQuestionData =>
                 context ← getContext sessionId;
                 (if (ConversationContext.currentAssessmentIndex context
                        <? ConversationContext.currentAssessmentIndex updatedContext)%nat
                  then
                    let assessments :=
                      Template.assessments (ConversationContext.template context) in
                    match
                      assessments !! ConversationContext.currentAssessmentIndex context,
                      assessments !! ConversationContext.currentAssessmentIndex updatedContext
                    with
                    | Some prev, Some next =>
                        transition ←
                          QuestionGeneratorService.generateTransitionMessage
                            (Assessment.name (TemplateAssessment.assessment prev))
                            (Assessment.name (TemplateAssessment.assessment next))
                            (ProcessResponseIO.transitionChat io);
                        addMessage sessionId assistant transition
                    | _, _ => throw TypeError
                    end
                  else resolve tt);;
                 interview ← await (ProcessResponseIO.findInterview io);
                 let adaptedNextQuestion :=
                   QuestionGeneratorService.adaptQuestionToContext nextQuestionData
                     (ConversationContext.candidateInfo context)
                     (interview ← interview;
                      Template.jobDescription (Interview.template interview))
                     (ProcessResponseIO.adaptChat io) in
                 addMessage sessionId assistant adaptedNextQuestion;;
                 resolve (Some (Question.withText nextQuestionData adaptedNextQuestion),
                          false)
             end) : Async Store (option Question.t * bool));
      finalContext ← getContext sessionId;
      resolve
        (InterviewTurn.mk
           (TurnResponse.mk responseText (EvaluationResult.score evaluation)
              (ResponseEvaluatorService.generateEvaluationText evaluation))
           nextQuestion isComplete (getProgress finalContext))
  end.

(** *** [completeInterview] *)

Inductive SummarySection :=
  | noSection | strengthsSection | weaknessesSection | insightsSection.

(** The local variables of the loop that reads the narrative. *)
Module Narrative.
Record t := mk {
  currentSection : SummarySection;
  strengths : list string;
  weaknesses : list string;
  recommendation : Recommendation;
  insights : list string;
}.

Definition initial : t := mk noSection [] [] maybe [].

Definition setSection (n : t) (s : SummarySection) : t :=
  mk s (strengths n) (weaknesses n) (recommendation n) (insights n).

Definition setRecommendation (n : t) (r : Recommendation) : t :=
  mk (currentSection n) (strengths n) (weaknesses n) r (insights n).

Definition pushItem (n : t) (item : string) : t :=
  match item, currentSection n with
  | EmptyString, _ => n
  | _, strengthsSection =>
      mk (currentSection n) (strengths n ++ [item]) (weaknesses n)
         (recommendation n) (insights n)
  | _, weaknessesSection =>
      mk (currentSection n) (strengths n) (weaknesses n ++ [item])
         (recommendation n) (insights n)
  | _, insightsSection =>
      mk (currentSection n) (strengths n) (weaknesses n)
         (recommendation n) (insights n ++ [item])
  | _, noSection => n
  end.
End Narrative.

(** The body of [for (const line of lines)]. *)
Definition readLine (n : Narrative.t) (line : string) : Narrative.t :=
  let lower := JsString.toLowerCase line in
  if JsString.includes lower "strength" then Narrative.setSection n strengthsSection
  else if JsString.includes lower "weakness"
  then Narrative.setSection n weaknessesSection
  else if JsString.includes lower "recommendation" then
    if JsString.includes lower "hire" && negb (JsString.includes lower "no")
    then Narrative.setRecommendation n hire
    else if JsString.includes lower "no-hire"
    then Narrative.setRecommendation n no_hire
    else n
  else if JsString.includes lower "insight"
  then Narrative.setSection n insightsSection
  else if JsString.startsWith (JsString.trim line) "-"
          || JsString.matchesNumbered (JsString.trim line)
  then Narrative.pushItem n
         (JsString.trim (JsString.stripNumber (JsString.stripBullet line)))
  else n.

Definition readNarrative (summary : string) : Narrative.t :=
  fold_left readLine (JsString.split "010" summary) Narrative.initial.

(** [Object.entries(context.responses)]; the order of the entries does
    not change the sums below. *)
Definition entries (responses : gmap string StoredResponse.t)
  : list (string * StoredResponse.t) :=
  map_to_list responses.

(** The overall score, lines 451-456. *)
Definition overallScoreOf (context : ConversationContext.t) : Z :=
  let scores :=
    map (λ r, StoredResponse.score r.2)
        (entries (ConversationContext.responses context)) in
  if 0 <? Z.of_nat (length scores)
  then Math.roundQuot (fold_left Z.add scores 0) (Z.of_nat (length scores))
  else 0.

(** The score breakdown by assessment, lines 458-478. *)
Definition scoreBreakdownOf (context : ConversationContext.t) : gmap string Z :=
  fold_left
    (λ (scoreBreakdown : gmap string Z) (ta : TemplateAssessment.t),
       let assessmentId := TemplateAssessment.assessmentId ta in
       let assessmentResponses :=
         List.filter
           (λ entry : string * StoredResponse.t,
              let questions :=
                Assessment.questionsOrEmpty (TemplateAssessment.assessment ta) in
              existsb (λ q, String.eqb (Question.id q) entry.1) questions)
           (entries (ConversationContext.responses context)) in
       if 0 <? Z.of_nat (length assessmentResponses)
       then
         <[assessmentId :=
             Math.roundQuot
               (fold_left (λ sum entry, sum + StoredResponse.score entry.2)
                          assessmentResponses 0)
               (Z.of_nat (length assessmentResponses))]> scoreBreakdown
       else scoreBreakdown)
    (Template.assessments (ConversationContext.template context))
    ∅.

Definition orDefault (items fallback : list string) : list string :=
  if 0 <? Z.of_nat (length items) then items else fallback.

(** [completeInterview(sessionId)] *)
Definition completeInterview (sessionId : string) (io : CompleteInterviewIO.t)
  : Async Store InterviewSummary.t :=
  context ← getContext sessionId;
  let overallScore := overallScoreOf context in
  let scoreBreakdown := scoreBreakdownOf context in
  let '(evaluation, narrative) :=
    match CompleteInterviewIO.chat io with
    | Some summary => (summary, readNarrative summary)
    | None => ("Summary generation failed", Narrative.initial)
    end in
  await (CompleteInterviewIO.interviewUpdate io);;
  deleteSession sessionId;;
  resolve
    (InterviewSummary.mk
       (ConversationContext.interviewId context)
       overallScore
       scoreBreakdown
       evaluation
       (orDefault (Narrative.strengths narrative)
                  ["No specific strengths identified"])
       (orDefault (Narrative.weaknesses narrative)
                  ["No major weaknesses identified"])
       (Narrative.recommendation narrative)
       (orDefault (Narrative.insights narrative) ["Continue evaluation process"])).

End InterviewOrchestratorService.

(** ** websockets: the session registry *)

Module Websockets.

(** interfaces/session.interface.ts; a [Date] is its time in
    milliseconds. *)
Module InterviewSession.
Record t := mk {
  id : string;
  interviewId : string;
  aiSessionId : option string;
  candidateSocketId : string;
  recruiterSocketIds : list string;
  isActive : bool;
  currentQuestionId : option string;
  currentQuestion : option string;
  currentAssessmentId : option string;
  currentQuestionStartTime : option Z;
  progress : Progress.t;
  trustScore : Z;
  interruptedAt : option Z;
  interruptionReason : option string;
  startedAt : option Z;
  completedAt : option Z;
  createdAt : Z;
}.
End InterviewSession.

(** A [Partial<InterviewSession>] object literal: the properties it sets,
    in the order they are written. *)
Inductive Property :=
  | aiSessionId (v : string)
  | candidateSocketId (v : string)
  | recruiterSocketIds (v : list string)
  | isActive (v : bool)
  | currentQuestionId (v : string)
  | currentQuestion (v : string)
  | currentQuestionStartTime (v : Z)
  | progress (v : Progress.t)
  | trustScore (v : Z)
  | interruptedAt (v : Z)
  | interruptionReason (v : string)
  | startedAt (v : Z)
  | completedAt (v : Z).

Definition assign (s : InterviewSession.t) (p : Property) : InterviewSession.t :=
  let '(InterviewSession.mk id iid ai cand recs act qid q aid qst prog trust
          intAt intReason started completed created) := s in
  match p with
  | aiSessionId v =>
      InterviewSession.mk id iid (Some v) cand recs act qid q aid qst prog trust
        intAt intReason started completed created
  | candidateSocketId v =>
      InterviewSession.mk id iid ai v recs act qid q aid qst prog trust
        intAt intReason started completed created
  | recruiterSocketIds v =>
      InterviewSession.mk id iid ai cand v act qid q aid qst prog trust
        intAt intReason started completed created
  | isActive v =>
      InterviewSession.mk id iid ai cand recs v qid q aid qst prog trust
        intAt intReason started completed created
  | currentQuestionId v =>
      InterviewSession.mk id iid ai cand recs act (Some v) q aid qst prog trust
        intAt intReason started completed created
  | currentQuestion v =>
      InterviewSession.mk id iid ai cand recs act qid (Some v) aid qst prog trust
        intAt intReason started completed created
  | currentQuestionStartTime v =>
      InterviewSession.mk id iid ai cand recs act qid q aid (Some v) prog trust
        intAt intReason started completed created
  | progress v =>
      InterviewSession.mk id iid ai cand recs act qid q aid qst v trust
        intAt intReason started completed created
  | trustScore v =>
      InterviewSession.mk id iid ai cand recs act qid q aid qst prog v
        intAt intReason started completed created
  | interruptedAt v =>
      InterviewSession.mk id iid ai cand recs act qid q aid qst prog trust
        (Some v) intReason started completed created
  | interruptionReason v =>
      InterviewSession.mk id iid ai cand recs act qid q aid qst prog trust
        intAt (Some v) started completed created
  | startedAt v =>
      InterviewSession.mk id iid ai cand recs act qid q aid qst prog trust
        intAt intReason (Some v) completed created
  | completedAt v =>
      InterviewSession.mk id iid ai cand recs act qid q aid qst prog trust
        intAt intReason started (Some v) created
  end.

(** [{ ...session, ...updates }] *)
Definition spread (session : InterviewSession.t) (updates : list Property)
  : InterviewSession.t :=
  fold_left assign updates session.

Module InterviewSessionManager.

Abbreviation Sessions := (gmap string InterviewSession.t).

Definition interviewKey (interviewId : string) : string :=
  "interview:" +:+ interviewId.

(** [createSession(interview, socketId)].  The clock is read twice: [now]
    is the [Date.now()] of the session id, [date] the [new Date()] of
    [createdAt], taken after the template was awaited; [findTemplate] is
    what [prisma.template.findUnique] returned. *)
Definition createSession (interview : Interview.t) (socketId : string)
    (now : Z) (findTemplate : option (option Template.t)) (date : Z)
  : Async Sessions InterviewSession.t :=
  let sessionId := "session:" +:+ Interview.id interview +:+ ":" +:+ pretty now in
  template ← await findTemplate;
  let assessments := default [] (Template.assessments <$> template) in
  let totalQuestions :=
    fold_left
      (λ sum ta,
         sum + Z.of_nat (length (Assessment.questionsOrEmpty
                                   (TemplateAssessment.assessment ta))))
      assessments 0 in
  let session :=
    InterviewSession.mk sessionId (Interview.id interview) None socketId []
      false None None None None
      (Progress.mk 0 (Z.of_nat (length assessments)) 0 totalQuestions)
      100 None None None None date in
  modifyStore (λ sessions : Sessions,
    <[interviewKey (Interview.id interview) := session]>
      (<[sessionId := session]> sessions));;
  resolve session.

(** [getSession(sessionId)] *)
Definition getSession (sessionId : string) : Async Sessions InterviewSession.t :=
  λ sessions,
    match sessions !! sessionId with
    | None => (sessions, inl (NotFoundException "Session not found"))
    | Some session => (sessions, inr session)
    end.

(** [getSessionByInterviewId(interviewId)] *)
Definition getSessionByInterviewId (interviewId : string)
  : Async Sessions (option InterviewSession.t) :=
  λ sessions, (sessions, inr (sessions !! interviewKey interviewId)).

(** [updateSession(sessionId, updates)] *)
Definition updateSession (sessionId : string) (updates : list Property)
  : Async Sessions unit :=
  session ← getSession sessionId;
  let updated := spread session updates in
  modifyStore (λ sessions : Sessions, <[sessionId := updated]> sessions);;
  interviewSession ←
    getSessionByInterviewId (InterviewSession.interviewId session);
  match interviewSession with
  | Some interviewSession =>
      if String.eqb (InterviewSession.id interviewSession) sessionId
      then modifyStore (λ sessions : Sessions,
             <[interviewKey (InterviewSession.interviewId session) := updated]>
               sessions)
      else resolve tt
  | None => resolve tt
  end.

(** [updateProgress(sessionId, progress)] *)
Definition updateProgress (sessionId : string) (p : Progress.t)
  : Async Sessions unit :=
  updateSession sessionId [progress p].

(** [addRecruiterObserver(sessionId, socketId)].  The [push] mutates the
    array of the stored session; the two entries of a session share it
    and [updateSession] rewrites both. *)
Definition addRecruiterObserver (sessionId socketId : string)
  : Async Sessions unit :=
  session ← getSession sessionId;
  if negb (existsb (String.eqb socketId) (InterviewSession.recruiterSocketIds session))
  then
    let session :=
      assign session
        (recruiterSocketIds (InterviewSession.recruiterSocketIds session ++ [socketId])) in
    modifyStore (λ sessions : Sessions, <[sessionId := session]> sessions);;
    updateSession sessionId
      [recruiterSocketIds (InterviewSession.recruiterSocketIds session)]
  else resolve tt.

(** [removeParticipant(sessionId, socketId)] *)
Definition removeParticipant (sessionId socketId : string)
  : Async Sessions unit :=
  session ← getSession sessionId;
  let updatedRecruiters :=
    List.filter (λ id, negb (String.eqb id socketId))
                (InterviewSession.recruiterSocketIds session) in
  if String.eqb (InterviewSession.candidateSocketId session) socketId
  then updateSession sessionId
         [isActive false; candidateSocketId ""; recruiterSocketIds updatedRecruiters]
  else updateSession sessionId [recruiterSocketIds updatedRecruiters].

(** [deleteSession(sessionId)] *)
Definition deleteSession (sessionId : string) : Async Sessions unit :=
  session ← getSession sessionId;
  modifyStore (λ sessions : Sessions,
    delete (interviewKey (InterviewSession.interviewId session))
           (delete sessionId sessions)).

(** [cleanupExpiredSessions()]; [now] is [Date.now()].  The keys of the
    expired entries are collected first and deleted afterwards. *)
Definition cleanupExpiredSessions (now : Z) (sessions : Sessions) : Sessions :=
  let expired :=
    omap (λ entry : string * InterviewSession.t,
            let age := now - InterviewSession.createdAt entry.2 in
            if 86400000 <? age then Some entry.1 else None)
         (map_to_list sessions) in
  fold_left (λ sessions key, delete key sessions) expired sessions.

End InterviewSessionManager.

End Websockets.

(** ** InterviewGateway: joining, observing, and the trust score *)

Module FaceDetection.
Record t := mk { timestamp : Z; facesDetected : Z }.
End FaceDetection.

(** The [proctorData] JSON column; a property can be missing. *)
Module ProctorData.
Record t := mk {
  faceDetections : option (list FaceDetection.t);
  tabSwitches : option Z;
  fullscreenExits : option Z;
  suspiciousActivity : option (list string);
}.
End ProctorData.

Module InterviewGateway.
Import Websockets Websockets.InterviewSessionManager.

(** What a handler sends: [client.emit(event, { message })] or
    [server.to(room).emit(event, ...)]. *)
Inductive Emit :=
  | clientEmit (event message : string)
  | roomEmit (room event : string).

(** What a handler leaves behind besides the registry: the events it
    sent and the [client.data.sessionId] it stored, if any. *)
Module Handled.
Record t := mk { emitted : list Emit; sessionId : option string }.
End Handled.

(** [try { body } catch (error) { client.emit('error', { message }) }] *)
Definition tryCatch (body : Async Sessions Handled.t) (message : string)
  : Sessions → Sessions * Handled.t :=
  λ sessions,
    match body sessions with
    | (sessions', inr handled) => (sessions', handled)
    | (sessions', inl _) =>
        (sessions', Handled.mk [clientEmit "error" message] None)
    end.

(** What the collaborators and the clock answer during one
    [handleJoinInterview]: [now] and [date] are the two readings of the
    clock in [createSession]. *)
Module JoinInterviewIO.
Record t := mk {
  findInterview : option (option Interview.t);
  now : Z;
  findTemplate : option (option Template.t);
  date : Z;
}.
End JoinInterviewIO.

(** [handleJoinInterview(client, data)]; [clientId] is [client.id]. *)
Definition handleJoinInterview (clientId interviewId : string)
    (io : JoinInterviewIO.t) : Sessions → Sessions * Handled.t :=
  tryCatch
    (interview ← await (JoinInterviewIO.findInterview io);
     match interview with
     | None =>
         resolve (Handled.mk
                    [clientEmit "error" "Interview not found or invalid token"] None)
     | Some interview =>
         if negb (String.eqb (Interview.status interview) "ONGOING")
            && negb (String.eqb (Interview.status interview) "SCHEDULED")
         then resolve (Handled.mk
                         [clientEmit "error" "Interview is not available"] None)
         else
           existing ← getSessionByInterviewId interviewId;
           session ←
             match existing with
             | None =>
                 createSession interview clientId (JoinInterviewIO.now io)
                   (JoinInterviewIO.findTemplate io) (JoinInterviewIO.date io)
             | Some session =>
                 updateSession (InterviewSession.id session)
                   [candidateSocketId clientId];;
                 resolve session
             end;
           resolve (Handled.mk
                      [roomEmit (interviewKey interviewId) "candidate-joined";
                       clientEmit "interview-ready" (InterviewSession.id session)]
                      (Some (InterviewSession.id session)))
     end)
    "Failed to join interview".

(** [handleObserveInterview(client, data)]; [findOne] is [None] when
    [interviewsService.findOne] throws. *)
Definition handleObserveInterview (clientId interviewId : string)
    (findOne : option Interview.t) : Sessions → Sessions * Handled.t :=
  tryCatch
    (interview ← await findOne;
     session ← getSessionByInterviewId interviewId;
     match session with
     | Some session => addRecruiterObserver (InterviewSession.id session) clientId
     | None => resolve tt
     end;;
     resolve (Handled.mk
                [clientEmit "observation-started" (Interview.id interview)] None))
    "Failed to observe interview".

(** [calculateTrustScore(proctorData)] *)
Definition calculateTrustScore (proctorData : ProctorData.t) : Z :=
  let score := 100 in
  let faceDetections := default [] (ProctorData.faceDetections proctorData) in
  let multipleFaces :=
    Z.of_nat (length (List.filter (λ fd, 1 <? FaceDetection.facesDetected fd)
                                  faceDetections)) in
  let score := score - multipleFaces * 5 in
  let score := score - default 0 (ProctorData.tabSwitches proctorData) * 3 in
  let score := score - default 0 (ProctorData.fullscreenExits proctorData) * 10 in
  let score :=
    score
    - default 0 ((λ l, Z.of_nat (length l)) <$> ProctorData.suspiciousActivity proctorData)
      * 15 in
  Z.max 0 (Z.min 100 (Math.round score)).

(** [handleInterviewInterruption(sessionId, reason)]; [now] is
    [new Date()].  Its [catch] only logs. *)
Definition handleInterviewInterruption (sessionId reason : string) (now : Z)
  : Sessions → Sessions * list Emit :=
  λ sessions,
    match getSession sessionId sessions with
    | (sessions, inl _) => (sessions, [])
    | (sessions, inr session) =>
        let emitted :=
          [roomEmit (interviewKey (InterviewSession.interviewId session))
             "interview-interrupted"] in
        ((updateSession sessionId
            [isActive false; interruptedAt now; interruptionReason reason]
            sessions).1,
         emitted)
    end.

(** [handleDisconnect(client)]: [clientId] is [client.id], [sessionId] is
    [client.data.sessionId] and [userType] is [client.data.userType].
    Its [catch] only logs. *)
Definition handleDisconnect (clientId : string) (sessionId : option string)
    (userType : string) (now : Z) : Sessions → Sessions * list Emit :=
  λ sessions,
    match sessionId with
    | None => (sessions, [])
    | Some sessionId =>
        match removeParticipant sessionId clientId sessions with
        | (sessions, inl _) => (sessions, [])
        | (sessions, inr _) =>
            if String.eqb userType "candidate"
            then handleInterviewInterruption sessionId "disconnect" now sessions
            else (sessions, [])
        end
    end.

End InterviewGateway.


(** ** InterviewsService: the proctoring data of an interview *)

(** The [proctorData] column as the service types it: every property is
    there. *)
Module StoredProctorData.
Record t := mk {
  faceDetections : list FaceDetection.t;
  tabSwitches : Z;
  fullscreenExits : Z;
  suspiciousActivity : list string;
}.
End StoredProctorData.

Module InterviewsService.

(** [calculateTrustScore(proctorData)] *)
Definition calculateTrustScore (proctorData : StoredProctorData.t) : Z :=
  let score := 100 in
  let multipleFaces :=
    Z.of_nat (length (List.filter (λ fd, 1 <? FaceDetection.facesDetected fd)
                                  (StoredProctorData.faceDetections proctorData))) in
  let score := score - multipleFaces * 5 in
  let score := score - StoredProctorData.tabSwitches proctorData * 3 in
  let score := score - StoredProctorData.fullscreenExits proctorData * 10 in
  let score :=
    score
    - Z.of_nat (length (StoredProctorData.suspiciousActivity proctorData)) * 15 in
  Z.max 0 (Z.min 100 (Math.round score)).

(** [updateProctorData(interviewId, data)].  [findFirst] is what the
    lookup of the ONGOING interview returned: [None] for [null], otherwise
    the [proctorData] of the row, [None] when that column is [null].  The
    result is what is written to the row: the merged data and the trust
    score. *)
Definition updateProctorData (findFirst : option (option StoredProctorData.t))
    (data : ProctorData.t) : Exception + StoredProctorData.t * Z :=
  match findFirst with
  | None => inl (NotFoundException "Interview not found or not in progress")
  | Some proctorData =>
      let currentProctorData :=
        default (StoredProctorData.mk [] 0 0 []) proctorData in
      let updatedProctorData :=
        StoredProctorData.mk
          (default (StoredProctorData.faceDetections currentProctorData)
             (ProctorData.faceDetections data))
          (StoredProctorData.tabSwitches currentProctorData
           + default 0 (ProctorData.tabSwitches data))
          (StoredProctorData.fullscreenExits currentProctorData
           + default 0 (ProctorData.fullscreenExits data))
          (StoredProctorData.suspiciousActivity currentProctorData
           ++ default [] (ProctorData.suspiciousActivity data)) in
      inr (updatedProctorData, calculateTrustScore updatedProctorData)
  end.

End InterviewsService.


(** * Vocabulary of the specification *)

(** A weakness asks for clarification when it mentions one of the three
    tokens, in any case. *)
Definition mentionsClarification (w : string) : Prop :=
  JsString.containsIgnoringCase w "unclear"
  ∨ JsString.containsIgnoringCase w "vague"
  ∨ JsString.containsIgnoringCase w "specific".

(** The plan cursor and its lexicographic order. *)
Definition cursor (c : ConversationContext.t) : nat * nat :=
  (ConversationContext.currentAssessmentIndex c,
   ConversationContext.currentQuestionIndex c).

Definition cursorLe (p q : nat * nat) : Prop :=
  (p.1 < q.1)%nat ∨ (p.1 = q.1 ∧ (p.2 ≤ q.2)%nat).

Definition planOf (c : ConversationContext.t) : list TemplateAssessment.t :=
  Template.assessments (ConversationContext.template c).

(** The cursor is at the end of the plan. *)
Definition atEnd (c : ConversationContext.t) : Prop :=
  ConversationContext.currentAssessmentIndex c = length (planOf c).

(** The invariant of a question plan: every assessment has a question. *)
Definition planHasQuestions (plan : list TemplateAssessment.t) : Prop :=
  Forall (λ ta, Assessment.questionsOrEmpty (TemplateAssessment.assessment ta) ≠ [])
         plan.

(** The cursor of a session that is under way: on a question of the plan,
    or at its end. *)
Definition cursorValid (c : ConversationContext.t) : Prop :=
  (∃ ta,
      planOf c !! ConversationContext.currentAssessmentIndex c = Some ta
      ∧ (ConversationContext.currentQuestionIndex c
         < length (Assessment.questionsOrEmpty (TemplateAssessment.assessment ta)))%nat)
  ∨ (atEnd c ∧ ConversationContext.currentQuestionIndex c = 0%nat).

(** No question of a context has more than [n] follow-ups on record. *)
Definition followUpsAtMost (n : Z) (c : ConversationContext.t) : Prop :=
  ∀ questionId r,
    ConversationContext.responses c !! questionId = Some r →
    StoredResponse.followUpsAsked r ≤ n.

(** A sequence of [processResponse] calls on one session: each call with
    the answer text and what the collaborators answer during it. *)
Definition turns (sessionId : string)
    (calls : list (string * InterviewOrchestratorService.ProcessResponseIO.t))
    (store : gmap string ConversationContext.t)
  : gmap string ConversationContext.t :=
  fold_left
    (λ store call,
       (InterviewOrchestratorService.processResponse sessionId call.1 call.2 store).1)
    calls store.

(** The calls on the orchestrator and the stores they lead to from the
    empty session store. *)
Inductive Call :=
  | callStartInterview (interviewId : string)
      (io : InterviewOrchestratorService.StartInterviewIO.t)
  | callProcessResponse (sessionId responseText : string)
      (io : InterviewOrchestratorService.ProcessResponseIO.t)
  | callCompleteInterview (sessionId : string)
      (io : InterviewOrchestratorService.CompleteInterviewIO.t).

Definition perform (store : gmap string ConversationContext.t) (call : Call)
  : gmap string ConversationContext.t :=
  match call with
  | callStartInterview interviewId io =>
      (InterviewOrchestratorService.startInterview interviewId io store).1
  | callProcessResponse sessionId responseText io =>
      (InterviewOrchestratorService.processResponse sessionId responseText io store).1
  | callCompleteInterview sessionId io =>
      (InterviewOrchestratorService.completeInterview sessionId io store).1
  end.

Definition reachable (store : gmap string ConversationContext.t) : Prop :=
  ∃ calls, store = fold_left perform calls ∅.

(** [Math.max(lo, Math.min(hi, x))] *)
Definition clamp (lo hi x : Z) : Z := Z.max lo (Z.min hi x).


(** * Vocabulary of the proofs *)

(** [wp m Q E s]: run from the store [s], the call [m] either returns a
    value [a] and leaves a store satisfying [Q a], or throws and leaves a
    store satisfying [E]. *)
Definition wp {S A} (m : Async S A) (Q : A → S → Prop) (E : S → Prop) (s : S)
  : Prop :=
  match m s with
  | (s', inr a) => Q a s'
  | (s', inl _) => E s'
  end.

(** Every entry of the store, a key and the context stored under it,
    satisfies [G]. *)
Definition everyEntry (G : string → ConversationContext.t → Prop)
    (s : gmap string ConversationContext.t) : Prop :=
  ∀ k c, s !! k = Some c → G k c.

(** [Holds sessionId G c s]: the object stored under [sessionId] is [c],
    and every entry of the store satisfies [G]. *)
Definition Holds (sessionId : string) (G : string → ConversationContext.t → Prop)
    (c : ConversationContext.t) (s : gmap string ConversationContext.t) : Prop :=
  s !! sessionId = Some c ∧ everyEntry G s.

Definition triple (sessionId : string)
    (G : string → ConversationContext.t → Prop) {A}
    (c : ConversationContext.t) (m : Async (gmap string ConversationContext.t) A)
    (Q : A → gmap string ConversationContext.t → Prop)
    (E : gmap string ConversationContext.t → Prop) : Prop :=
  ∀ s, Holds sessionId G c s → wp m Q E s.

(** [context.conversationHistory.push({ role, content })] *)
Definition pushMessage (c : ConversationContext.t) (role : Role)
    (content : string) : ConversationContext.t :=
  ConversationContext.setHistory c
    (ConversationContext.conversationHistory c ++ [ChatMessage.mk role content]).

(** What one [processResponse] with the answer [responseText] does to the
    context [c] of its session, whether it returns or throws: the plan is
    kept, the cursor does not go back, and the answer is on the history. *)
Definition turnKeeps (responseText : string) (c c' : ConversationContext.t) : Prop :=
  ConversationContext.template c' = ConversationContext.template c
  ∧ ConversationContext.sessionId c' = ConversationContext.sessionId c
  ∧ cursorLe (cursor c) (cursor c')
  ∧ ∃ rest,
      ConversationContext.conversationHistory c'
      = ConversationContext.conversationHistory c
          ++ ChatMessage.mk user responseText :: rest.

(** [complete] tells whether the call returned a turn with [isComplete]. *)
Definition turnEnds (complete : bool) (c c' : ConversationContext.t) : Prop :=
  cursorValid c → planHasQuestions (planOf c) →
  cursorValid c' ∧ (atEnd c' ↔ complete = true).

(** Whether a [processResponse] returned a turn with [isComplete]. *)
Definition completes (r : Exception + InterviewTurn.t) : bool :=
  match r with
  | inr t => InterviewTurn.isComplete t
  | inl _ => false
  end.

(** Every stored context satisfies [G]. *)
Definition everySession (G : ConversationContext.t → Prop)
    (s : gmap string ConversationContext.t) : Prop :=
  ∀ k c, s !! k = Some c → G c.

(** Every context is stored under its own [sessionId]. *)
Definition wellKeyed (s : gmap string ConversationContext.t) : Prop :=
  ∀ k c, s !! k = Some c → ConversationContext.sessionId c = k.

(** [io] with the answer of the evaluation call replaced. *)
Definition withEvaluation (io : InterviewOrchestratorService.ProcessResponseIO.t)
    (generateWithJSON : option EvaluationResult.t)
  : InterviewOrchestratorService.ProcessResponseIO.t :=
  InterviewOrchestratorService.ProcessResponseIO.mk
    generateWithJSON
    (InterviewOrchestratorService.ProcessResponseIO.followUpChat io)
    (InterviewOrchestratorService.ProcessResponseIO.saveResponseToDatabase io)
    (InterviewOrchestratorService.ProcessResponseIO.transitionChat io)
    (InterviewOrchestratorService.ProcessResponseIO.findInterview io)
    (InterviewOrchestratorService.ProcessResponseIO.adaptChat io).

(** ** The scores as the specification words them

    Per-assessment score: the arithmetic mean of [responses[q].score] over
    the questions [q] of the assessment that have a recorded response.
    Overall score: the sum of assessment score times weight/100, divided by
    the sum of weight/100 over the assessments with a scored question,
    rounded to the nearest integer. *)

Module Spec.

Definition sumQ (l : list Q) : Q := foldr Qplus (0 # 1)%Q l.

Definition assessmentScore (responses : gmap string StoredResponse.t)
    (ta : TemplateAssessment.t) : option Q :=
  let scores :=
    omap (λ q, (λ r, inject_Z (StoredResponse.score r)) <$> responses !! Question.id q)
         (Assessment.questionsOrEmpty (TemplateAssessment.assessment ta)) in
  match scores with
  | [] => None
  | _ => Some (Qdiv (sumQ scores) (inject_Z (Z.of_nat (length scores))))
  end.

(** Round to the nearest integer, halves upwards. *)
Definition round (x : Q) : Z := Qfloor (Qplus x (1 # 2)%Q).

Definition overallScore (c : ConversationContext.t) : Z :=
  let scored :=
    omap (λ ta,
            (λ a, (a, Qdiv (inject_Z (TemplateAssessment.weightage ta))
                           (inject_Z 100)))
            <$> assessmentScore (ConversationContext.responses c) ta)
         (planOf c) in
  round (Qdiv (sumQ (map (λ aw, Qmult aw.1 aw.2) scored))
              (sumQ (map snd scored))).

End Spec.

(** ** Sample sessions *)

Module Sample.
Import InterviewOrchestratorService.

Definition criteria : ScoringCriteria.t :=
  ScoringCriteria.mk "Depth of the answer" ["experience"; "trade-offs"] 100 1.

Definition question (id : string) : Question.t :=
  Question.mk id ("Tell me about " +:+ id) "open" criteria None 0.

(** An answer of 60 characters and one of 4. *)
Definition longAnswer : string :=
  "I led the migration and measured each step before moving on.".

Definition shortAnswer : string := "Yes.".

Definition evaluation (score : Z) : EvaluationResult.t :=
  EvaluationResult.mk score ["clear structure"] ["could go deeper"] maybe "ok".

(** Every collaborator answers; the evaluator gives [score]. *)
Definition answers (score : Z) : ProcessResponseIO.t :=
  ProcessResponseIO.mk (Some (evaluation score)) (Some "Could you give an example?")
    (Some tt) (Some "Let us move on.") (Some None) None.

(** The evaluator fails; every other collaborator answers. *)
Definition evaluatorDown : ProcessResponseIO.t :=
  withEvaluation (answers 0) None.

Definition narrative : CompleteInterviewIO.t :=
  CompleteInterviewIO.mk (Some "Recommendation: maybe") (Some tt).

Definition templateOf (assessments : list TemplateAssessment.t) : Template.t :=
  Template.mk "template-1" "Engineer" None assessments.

Definition interviewOn (template : Template.t) : Interview.t :=
  Interview.mk "iv" "template-1" "Ada" "ada@example.org" "ONGOING" template.

Definition sessionId : string := "interview:iv:1700000000000".

(** The store after [createSession] on an empty store. *)
Definition created (template : Template.t) : gmap string ConversationContext.t :=
  (ConversationManagerService.createSession (interviewOn template)
     1700000000000 (Some (Some template)) ∅).1.

(** The context [createSession] stores. *)
Definition fresh (template : Template.t) : ConversationContext.t :=
  ConversationContext.mk sessionId "iv" template 0 0 []
    (CandidateInfo.mk "Ada" "ada@example.org") ∅.

(** One assessment of weight 100 with three questions. *)
Definition oneAssessment : Template.t :=
  templateOf
    [TemplateAssessment.mk "A" 100
       (Assessment.mk "Technical"
          (Some [question "q1"; question "q2"; question "q3"]))].

(** Two assessments of weight 50: one question, then three. *)
Definition twoAssessments : Template.t :=
  templateOf
    [TemplateAssessment.mk "A" 50
       (Assessment.mk "Technical" (Some [question "q1"]));
     TemplateAssessment.mk "B" 50
       (Assessment.mk "Behavioural"
          (Some [question "q2"; question "q3"; question "q4"]))].

(** One assessment with a single question. *)
Definition oneQuestion : Template.t :=
  templateOf
    [TemplateAssessment.mk "A" 100
       (Assessment.mk "Technical" (Some [question "q1"]))].

(** Three answers scored 80 on [oneAssessment]. *)
Definition allEighty : gmap string ConversationContext.t :=
  turns sessionId
    [(longAnswer, answers 80); (longAnswer, answers 80); (longAnswer, answers 80)]
    (created oneAssessment).

(** On [twoAssessments]: 100 on the question of A, 60 on the three of B. *)
Definition unevenAssessments : gmap string ConversationContext.t :=
  turns sessionId
    [(longAnswer, answers 100); (longAnswer, answers 60);
     (longAnswer, answers 60); (longAnswer, answers 60)]
    (created twoAssessments).

(** On [oneQuestion]: a short answer scored 40, then, after the
    follow-up, a long answer scored 90. *)
Definition afterFirstAnswer : gmap string ConversationContext.t :=
  turns sessionId [(shortAnswer, answers 40)] (created oneQuestion).

Definition afterSecondAnswer : gmap string ConversationContext.t :=
  turns sessionId [(longAnswer, answers 90)] afterFirstAnswer.

End Sample.


(** ** The trust score as the specification words it

    The proctoring log: the face-detection events with the number of
    faces each reports, the number of tab-switch events, the number of
    fullscreen-exit events, and the suspicious-activity entries.  The
    score starts at 100 and loses 5, 3, 10 or 15 for each event. *)

Module ProctorLog.
Record t := mk {
  faceDetections : list FaceDetection.t;
  tabSwitches : nat;
  fullscreenExits : nat;
  suspiciousActivity : list string;
}.

Definition trustScore (log : t) : Z :=
  let score := 100 in
  let score :=
    fold_left (λ score fd,
                 if 1 <? FaceDetection.facesDetected fd then score - 5 else score)
              (faceDetections log) score in
  let score := Nat.iter (tabSwitches log) (λ score, score - 3) score in
  let score := Nat.iter (fullscreenExits log) (λ score, score - 10) score in
  let score := fold_left (λ score _, score - 15) (suspiciousActivity log) score in
  clamp 0 100 score.

(** [proctorData] records the log; a missing property records no event. *)
Definition recordedIn (log : t) (proctorData : ProctorData.t) : Prop :=
  default [] (ProctorData.faceDetections proctorData) = faceDetections log
  ∧ default 0 (ProctorData.tabSwitches proctorData) = Z.of_nat (tabSwitches log)
  ∧ default 0 (ProctorData.fullscreenExits proctorData)
    = Z.of_nat (fullscreenExits log)
  ∧ default [] (ProctorData.suspiciousActivity proctorData)
    = suspiciousActivity log.
End ProctorLog.

(** ** The registry *)

(** [session] is registered for [interviewId]: it is stored under its own
    id and under the key of the interview, as [createSession] leaves it. *)
Definition registered (sessions : gmap string Websockets.InterviewSession.t)
    (interviewId : string) (session : Websockets.InterviewSession.t) : Prop :=
  sessions !! Websockets.InterviewSessionManager.interviewKey interviewId = Some session
  ∧ sessions !! Websockets.InterviewSession.id session = Some session
  ∧ Websockets.InterviewSession.interviewId session = interviewId.

(** A handler sent no [error] event. *)
Definition noError (handled : InterviewGateway.Handled.t) : Prop :=
  ∀ message,
    InterviewGateway.clientEmit "error" message
    ∉ InterviewGateway.Handled.emitted handled.

(** [session'] has every property of [session] but the connections. *)
Definition sameButConnections (session session' : Websockets.InterviewSession.t)
  : Prop :=
  Websockets.InterviewSession.id session' = Websockets.InterviewSession.id session
  ∧ Websockets.InterviewSession.interviewId session'
    = Websockets.InterviewSession.interviewId session
  ∧ Websockets.InterviewSession.aiSessionId session'
    = Websockets.InterviewSession.aiSessionId session
  ∧ Websockets.InterviewSession.isActive session'
    = Websockets.InterviewSession.isActive session
  ∧ Websockets.InterviewSession.currentQuestionId session'
    = Websockets.InterviewSession.currentQuestionId session
  ∧ Websockets.InterviewSession.currentQuestion session'
    = Websockets.InterviewSession.currentQuestion session
  ∧ Websockets.InterviewSession.currentAssessmentId session'
    = Websockets.InterviewSession.currentAssessmentId session
  ∧ Websockets.InterviewSession.currentQuestionStartTime session'
    = Websockets.InterviewSession.currentQuestionStartTime session
  ∧ Websockets.InterviewSession.progress session'
    = Websockets.InterviewSession.progress session
  ∧ Websockets.InterviewSession.trustScore session'
    = Websockets.InterviewSession.trustScore session
  ∧ Websockets.InterviewSession.interruptedAt session'
    = Websockets.InterviewSession.interruptedAt session
  ∧ Websockets.InterviewSession.interruptionReason session'
    = Websockets.InterviewSession.interruptionReason session
  ∧ Websockets.InterviewSession.startedAt session'
    = Websockets.InterviewSession.startedAt session
  ∧ Websockets.InterviewSession.completedAt session'
    = Websockets.InterviewSession.completedAt session
  ∧ Websockets.InterviewSession.createdAt session'
    = Websockets.InterviewSession.createdAt session.

(** [session'] is [session] with [socketId] as its candidate connection
    in place of the one it had. *)
Definition candidateReplaced (session session' : Websockets.InterviewSession.t)
    (socketId : string) : Prop :=
  Websockets.InterviewSession.candidateSocketId session' = socketId
  ∧ Websockets.InterviewSession.recruiterSocketIds session'
    = Websockets.InterviewSession.recruiterSocketIds session
  ∧ sameButConnections session session'.

(** [session'] is [session] with [socketId] added at the end of its
    observers. *)
Definition observerAdded (session session' : Websockets.InterviewSession.t)
    (socketId : string) : Prop :=
  Websockets.InterviewSession.recruiterSocketIds session'
  = Websockets.InterviewSession.recruiterSocketIds session ++ [socketId]
  ∧ Websockets.InterviewSession.candidateSocketId session'
    = Websockets.InterviewSession.candidateSocketId session
  ∧ sameButConnections session session'.

Module SampleRegistry.
Import Websockets Websockets.InterviewSessionManager InterviewGateway.

Definition joinIO : JoinInterviewIO.t :=
  JoinInterviewIO.mk (Some (Some (Sample.interviewOn Sample.oneAssessment)))
    1700000000000 (Some (Some Sample.oneAssessment)) 1700000000012.

(** The registry after a first candidate joined the interview [iv]. *)
Definition joined : gmap string InterviewSession.t :=
  (handleJoinInterview "socket-1" "iv" joinIO ∅).1.

Definition sessionId : string := "session:iv:1700000000000".

(** ... and after a recruiter started to observe it. *)
Definition observed : gmap string InterviewSession.t :=
  (addRecruiterObserver sessionId "recruiter-1" joined).1.
End SampleRegistry.


(** ** What a turn records

    [recordedBy responses questionId r]: [r] is what [processResponse]
    writes to [responses[questionId]] for some answer and some evaluation
    with a score in 0..100: the entry that is there already, or a new
    entry for the answer, and in either case possibly with one more
    follow-up when none was asked before. *)
Definition recordedBy (responses : gmap string StoredResponse.t)
    (questionId : string) (r : StoredResponse.t) : Prop :=
  ∃ responseText evaluation,
    0 ≤ EvaluationResult.score evaluation ≤ 100
    ∧ let existing :=
        default
          (StoredResponse.mk responseText (EvaluationResult.score evaluation) 0
             (Some (ResponseEvaluatorService.generateEvaluationText evaluation)))
          (responses !! questionId) in
      r = existing
      ∨ (StoredResponse.followUpsAsked existing < 1
         ∧ r = StoredResponse.incrFollowUps existing).

(** What one [processResponse] leaves alone in the context of its session:
    the interview, the candidate, and every response but that of the
    current question; on the history it adds the answer and then only
    what the interviewer says. *)
Definition turnTouches (c c' : ConversationContext.t) : Prop :=
  ConversationContext.interviewId c' = ConversationContext.interviewId c
  ∧ ConversationContext.candidateInfo c' = ConversationContext.candidateInfo c
  ∧ (∃ responseText said,
        ConversationContext.conversationHistory c'
        = ConversationContext.conversationHistory c
            ++ ChatMessage.mk user responseText
               :: map (ChatMessage.mk assistant) said
        ∧ (length said ≤ 1)%nat)
  ∧ (ConversationContext.responses c' = ConversationContext.responses c
     ∨ ∃ q r,
         ConversationManagerService.getCurrentQuestion c = Some q
         ∧ recordedBy (ConversationContext.responses c) (Question.id q) r
         ∧ ConversationContext.responses c'
           = <[Question.id q := r]> (ConversationContext.responses c)).

(** Every recorded score of a context lies in 0..100. *)
Definition scoresInRange (c : ConversationContext.t) : Prop :=
  ∀ questionId r,
    ConversationContext.responses c !! questionId = Some r →
    0 ≤ StoredResponse.score r ≤ 100.

(** The messages of a history that the candidate said. *)
Definition saidByCandidate (history : list ChatMessage.t) : list string :=
  omap (λ m, match ChatMessage.role m with
             | user => Some (ChatMessage.content m)
             | _ => None
             end) history.

(** ** Vocabulary of a single turn *)

(** The evaluation [processResponse] works with for the answer
    [responseText] to [question]. *)
Definition evaluationOf (question : Question.t) (responseText : string)
    (io : InterviewOrchestratorService.ProcessResponseIO.t) : EvaluationResult.t :=
  ResponseEvaluatorService.evaluateResponse question responseText
    (InterviewOrchestratorService.ProcessResponseIO.generateWithJSON io).

(** Its [existingResponse]: the stored entry of the question, or a new one
    for this answer. *)
Definition existingResponse (c : ConversationContext.t) (question : Question.t)
    (responseText : string)
    (io : InterviewOrchestratorService.ProcessResponseIO.t) : StoredResponse.t :=
  default
    (StoredResponse.mk responseText
       (EvaluationResult.score (evaluationOf question responseText io)) 0
       (Some (ResponseEvaluatorService.generateEvaluationText
                (evaluationOf question responseText io))))
    (ConversationContext.responses c !! Question.id question).

(** Whether it decides to ask a follow-up. *)
Definition asksFollowUp (c : ConversationContext.t) (question : Question.t)
    (responseText : string)
    (io : InterviewOrchestratorService.ProcessResponseIO.t) : bool :=
  ResponseEvaluatorService.needsFollowUp (evaluationOf question responseText io)
    (StoredResponse.followUpsAsked (existingResponse c question responseText io))
    (JsString.length responseText).

(** [context.responses[question.id] = r] *)
Definition record (c : ConversationContext.t) (question : Question.t)
    (r : StoredResponse.t) : ConversationContext.t :=
  ConversationContext.setResponses c
    (<[Question.id question := r]> (ConversationContext.responses c)).

(** The [response] part of the turn it returns. *)
Definition turnResponseOf (question : Question.t) (responseText : string)
    (io : InterviewOrchestratorService.ProcessResponseIO.t) : TurnResponse.t :=
  TurnResponse.mk responseText
    (EvaluationResult.score (evaluationOf question responseText io))
    (ResponseEvaluatorService.generateEvaluationText
       (evaluationOf question responseText io)).

(** The store after an in-place mutation of the object under [key] into
    [c], followed by [updateContext]. *)
Definition written (key : string) (c : ConversationContext.t)
    (s : gmap string ConversationContext.t) : gmap string ConversationContext.t :=
  <[ConversationContext.sessionId c := c]> (<[key := c]> s).

(** [io] with the answer of the transition-message call replaced. *)
Definition withTransition (io : InterviewOrchestratorService.ProcessResponseIO.t)
    (transitionChat : option string)
  : InterviewOrchestratorService.ProcessResponseIO.t :=
  InterviewOrchestratorService.ProcessResponseIO.mk
    (InterviewOrchestratorService.ProcessResponseIO.generateWithJSON io)
    (InterviewOrchestratorService.ProcessResponseIO.followUpChat io)
    (InterviewOrchestratorService.ProcessResponseIO.saveResponseToDatabase io)
    transitionChat
    (InterviewOrchestratorService.ProcessResponseIO.findInterview io)
    (InterviewOrchestratorService.ProcessResponseIO.adaptChat io).

(** Further plans and collaborators for the examples. *)
Module Scenario.
Import InterviewOrchestratorService.

(** Three assessments; the second one has no questions. *)
Definition emptySecond : Template.t :=
  Sample.templateOf
    [TemplateAssessment.mk "A" 40
       (Assessment.mk "Technical" (Some [Sample.question "q1"]));
     TemplateAssessment.mk "B" 30 (Assessment.mk "Behavioural" None);
     TemplateAssessment.mk "C" 30
       (Assessment.mk "Culture" (Some [Sample.question "q2"]))].

(** An answer of 49 characters, six of them outside ASCII: 55 bytes. *)
Definition accentedAnswer : string :=
  "J'ai dirigé l'équipe à Orléans tout l'été dernier".


(** The database rejects the response; every other collaborator answers. *)
Definition databaseDown (score : Z) : ProcessResponseIO.t :=
  ProcessResponseIO.mk (Some (Sample.evaluation score))
    (Some "Could you give an example?") None (Some "Let us move on.")
    (Some None) None.

(** The collaborators of a [startInterview] on [template], all answering;
    the template has no job description, so no wording is asked for. *)
Definition start (template : Template.t) : StartInterviewIO.t :=
  StartInterviewIO.mk (Some (Some (Sample.interviewOn template))) 1700000000000
    (Some (Some template)) (Some "Hello Ada!") None.

End Scenario.

(** The session id [createSession] gives to a session of [interview]
    created at [now], and the context it stores under it. *)
Definition sessionIdAt (interview : Interview.t) (now : Z) : string :=
  "interview:" +:+ Interview.id interview +:+ ":" +:+ pretty now.

Definition contextAt (interview : Interview.t) (now : Z) (template : Template.t)
  : ConversationContext.t :=
  ConversationContext.mk (sessionIdAt interview now) (Interview.id interview)
    template 0%nat 0%nat []
    (CandidateInfo.mk (Interview.candidateName interview)
       (Interview.candidateEmail interview))
    ∅.

(** The line of a narrative can set the recommendation to [hire]... *)
Definition recommendsHire (line : string) : Prop :=
  let lower := JsString.toLowerCase line in
  JsString.includes lower "recommendation" = true
  ∧ JsString.includes lower "hire" = true
  ∧ JsString.includes lower "no" = false
  ∧ JsString.includes lower "strength" = false
  ∧ JsString.includes lower "weakness" = false.

(** ... or to [no_hire]. *)
Definition recommendsNoHire (line : string) : Prop :=
  let lower := JsString.toLowerCase line in
  JsString.includes lower "recommendation" = true
  ∧ JsString.includes lower "no-hire" = true
  ∧ JsString.includes lower "strength" = false
  ∧ JsString.includes lower "weakness" = false.

(** The stored proctoring data as the JSON value the gateway reads back. *)
Definition asJson (proctorData : StoredProctorData.t) : ProctorData.t :=
  ProctorData.mk (Some (StoredProctorData.faceDetections proctorData))
    (Some (StoredProctorData.tabSwitches proctorData))
    (Some (StoredProctorData.fullscreenExits proctorData))
    (Some (StoredProctorData.suspiciousActivity proctorData)).

(** ** Question ids and the prototype of [context.responses]

    No question of the plan of [c] is named by a member of
    [Object.prototype]: every [context.responses[question.id]] then finds
    the stored response or nothing. *)
Definition ordinaryPlan (c : ConversationContext.t) : bool :=
  forallb
    (λ ta,
       forallb (λ q, negb (JsObject.inherited (Question.id q)))
         (Assessment.questionsOrEmpty (TemplateAssessment.assessment ta)))
    (planOf c).

(** ** Counting follow-ups

    The number of follow-ups on record for the question [questionId] of
    the session: none when nothing is stored for the question. *)
Definition followUpsOnRecord (sessionId questionId : string)
    (store : gmap string ConversationContext.t) : Z :=
  match store !! sessionId ≫= λ c, ConversationContext.responses c !! questionId with
  | Some r => StoredResponse.followUpsAsked r
  | None => 0
  end.

(** No question of the context has a negative number of follow-ups on
    record. *)
Definition followUpsFromZero (c : ConversationContext.t) : Prop :=
  ∀ questionId r,
    ConversationContext.responses c !! questionId = Some r →
    0 ≤ StoredResponse.followUpsAsked r.

(** The call asked a follow-up on the question [questionId]: that question
    was the current one, and the call returned a turn that is not complete
    and puts the same question again, the cursor of the session where it
    was. *)
Definition followUpAskedOn (sessionId questionId : string)
    (call : string * InterviewOrchestratorService.ProcessResponseIO.t)
    (store : gmap string ConversationContext.t) : bool :=
  match store !! sessionId with
  | Some c =>
      match
        ConversationManagerService.getCurrentQuestion c,
        InterviewOrchestratorService.processResponse sessionId call.1 call.2 store
      with
      | Some q, (store', inr turn) =>
          String.eqb (Question.id q) questionId
          && negb (InterviewTurn.isComplete turn)
          && match InterviewTurn.nextQuestion turn, store' !! sessionId with
             | Some next, Some c' =>
                 String.eqb (Question.id next) (Question.id q)
                 && bool_decide (cursor c' = cursor c)
             | _, _ => false
             end
      | _, _ => false
      end
  | None => false
  end.

(** The number of calls of a sequence of [processResponse] calls on one
    session that asked a follow-up on the question [questionId]. *)
Fixpoint followUpTurns (sessionId questionId : string)
    (calls : list (string * InterviewOrchestratorService.ProcessResponseIO.t))
    (store : gmap string ConversationContext.t) : nat :=
  match calls with
  | [] => 0
  | call :: calls =>
      (if followUpAskedOn sessionId questionId call store then 1 else 0)
      + followUpTurns sessionId questionId calls
          (InterviewOrchestratorService.processResponse sessionId call.1 call.2
             store).1
  end.

(** The entry a follow-up turn stores for its question: the one that was
    there, or one for this answer and its evaluation, with one follow-up
    more. *)
Definition followUpRecorded (before : option StoredResponse.t)
    (responseText : string) (evaluation : EvaluationResult.t)
    (r : StoredResponse.t) : Prop :=
  match before with
  | Some existing =>
      StoredResponse.followUpsAsked r = StoredResponse.followUpsAsked existing + 1
      ∧ StoredResponse.text r = StoredResponse.text existing
      ∧ StoredResponse.score r = StoredResponse.score existing
      ∧ StoredResponse.evaluation r = StoredResponse.evaluation existing
  | None =>
      StoredResponse.followUpsAsked r = 1
      ∧ StoredResponse.text r = responseText
      ∧ StoredResponse.score r = EvaluationResult.score evaluation
      ∧ StoredResponse.evaluation r
        = Some (ResponseEvaluatorService.generateEvaluationText evaluation)
  end.

(** * Properties *)

(** ** Strings *)

Section string_facts.
Import JsString.

Lemma startsWith_spec (s p : string) :
  startsWith s p = true ↔ ∃ post, s = p +:+ post.
Proof.
  revert s. induction p as [|a p IH]; intros s; simpl.
  - split; [intros _; by exists s | done].
  - destruct s as [|b s]; simpl.
    + split; [done | intros [post H]; discriminate H].
    + destruct (Ascii.eqb_spec a b) as [->|Hne].
      * rewrite IH. split; intros [post H]; exists post; [by rewrite H | by injection H].
      * split; [done | intros [post H]; injection H as Hab _; congruence].
Qed.

Lemma includes_spec (s sub : string) :
  includes s sub = true ↔ ∃ pre post, s = pre +:+ sub +:+ post.
Proof.
  induction s as [|a s IH]; simpl.
  - rewrite orb_false_r, startsWith_spec. split.
    + intros [post H]. by exists EmptyString, post.
    + intros [[|b pre] [post H]]; [by exists post | discriminate H].
  - rewrite orb_true_iff, startsWith_spec, IH. split.
    + intros [[post H]|(pre & post & H)].
      * by exists EmptyString, post.
      * exists (String a pre), post. simpl. by rewrite H.
    + intros ([|b pre] & post & H); simpl in H.
      * left. by exists post.
      * right. injection H as _ H. by exists pre, post.
Qed.

Lemma toLowerCase_app (s1 s2 : string) :
  toLowerCase (s1 +:+ s2) = toLowerCase s1 +:+ toLowerCase s2.
Proof. induction s1 as [|a s1 IH]; simpl; [done | by rewrite IH]. Qed.

Lemma toLowerCase_split (s a b : string) :
  toLowerCase s = a +:+ b →
  ∃ s1 s2, s = s1 +:+ s2 ∧ toLowerCase s1 = a ∧ toLowerCase s2 = b.
Proof.
  revert s. induction a as [|x a IH]; intros s H; simpl in H.
  - by exists EmptyString, s.
  - destruct s as [|y s]; simpl in H; [discriminate H|].
    injection H as Hx H. destruct (IH _ H) as (s1 & s2 & -> & H1 & H2).
    exists (String y s1), s2. simpl. by rewrite Hx, H1.
Qed.

(** [w.toLowerCase().includes(tok)] finds [tok] in [w] whatever the case
    of the letters of [w]. *)
Lemma includes_toLowerCase (w tok : string) :
  includes (toLowerCase w) tok = true ↔ containsIgnoringCase w tok.
Proof.
  rewrite includes_spec. unfold containsIgnoringCase. split.
  - intros (pre & post & H).
    destruct (toLowerCase_split _ _ _ H) as (w1 & w23 & -> & H1 & H23).
    destruct (toLowerCase_split _ _ _ H23) as (w2 & w3 & -> & H2 & H3).
    by exists w1, w2, w3.
  - intros (pre & mid & post & -> & Hmid).
    exists (toLowerCase pre), (toLowerCase post).
    by rewrite !toLowerCase_app, Hmid.
Qed.
End string_facts.

(** ** The follow-up policy *)

Section follow_up_policy.
Import ResponseEvaluatorService.

Lemma weaknessAsksClarification_spec (w : string) :
  weaknessAsksClarification w = true ↔ mentionsClarification w.
Proof.
  unfold weaknessAsksClarification, mentionsClarification.
  rewrite !orb_true_iff, !includes_toLowerCase. tauto.
Qed.

Lemma some_weakness_spec (ws : list string) :
  existsb weaknessAsksClarification ws = true
  ↔ ∃ w, w ∈ ws ∧ mentionsClarification w.
Proof.
  rewrite existsb_exists. split; intros (w & Hin & Hw); exists w.
  - by rewrite list_elem_of_In, <- weaknessAsksClarification_spec.
  - by rewrite <- list_elem_of_In, weaknessAsksClarification_spec.
Qed.

Lemma needsFollowUp_true_iff (e : EvaluationResult.t) (f len : Z) :
  needsFollowUp e f len = true
  ↔ f < 1 ∧ (EvaluationResult.score e < 50 ∨ len < 50
             ∨ ∃ w, w ∈ EvaluationResult.weaknesses e ∧ mentionsClarification w).
Proof.
  rewrite <- some_weakness_spec. unfold needsFollowUp.
  destruct (Z.geb_spec f 2), (Z.ltb_spec (EvaluationResult.score e) 50),
    (Z.ltb_spec f 1), (Z.ltb_spec len 50),
    (existsb weaknessAsksClarification (EvaluationResult.weaknesses e));
    simpl; split; try done; try lia; intuition (try lia; try done).
Qed.

Lemma needsFollowUp_after_one (e : EvaluationResult.t) (f len : Z) :
  1 ≤ f → needsFollowUp e f len = false.
Proof.
  intros Hf. apply not_true_is_false. rewrite needsFollowUp_true_iff. lia.
Qed.

(** C3.  [needsFollowUp] answers false whenever two follow-ups were
    asked; it answers true exactly when no follow-up was asked yet and
    the score is below 50, or the answer is shorter than 50 characters,
    or a weakness mentions "unclear", "vague" or "specific" in any case;
    in every other case it answers false. *)
Theorem needsFollowUp_policy (e : EvaluationResult.t) (f len : Z) :
  (2 ≤ f → needsFollowUp e f len = false)
  ∧ (f < 1
     ∧ (EvaluationResult.score e < 50 ∨ len < 50
        ∨ ∃ w, w ∈ EvaluationResult.weaknesses e ∧ mentionsClarification w)
     → needsFollowUp e f len = true)
  ∧ (¬ (f < 1
        ∧ (EvaluationResult.score e < 50 ∨ len < 50
           ∨ ∃ w, w ∈ EvaluationResult.weaknesses e ∧ mentionsClarification w))
     → needsFollowUp e f len = false).
Proof.
  split; [|split].
  - intros Hf. apply needsFollowUp_after_one. lia.
  - apply needsFollowUp_true_iff.
  - intros Hn. apply not_true_is_false. by rewrite needsFollowUp_true_iff.
Qed.
End follow_up_policy.

(** ** Reasoning about calls: weakest preconditions *)

Section weakest_preconditions.
Context {S : Type}.

Lemma wp_bind {A B} (m : Async S A) (k : A → Async S B) Q E s :
  wp (m ≫= k) Q E s ↔ wp m (λ a, wp (k a) Q E) E s.
Proof.
  unfold wp, mbind, Async_bind, andThen. by destruct (m s) as [s' [e|a]].
Qed.

Lemma wp_resolve {A} (a : A) (Q : A → S → Prop) E s :
  wp (resolve a) Q E s ↔ Q a s.
Proof. done. Qed.

Lemma wp_throw {A} e (Q : A → S → Prop) E s : wp (throw e) Q E s ↔ E s.
Proof. done. Qed.

Lemma wp_modifyStore f (Q : unit → S → Prop) E s :
  wp (modifyStore f) Q E s ↔ Q tt (f s).
Proof. done. Qed.

Lemma wp_await {A} (outcome : option A) (Q : A → S → Prop) E s :
  wp (await outcome) Q E s
  ↔ match outcome with Some a => Q a s | None => E s end.
Proof. by destruct outcome. Qed.

Lemma wp_mono {A} (m : Async S A) (Q Q' : A → S → Prop) (E E' : S → Prop) s :
  (∀ a s', Q a s' → Q' a s') → (∀ s', E s' → E' s') →
  wp m Q E s → wp m Q' E' s.
Proof.
  unfold wp. intros HQ HE. destruct (m s) as [s' [e|a]]; [apply HE | apply HQ].
Qed.

Lemma wp_bind_assoc {A B C} (m : Async S A) (f : A → Async S B)
    (g : B → Async S C) Q E s :
  wp ((m ≫= f) ≫= g) Q E s ↔ wp (m ≫= (λ a, f a ≫= g)) Q E s.
Proof.
  unfold wp, mbind, Async_bind, andThen.
  destruct (m s) as [s' [e|a]]; [done|]. by destruct (f a s') as [s'' [e|b]].
Qed.

Lemma wp_bind_resolve {A} (m : Async S A) Q E s :
  wp m Q E s ↔ wp (m ≫= resolve) Q E s.
Proof. rewrite wp_bind. unfold wp. by destruct (m s) as [s' [e|a]]. Qed.
End weakest_preconditions.

(** ** One session of the conversation manager

    [G] is any property of a store entry that does not depend on the
    cursor or on the history of the context, and that a context read
    under [sessionId] keeps under the key it names itself. *)

Section one_session.
Import ConversationManagerService.

Variable sessionId : string.
Variable G : string → ConversationContext.t → Prop.
Hypothesis G_setCursor :
  ∀ k c a q, G k c → G k (ConversationContext.setCursor c a q).
Hypothesis G_setHistory :
  ∀ k c h, G k c → G k (ConversationContext.setHistory c h).
Hypothesis G_rekey : ∀ c, G sessionId c → G (ConversationContext.sessionId c) c.

Local Abbreviation Holds := (Holds sessionId G).
Local Abbreviation triple := (triple sessionId G).

Lemma Holds_G c s : Holds c s → G sessionId c.
Proof. intros [Hc HG]. by apply HG. Qed.

Lemma Holds_insert c c' s :
  G sessionId c' → Holds c s → Holds c' (<[sessionId := c']> s).
Proof.
  intros Hc' [Hc HG]. split; [apply lookup_insert_eq|].
  intros k c2. rewrite lookup_insert.
  case_decide; [subst k; by intros [= <-] | apply HG].
Qed.

Lemma Holds_update c s :
  Holds c s → Holds c (<[ConversationContext.sessionId c := c]> s).
Proof.
  intros [Hc HG]. split.
  - rewrite lookup_insert. by case_decide.
  - intros k c2. rewrite lookup_insert.
    case_decide; [subst k; intros [= <-]; by apply G_rekey, HG | apply HG].
Qed.

Lemma triple_resolve {A} c (a : A) (Q : A → Store → Prop) E :
  (∀ s, Holds c s → Q a s) → triple c (resolve a) Q E.
Proof. intros H s Hs. by apply H. Qed.

Lemma triple_throw {A} c e (Q : A → Store → Prop) (E : Store → Prop) :
  (∀ s, Holds c s → E s) → triple c (throw e) Q E.
Proof. intros H s Hs. by apply H. Qed.

Lemma triple_throw_bind {A B} c e (k : A → Async Store B) Q (E : Store → Prop) :
  (∀ s, Holds c s → E s) → triple c (throw e ≫= k) Q E.
Proof. intros H s Hs. apply wp_bind. by apply H. Qed.

Lemma triple_assoc {A B C} c (m : Async Store A) (f : A → Async Store B)
    (g : B → Async Store C) Q E :
  triple c (m ≫= (λ a, f a ≫= g)) Q E → triple c ((m ≫= f) ≫= g) Q E.
Proof. intros H s Hs. apply wp_bind_assoc. by apply H. Qed.

Lemma triple_tail {A} c (m : Async Store A) Q E :
  triple c (m ≫= resolve) Q E → triple c m Q E.
Proof. intros H s Hs. apply wp_bind_resolve. by apply H. Qed.

Lemma triple_resolve_bind {A B} c (a : A) (k : A → Async Store B) Q E :
  triple c (k a) Q E → triple c (resolve a ≫= k) Q E.
Proof. intros H s Hs. apply wp_bind. by apply H. Qed.

Lemma triple_await {A B} c (outcome : option A) (k : A → Async Store B) Q
    (E : Store → Prop) :
  (∀ a, outcome = Some a → triple c (k a) Q E) →
  (outcome = None → ∀ s, Holds c s → E s) →
  triple c (await outcome ≫= k) Q E.
Proof.
  intros Hsome Hnone s Hs. apply wp_bind, wp_await.
  destruct outcome as [a|]; [by apply Hsome | by apply Hnone].
Qed.

Lemma triple_getContext {B} c (k : ConversationContext.t → Async Store B) Q E :
  (G sessionId c → triple c (k c) Q E) →
  triple c (getContext sessionId ≫= k) Q E.
Proof.
  intros H s Hs. apply wp_bind. unfold wp at 1, getContext.
  rewrite (proj1 Hs). apply H; [by eapply Holds_G | done].
Qed.

Lemma triple_mutate {B} c c' (k : unit → Async Store B) Q E :
  G sessionId c' → triple c' (k tt) Q E →
  triple c (mutate sessionId c' ≫= k) Q E.
Proof.
  intros Hc' H s Hs. apply wp_bind. apply H. by eapply Holds_insert.
Qed.

Lemma triple_updateContext {B} c (k : unit → Async Store B) Q E :
  triple c (k tt) Q E → triple c (updateContext c ≫= k) Q E.
Proof. intros H s Hs. apply wp_bind. apply H. by apply Holds_update. Qed.

Lemma triple_addMessage {B} c role content (k : unit → Async Store B) Q E :
  triple (pushMessage c role content) (k tt) Q E →
  triple c (addMessage sessionId role content ≫= k) Q E.
Proof.
  intros H. unfold addMessage. apply triple_assoc, triple_getContext. intros Hc.
  apply triple_assoc, triple_mutate; [by apply G_setHistory|].
  by apply triple_updateContext.
Qed.

Lemma triple_moveToNextQuestion {B} c (k : bool → Async Store B) Q
    (E : Store → Prop) :
  (planOf c !! ConversationContext.currentAssessmentIndex c = None →
   ∀ s, Holds c s → E s) →
  (∀ ta,
     planOf c !! ConversationContext.currentAssessmentIndex c = Some ta →
     if (length (Assessment.questionsOrEmpty (TemplateAssessment.assessment ta))
           <=? ConversationContext.currentQuestionIndex c + 1)%nat
     then
       triple
         (ConversationContext.setCursor c
            (ConversationContext.currentAssessmentIndex c + 1) 0)
         (k (length (planOf c)
               <=? ConversationContext.currentAssessmentIndex c + 1)%nat)
         Q E
     else
       triple
         (ConversationContext.setCursor c
            (ConversationContext.currentAssessmentIndex c)
            (ConversationContext.currentQuestionIndex c + 1))
         (k false) Q E) →
  triple c (moveToNextQuestion sessionId ≫= k) Q E.
Proof.
  intros Hnone Hsome. unfold moveToNextQuestion.
  apply triple_assoc, triple_getContext. intros Hc.
  fold (planOf c).
  destruct (planOf c !! ConversationContext.currentAssessmentIndex c)
    as [ta|] eqn:Hta.
  - specialize (Hsome ta eq_refl).
    apply triple_assoc, triple_mutate; [by apply G_setCursor|]. simpl.
    destruct (length (Assessment.questionsOrEmpty (TemplateAssessment.assessment ta))
                <=? ConversationContext.currentQuestionIndex c + 1)%nat.
    + apply triple_assoc, triple_mutate; [by do 2 apply G_setCursor|].
      destruct (length (planOf c)
                  <=? ConversationContext.currentAssessmentIndex c + 1)%nat;
        apply triple_assoc, triple_updateContext, triple_resolve_bind, Hsome.
    + apply triple_assoc, triple_updateContext, triple_resolve_bind, Hsome.
  - by apply triple_throw_bind, Hnone.
Qed.
End one_session.

(** Symbolic execution of a call, one method at a time. *)
Ltac tstep :=
  lazymatch goal with
  | |- triple _ _ _ (mbind _ (mbind _ _)) _ _ => apply triple_assoc
  | |- triple _ _ _ (mbind _ (ConversationManagerService.getContext _)) _ _ =>
      apply triple_getContext; intros ?
  | |- triple _ _ _ (mbind _ (ConversationManagerService.updateContext _)) _ _ =>
      apply triple_updateContext; [assumption|]
  | |- triple _ _ _ (mbind _ (ConversationManagerService.addMessage _ _ _)) _ _ =>
      apply triple_addMessage; [assumption..|]
  | |- triple _ _ _ (mbind _ (resolve _)) _ _ => apply triple_resolve_bind
  end.

Ltac tsteps := repeat tstep.

Section cursor_facts.
Import ConversationManagerService.

Lemma getCurrentQuestion_Some c q :
  getCurrentQuestion c = Some q →
  ∃ ta,
    planOf c !! ConversationContext.currentAssessmentIndex c = Some ta
    ∧ (ConversationContext.currentQuestionIndex c
       < length (Assessment.questionsOrEmpty (TemplateAssessment.assessment ta)))%nat.
Proof.
  unfold getCurrentQuestion. fold (planOf c).
  destruct (Nat.leb_spec (length (planOf c))
              (ConversationContext.currentAssessmentIndex c)); [done|].
  destruct (planOf c !! ConversationContext.currentAssessmentIndex c)
    as [ta|]; [|done].
  destruct (Nat.leb_spec
              (length (Assessment.questionsOrEmpty (TemplateAssessment.assessment ta)))
              (ConversationContext.currentQuestionIndex c)); [done|].
  intros _. by exists ta.
Qed.

Lemma getCurrentQuestion_None c :
  cursorValid c → getCurrentQuestion c = None → atEnd c.
Proof.
  intros [(ta & Hta & Hq)|[Hend _]]; [|done].
  unfold getCurrentQuestion. fold (planOf c). rewrite Hta.
  apply lookup_lt_Some in Hta as Hlt.
  destruct (Nat.leb_spec (length (planOf c))
              (ConversationContext.currentAssessmentIndex c)); [lia|].
  destruct (Nat.leb_spec
              (length (Assessment.questionsOrEmpty (TemplateAssessment.assessment ta)))
              (ConversationContext.currentQuestionIndex c)); [lia|].
  intros Hnone. apply lookup_ge_None in Hnone. lia.
Qed.

Lemma cursorLe_refl p : cursorLe p p.
Proof. right. split; [done | lia]. Qed.

Lemma cursorLe_trans p q r : cursorLe p q → cursorLe q r → cursorLe p r.
Proof. unfold cursorLe. lia. Qed.

Lemma onQuestion_turnEnds c c' :
  (∃ ta,
      planOf c' !! ConversationContext.currentAssessmentIndex c' = Some ta
      ∧ (ConversationContext.currentQuestionIndex c'
         < length (Assessment.questionsOrEmpty (TemplateAssessment.assessment ta)))%nat) →
  turnEnds false c c'.
Proof.
  intros (ta & Hta & Hq) _ _. split; [left; by exists ta|].
  unfold atEnd. apply lookup_lt_Some in Hta. split; [lia | done].
Qed.

Lemma nextAssessment_turnEnds c c' :
  planOf c' = planOf c →
  (ConversationContext.currentAssessmentIndex c' < length (planOf c'))%nat →
  ConversationContext.currentQuestionIndex c' = 0%nat →
  turnEnds false c c'.
Proof.
  intros Hplan Hlt Hq0 Hvalid Hquestions.
  apply (onQuestion_turnEnds c c'); [|done..].
  destruct (lookup_lt_is_Some_2 _ _ Hlt) as [ta Hta]. exists ta. split; [done|].
  rewrite <- Hplan in Hquestions.
  pose proof (proj1 (Forall_lookup _ _) Hquestions _ _ Hta) as Hne. simpl in Hne.
  rewrite Hq0.
  destruct (Assessment.questionsOrEmpty (TemplateAssessment.assessment ta));
    [done | simpl; lia].
Qed.

Lemma planEnd_turnEnds c c' :
  atEnd c' → ConversationContext.currentQuestionIndex c' = 0%nat →
  turnEnds true c c'.
Proof. intros Hend Hq0 _ _. split; [by right | done]. Qed.
End cursor_facts.

Section evaluation_facts.
Import ResponseEvaluatorService.

Lemma evaluateResponse_score question response generateWithJSON :
  0 ≤ EvaluationResult.score (evaluateResponse question response generateWithJSON)
    ≤ 100.
Proof.
  unfold evaluateResponse. destruct generateWithJSON as [evaluation|]; [|simpl; lia].
  destruct (Z.ltb_spec (EvaluationResult.score evaluation) 0),
    (Z.gtb_spec (EvaluationResult.score evaluation) 100); simpl; lia.
Qed.
End evaluation_facts.

Section one_turn.
Import ConversationManagerService InterviewOrchestratorService.

Variable sessionId : string.
Variable G : string → ConversationContext.t → Prop.
Hypothesis G_setCursor :
  ∀ k c a q, G k c → G k (ConversationContext.setCursor c a q).
Hypothesis G_setHistory :
  ∀ k c h, G k c → G k (ConversationContext.setHistory c h).
Hypothesis G_rekey : ∀ c, G sessionId c → G (ConversationContext.sessionId c) c.
Hypothesis G_recorded :
  ∀ c questionId r,
    G sessionId c →
    recordedBy (ConversationContext.responses c) questionId r →
    G sessionId
      (ConversationContext.setResponses c
         (<[questionId := r]> (ConversationContext.responses c))).

Local Abbreviation Holds := (Holds sessionId G).
Local Abbreviation triple := (triple sessionId G).

Ltac touches :=
  split; [reflexivity|]; split; [reflexivity|];
  split;
  [ first [ eexists _, []; split; [|simpl; lia];
            unfold pushMessage; simpl; reflexivity
          | eexists _, [_]; split; [|simpl; lia];
            unfold pushMessage; simpl; rewrite <- ?app_assoc; reflexivity ]
  | ];
  first [ left; reflexivity
        | right; eexists _, _; split; [eassumption|]; split;
          [eassumption | reflexivity] ].

Ltac finish :=
  intros ? ?; eexists; split; [eassumption|]; split;
  [ split; [reflexivity|]; split; [reflexivity|]; split;
    [ unfold cursorLe; simpl; lia
    | eexists; unfold pushMessage; simpl; rewrite <- ?app_assoc; reflexivity ]
  | split; [touches|] ].

Ltac afterMove endTac :=
  cbv beta iota; tsteps;
  lazymatch goal with
  | |- triple _ (mbind _ (match ?x with _ => _ end)) _ _ => destruct x eqn:?
  end;
  [ tsteps; rewrite Nat.ltb_irrefl; tsteps; apply triple_await;
    [ intros ? _; tsteps; apply triple_resolve; finish; endTac
    | intros _; finish; endTac ]
  | tsteps; apply triple_resolve; finish; endTac ].

Lemma triple_processResponse_recorded responseText io c :
  triple c (processResponse sessionId responseText io)
    (λ t s, ∃ c', Holds c' s ∧ turnKeeps responseText c c' ∧ turnTouches c c'
                  ∧ turnEnds (InterviewTurn.isComplete t) c c')
    (λ s, ∃ c', Holds c' s ∧ turnKeeps responseText c c' ∧ turnTouches c c'
                ∧ turnEnds false c c').
Proof.
  unfold processResponse. tsteps.
  destruct (getCurrentQuestion (pushMessage c user responseText)) as [q|] eqn:Hq.
  - set (evaluation := ResponseEvaluatorService.evaluateResponse _ _ _).
    set (existing := default _ _).
    pose proof (evaluateResponse_score q responseText
                  (ProcessResponseIO.generateWithJSON io)) as Hscore.
    fold evaluation in Hscore.
    destruct (getCurrentQuestion_Some _ _ Hq) as (ta & Hta & Hlt).
    destruct (ResponseEvaluatorService.needsFollowUp evaluation _ _) eqn:Hneed.
    + apply needsFollowUp_true_iff in Hneed as [Hnone _].
      assert (recordedBy (ConversationContext.responses c) (Question.id q)
                (StoredResponse.incrFollowUps existing)) as Hrecorded.
      { exists responseText, evaluation. split; [done|]. right. by split. }
      unfold QuestionGeneratorService.generateFollowUp. tsteps.
      apply triple_await.
      * intros followUpText _. tsteps.
        apply triple_mutate; [by apply G_recorded|].
        tsteps. apply triple_resolve.
        finish. by apply onQuestion_turnEnds; exists ta.
      * intros _. finish. by apply onQuestion_turnEnds; exists ta.
    + assert (recordedBy (ConversationContext.responses c) (Question.id q) existing)
        as Hrecorded.
      { exists responseText, evaluation. split; [done|]. by left. }
      tsteps. apply triple_mutate; [by apply G_recorded|].
      tsteps. apply triple_await;
        [intros [] _ | intros _; finish; by apply onQuestion_turnEnds; exists ta].
      tsteps. apply triple_moveToNextQuestion; [assumption.. | |].
      { intros Hnone. exfalso. clear -Hnone Hta. unfold planOf in *. simpl in *.
        congruence. }
      intros ta' Hta'.
      assert (ta' = ta) as ->.
      { clear -Hta' Hta. unfold planOf in *. simpl in *. congruence. }
      lazymatch goal with
      | |- if ?b then _ else _ => destruct b eqn:Hleb
      end.
      * lazymatch goal with
        | |- triple _ (mbind _ (if ?b then _ else _)) _ _ => destruct b eqn:Hend
        end.
        -- tsteps. apply triple_resolve. finish.
           apply planEnd_turnEnds; [|done].
           apply Nat.leb_le in Hend. apply lookup_lt_Some in Hta.
           unfold atEnd, planOf in *. simpl in *. lia.
        -- afterMove ltac:(apply nextAssessment_turnEnds;
                           [done | by apply Nat.leb_gt in Hend | done]).
      * afterMove ltac:(apply onQuestion_turnEnds; exists ta;
                        split; [done | by apply Nat.leb_gt in Hleb]).
  - apply triple_resolve. finish. intros Hvalid _.
    split; [exact Hvalid|]. split; [done|]. intros _.
    by apply (getCurrentQuestion_None (pushMessage c user responseText)).
Qed.
End one_turn.

Lemma recordedBy_followUps responses questionId r :
  recordedBy responses questionId r →
  StoredResponse.followUpsAsked r ≤ 1 ∨ responses !! questionId = Some r.
Proof.
  intros (responseText & evaluation & _ & [-> | [Hlt ->]]).
  - destruct (responses !! questionId); [by right | left; simpl; lia].
  - left. simpl. lia.
Qed.

Lemma triple_processResponse sessionId G :
  (∀ k c a q, G k c → G k (ConversationContext.setCursor c a q)) →
  (∀ k c h, G k c → G k (ConversationContext.setHistory c h)) →
  (∀ c, G sessionId c → G (ConversationContext.sessionId c) c) →
  (∀ c questionId r,
     G sessionId c →
     StoredResponse.followUpsAsked r ≤ 1
     ∨ ConversationContext.responses c !! questionId = Some r →
     G sessionId
       (ConversationContext.setResponses c
          (<[questionId := r]> (ConversationContext.responses c)))) →
  ∀ responseText io c,
    triple sessionId G c
      (InterviewOrchestratorService.processResponse sessionId responseText io)
      (λ t s, ∃ c', Holds sessionId G c' s ∧ turnKeeps responseText c c'
                    ∧ turnEnds (InterviewTurn.isComplete t) c c')
      (λ s, ∃ c', Holds sessionId G c' s ∧ turnKeeps responseText c c'
                  ∧ turnEnds false c c').
Proof.
  intros G1 G2 G3 G4 responseText io c s Hs.
  eapply wp_mono;
    [| | apply (triple_processResponse_recorded sessionId G G1 G2 G3); [|exact Hs]].
  - intros t s' (c' & ? & ? & _ & ?). by exists c'.
  - intros s' (c' & ? & ? & _ & ?). by exists c'.
  - intros c0 questionId r Hc0 Hr. apply G4; [done|]. by apply recordedBy_followUps.
Qed.


(** ** What a turn does to its session *)

Section turn_facts.
Import ConversationManagerService InterviewOrchestratorService.

Lemma processResponse_missing sessionId responseText io (s : Store) :
  s !! sessionId = None →
  processResponse sessionId responseText io s
  = (s, inl (NotFoundException "Session not found or expired")).
Proof.
  intros Hnone.
  unfold processResponse, mbind, Async_bind, andThen, getContext.
  by rewrite Hnone.
Qed.

Lemma processResponse_Holds G sessionId responseText io s c :
  (∀ k c a q, G k c → G k (ConversationContext.setCursor c a q)) →
  (∀ k c h, G k c → G k (ConversationContext.setHistory c h)) →
  (∀ c, G sessionId c → G (ConversationContext.sessionId c) c) →
  (∀ c questionId r,
     G sessionId c →
     StoredResponse.followUpsAsked r ≤ 1
     ∨ ConversationContext.responses c !! questionId = Some r →
     G sessionId
       (ConversationContext.setResponses c
          (<[questionId := r]> (ConversationContext.responses c)))) →
  Holds sessionId G c s →
  ∃ c',
    Holds sessionId G c' (processResponse sessionId responseText io s).1
    ∧ turnKeeps responseText c c'
    ∧ turnEnds (completes (processResponse sessionId responseText io s).2) c c'.
Proof.
  intros G1 G2 G3 G4 Hs.
  pose proof (triple_processResponse sessionId G G1 G2 G3 G4 responseText io c s Hs)
    as Hwp.
  unfold wp in Hwp.
  by destruct (processResponse sessionId responseText io s) as [s' [e|t]].
Qed.

Lemma processResponse_session sessionId responseText io (s : Store) c :
  s !! sessionId = Some c →
  ∃ c',
    (processResponse sessionId responseText io s).1 !! sessionId = Some c'
    ∧ turnKeeps responseText c c'
    ∧ turnEnds (completes (processResponse sessionId responseText io s).2) c c'.
Proof.
  intros Hc.
  destruct (processResponse_Holds (λ _ _, True) sessionId responseText io s c)
    as (c' & [Hc' _] & Hkeeps & Hends); try done.
  by exists c'.
Qed.

Lemma turns_snoc sessionId calls call (s : Store) :
  turns sessionId (calls ++ [call]) s
  = (processResponse sessionId call.1 call.2 (turns sessionId calls s)).1.
Proof. unfold turns. by rewrite fold_left_app. Qed.

(** Along a sequence of turns the session stays, with its plan, a cursor
    that did not go back, and a valid cursor if it started valid. *)
Lemma turns_session sessionId calls (s : Store) c :
  s !! sessionId = Some c →
  ∃ c',
    turns sessionId calls s !! sessionId = Some c'
    ∧ planOf c' = planOf c
    ∧ cursorLe (cursor c) (cursor c')
    ∧ (cursorValid c → planHasQuestions (planOf c) → cursorValid c').
Proof.
  intros Hc. induction calls as [|call calls IH] using rev_ind.
  - exists c. split; [done|]. split; [done|]. split; [apply cursorLe_refl | done].
  - destruct IH as (c1 & Hc1 & Hplan1 & Hle1 & Hvalid1).
    destruct (processResponse_session sessionId call.1 call.2 _ _ Hc1)
      as (c2 & Hc2 & (Htemplate & _ & Hle2 & _) & Hends).
    exists c2. rewrite turns_snoc. split; [done|].
    assert (planOf c2 = planOf c1) as Hplan2 by (unfold planOf; by rewrite Htemplate).
    split; [congruence|]. split; [by eapply cursorLe_trans|].
    intros Hvalid Hplan. apply Hends; [by apply Hvalid1 | by rewrite Hplan1].
Qed.

Lemma start_cursorValid c :
  ConversationContext.currentAssessmentIndex c = 0%nat →
  ConversationContext.currentQuestionIndex c = 0%nat →
  planHasQuestions (planOf c) → cursorValid c.
Proof.
  intros Ha Hq Hplan. unfold cursorValid, atEnd. rewrite Ha, Hq.
  destruct (planOf c) as [|ta plan] eqn:Hp; [by right|].
  left. exists ta. split; [done|].
  apply Forall_cons_1 in Hplan as [Hne _]. simpl in Hne.
  destruct (Assessment.questionsOrEmpty (TemplateAssessment.assessment ta));
    [done | simpl; lia].
Qed.
End turn_facts.

(** C8.  Along every sequence of [processResponse] calls on a session, each
    call leaves the cursor at or after the position it found, in
    lexicographic order; and in a session whose cursor is on its plan and
    whose plan has a question in every assessment, the cursor is at the
    end of the plan (assessment index equal to the number of assessments)
    after a call exactly when that call returned [isComplete = true], so
    it gets there at the first such call. *)
Theorem cursor_monotone_reaches_end
    (sessionId : string) (s : gmap string ConversationContext.t)
    (c : ConversationContext.t)
    (calls : list (string * InterviewOrchestratorService.ProcessResponseIO.t))
    (responseText : string) (io : InterviewOrchestratorService.ProcessResponseIO.t) :
  s !! sessionId = Some c →
  ∃ c1 c2,
    turns sessionId calls s !! sessionId = Some c1
    ∧ (InterviewOrchestratorService.processResponse sessionId responseText io
         (turns sessionId calls s)).1 !! sessionId = Some c2
    ∧ cursorLe (cursor c) (cursor c1)
    ∧ cursorLe (cursor c1) (cursor c2)
    ∧ (cursorValid c → planHasQuestions (planOf c) →
       (ConversationContext.currentAssessmentIndex c2 = length (planOf c)
        ↔ ∃ t,
            (InterviewOrchestratorService.processResponse sessionId responseText io
               (turns sessionId calls s)).2 = inr t
            ∧ InterviewTurn.isComplete t = true)).
Proof.
  intros Hc.
  destruct (turns_session sessionId calls s c Hc)
    as (c1 & Hc1 & Hplan1 & Hle1 & Hvalid1).
  destruct (processResponse_session sessionId responseText io _ _ Hc1)
    as (c2 & Hc2 & (Htemplate & _ & Hle2 & _) & Hends).
  exists c1, c2. do 4 (split; [done|]).
  intros Hvalid Hplan.
  destruct Hends as [_ Hiff]; [by apply Hvalid1 | by rewrite Hplan1|].
  assert (planOf c2 = planOf c) as Hplan2
    by (rewrite <- Hplan1; unfold planOf; by rewrite Htemplate).
  unfold atEnd in Hiff. rewrite Hplan2 in Hiff. rewrite Hiff.
  destruct (InterviewOrchestratorService.processResponse _ _ _ _).2 as [e|t]; simpl.
  - split; [done | by intros (t & ? & _)].
  - split; [intros H; by exists t | by intros (t' & [= <-] & H)].
Qed.

(** ** The follow-up counter *)

Section follow_up_counter.
Import ConversationManagerService InterviewOrchestratorService.

Variable n : Z.
Hypothesis one_le_n : 1 ≤ n.

Lemma followUpsAtMost_setCursor c a q :
  followUpsAtMost n c → followUpsAtMost n (ConversationContext.setCursor c a q).
Proof. done. Qed.

Lemma followUpsAtMost_setHistory c h :
  followUpsAtMost n c → followUpsAtMost n (ConversationContext.setHistory c h).
Proof. done. Qed.

Lemma followUpsAtMost_setResponse c questionId r :
  followUpsAtMost n c →
  StoredResponse.followUpsAsked r ≤ 1
  ∨ ConversationContext.responses c !! questionId = Some r →
  followUpsAtMost n
    (ConversationContext.setResponses c
       (<[questionId := r]> (ConversationContext.responses c))).
Proof.
  intros Hc Hr questionId' r'. simpl. rewrite lookup_insert.
  case_decide as Heq; [|apply Hc]. intros [= <-].
  destruct Hr as [Hr|Hr]; [lia | by eapply Hc].
Qed.

Lemma followUpsAtMost_fresh sessionId interviewId template candidateInfo :
  followUpsAtMost n
    (ConversationContext.mk sessionId interviewId template 0 0 [] candidateInfo ∅).
Proof. intros questionId r. simpl. by rewrite lookup_empty. Qed.

Lemma processResponse_followUps sessionId responseText io (s : Store) :
  everySession (followUpsAtMost n) s →
  everySession (followUpsAtMost n)
    (processResponse sessionId responseText io s).1.
Proof.
  intros Hs. destruct (s !! sessionId) as [c|] eqn:Hc.
  - destruct (processResponse_Holds (λ _, followUpsAtMost n) sessionId
                responseText io s c)
      as (c' & [_ Hall] & _); [done | done | done | | done | done].
    apply followUpsAtMost_setResponse.
  - by rewrite processResponse_missing.
Qed.

Lemma turns_followUps sessionId calls (s : Store) :
  everySession (followUpsAtMost n) s →
  everySession (followUpsAtMost n) (turns sessionId calls s).
Proof.
  intros Hs. induction calls as [|call calls IH] using rev_ind; [done|].
  rewrite turns_snoc. by apply processResponse_followUps.
Qed.

Lemma completeInterview_followUps sessionId io (s : Store) :
  everySession (followUpsAtMost n) s →
  everySession (followUpsAtMost n) (completeInterview sessionId io s).1.
Proof.
  intros Hs. unfold completeInterview, mbind, Async_bind, andThen, getContext.
  destruct (s !! sessionId) as [c|]; [|done].
  destruct (CompleteInterviewIO.chat io), (CompleteInterviewIO.interviewUpdate io);
    simpl; try done.
  all: intros k c'; rewrite lookup_delete_Some; intros [_ Hk]; by eapply Hs.
Qed.

Lemma startInterview_followUps interviewId io (s : Store) :
  everySession (followUpsAtMost n) s →
  everySession (followUpsAtMost n) (startInterview interviewId io s).1.
Proof.
  intros Hs.
  enough (wp (startInterview interviewId io)
            (λ _, everySession (followUpsAtMost n))
            (everySession (followUpsAtMost n)) s) as Hwp.
  { unfold wp in Hwp. by destruct (startInterview interviewId io s) as [s' [e|a]]. }
  unfold startInterview. apply wp_bind, wp_await.
  destruct (StartInterviewIO.findInterview io) as [[interview|]|]; [|done..].
  destruct (negb _); [done|].
  unfold createSession. apply wp_bind_assoc, wp_bind, wp_await.
  destruct (StartInterviewIO.findTemplate io) as [[template|]|]; [|done..].
  apply wp_bind_assoc, wp_bind, wp_modifyStore, wp_bind, wp_resolve.
  set (sessionId := ("interview:" +:+ _)%string).
  set (c0 := ConversationContext.mk _ _ _ _ _ _ _ _).
  assert (Holds sessionId (λ _, followUpsAtMost n) c0 (<[sessionId := c0]> s))
    as Hholds.
  { split; [apply lookup_insert_eq|]. intros k c'. rewrite lookup_insert.
    case_decide; [intros [= <-]; apply followUpsAtMost_fresh | apply Hs]. }
  revert Hholds. generalize (<[sessionId := c0]> s).
  lazymatch goal with
  | |- ∀ s1, Holds ?sid ?G ?c s1 → wp ?m ?Q ?E s1 => change (triple sid G c m Q E)
  end.
  assert (∀ (k : string) c h,
            followUpsAtMost n c →
            followUpsAtMost n (ConversationContext.setHistory c h)) as G2 by done.
  assert (∀ c, followUpsAtMost n c → followUpsAtMost n c) as G3 by done.
  tsteps. unfold QuestionGeneratorService.generateOpeningMessage.
  apply triple_await; [intros openingMessage _ | by intros _ s' [_ Hall]].
  tsteps.
  destruct (getCurrentQuestion _) as [firstQuestion|].
  - tsteps. apply triple_resolve. by intros s' [_ Hall].
  - apply triple_throw. by intros s' [_ Hall].
Qed.

Lemma reachable_followUps (s : Store) :
  reachable s → everySession (followUpsAtMost n) s.
Proof.
  intros [calls ->]. induction calls as [|call calls IH] using rev_ind.
  - intros k c. simpl. by rewrite lookup_empty.
  - rewrite fold_left_app. simpl. destruct call; simpl.
    + by apply startInterview_followUps.
    + by apply processResponse_followUps.
    + by apply completeInterview_followUps.
Qed.
End follow_up_counter.

(** ** Contexts are stored under their own id

    In every store the orchestrator can reach, [updateContext] therefore
    writes a context back to the key it was read from. *)

Section well_keyed.
Import ConversationManagerService InterviewOrchestratorService.

Lemma processResponse_wellKeyed sessionId responseText io (s : Store) :
  wellKeyed s → wellKeyed (processResponse sessionId responseText io s).1.
Proof.
  intros Hs. destruct (s !! sessionId) as [c|] eqn:Hc.
  - destruct (processResponse_Holds (λ k c, ConversationContext.sessionId c = k)
                sessionId responseText io s c)
      as (c' & [_ Hall] & _); done.
  - by rewrite processResponse_missing.
Qed.

Lemma completeInterview_wellKeyed sessionId io (s : Store) :
  wellKeyed s → wellKeyed (completeInterview sessionId io s).1.
Proof.
  intros Hs. unfold completeInterview, mbind, Async_bind, andThen, getContext.
  destruct (s !! sessionId) as [c|]; [|done].
  destruct (CompleteInterviewIO.chat io), (CompleteInterviewIO.interviewUpdate io);
    simpl; try done.
  all: intros k c'; rewrite lookup_delete_Some; intros [_ Hk]; by apply Hs.
Qed.

Lemma startInterview_wellKeyed interviewId io (s : Store) :
  wellKeyed s → wellKeyed (startInterview interviewId io s).1.
Proof.
  intros Hs.
  enough (wp (startInterview interviewId io) (λ _, wellKeyed) wellKeyed s) as Hwp.
  { unfold wp in Hwp. by destruct (startInterview interviewId io s) as [s' [e|a]]. }
  unfold startInterview. apply wp_bind, wp_await.
  destruct (StartInterviewIO.findInterview io) as [[interview|]|]; [|done..].
  destruct (negb _); [done|].
  unfold createSession. apply wp_bind_assoc, wp_bind, wp_await.
  destruct (StartInterviewIO.findTemplate io) as [[template|]|]; [|done..].
  apply wp_bind_assoc, wp_bind, wp_modifyStore, wp_bind, wp_resolve.
  set (sessionId := ("interview:" +:+ _)%string).
  set (c0 := ConversationContext.mk _ _ _ _ _ _ _ _).
  assert (Holds sessionId (λ k c, ConversationContext.sessionId c = k) c0
            (<[sessionId := c0]> s)) as Hholds.
  { split; [apply lookup_insert_eq|]. intros k c'. rewrite lookup_insert.
    case_decide; [subst k; by intros [= <-] | apply Hs]. }
  revert Hholds. generalize (<[sessionId := c0]> s).
  lazymatch goal with
  | |- ∀ s1, Holds ?sid ?G ?c s1 → wp ?m ?Q ?E s1 => change (triple sid G c m Q E)
  end.
  assert (∀ (k : string) c (h : list ChatMessage.t),
            ConversationContext.sessionId c = k →
            ConversationContext.sessionId (ConversationContext.setHistory c h) = k)
    as G2 by done.
  assert (∀ c, ConversationContext.sessionId c = sessionId →
               ConversationContext.sessionId c = ConversationContext.sessionId c)
    as G3 by done.
  tsteps. unfold QuestionGeneratorService.generateOpeningMessage.
  apply triple_await; [intros openingMessage _ | by intros _ s' [_ Hall]].
  tsteps.
  destruct (getCurrentQuestion _) as [firstQuestion|].
  - tsteps. apply triple_resolve. by intros s' [_ Hall].
  - apply triple_throw. by intros s' [_ Hall].
Qed.

Lemma reachable_wellKeyed (s : Store) : reachable s → wellKeyed s.
Proof.
  intros [calls ->]. induction calls as [|call calls IH] using rev_ind.
  - intros k c. simpl. by rewrite lookup_empty.
  - rewrite fold_left_app. simpl. destruct call; simpl.
    + by apply startInterview_wellKeyed.
    + by apply processResponse_wellKeyed.
    + by apply completeInterview_wellKeyed.
Qed.
End well_keyed.

Lemma cursor_monotone_reaches_end_witness :
  ∃ c1 c2,
    Sample.afterFirstAnswer !! Sample.sessionId = Some c1
    ∧ Sample.afterSecondAnswer !! Sample.sessionId = Some c2
    ∧ cursorLe (cursor (Sample.fresh Sample.oneQuestion)) (cursor c1)
    ∧ cursorLe (cursor c1) (cursor c2)
    ∧ (ConversationContext.currentAssessmentIndex c2 = 1%nat
       ↔ ∃ t,
           (InterviewOrchestratorService.processResponse Sample.sessionId
              Sample.longAnswer (Sample.answers 90) Sample.afterFirstAnswer).2 = inr t
           ∧ InterviewTurn.isComplete t = true).
Proof.
  assert (Sample.created Sample.oneQuestion !! Sample.sessionId
          = Some (Sample.fresh Sample.oneQuestion)) as Hfresh
    by (vm_compute; reflexivity).
  destruct (cursor_monotone_reaches_end Sample.sessionId
              (Sample.created Sample.oneQuestion) (Sample.fresh Sample.oneQuestion)
              [(Sample.shortAnswer, Sample.answers 40)]
              Sample.longAnswer (Sample.answers 90) Hfresh)
    as (c1 & c2 & Hc1 & Hc2 & Hle1 & Hle2 & Hend).
  exists c1, c2. do 4 (split; [assumption|]).
  apply Hend.
  - apply start_cursorValid; [reflexivity | reflexivity |].
    repeat constructor. discriminate.
  - repeat constructor. discriminate.
Defined.

(** C4.  Along every sequence of [processResponse] calls, from a store in
    which no question has more than two follow-ups on record (a new
    session has none), no question ever has more than two; and with two
    follow-ups asked the policy answers false whatever the evaluation and
    the length of the answer. *)
Theorem followUp_cap
    (sessionId : string)
    (calls : list (string * InterviewOrchestratorService.ProcessResponseIO.t))
    (s : gmap string ConversationContext.t) :
  everySession (followUpsAtMost 2) s →
  everySession (followUpsAtMost 2) (turns sessionId calls s)
  ∧ ∀ e len, ResponseEvaluatorService.needsFollowUp e 2 len = false.
Proof.
  intros Hs. split.
  - by apply turns_followUps.
  - intros e len. by apply needsFollowUp_after_one.
Qed.

Lemma followUp_cap_witness :
  everySession (followUpsAtMost 2) (Sample.created Sample.oneQuestion)
  ∧ everySession (followUpsAtMost 2) Sample.afterSecondAnswer
  ∧ ∀ e len, ResponseEvaluatorService.needsFollowUp e 2 len = false.
Proof.
  assert (everySession (followUpsAtMost 2) (Sample.created Sample.oneQuestion)) as H.
  { apply reachable_followUps; [lia|].
    exists [callStartInterview "iv"
              (InterviewOrchestratorService.StartInterviewIO.mk
                 (Some (Some (Sample.interviewOn Sample.oneQuestion)))
                 1700000000000 (Some (Some Sample.oneQuestion)) None None)].
    vm_compute. reflexivity. }
  split; [exact H|].
  apply (followUp_cap Sample.sessionId
           [(Sample.shortAnswer, Sample.answers 40); (Sample.longAnswer, Sample.answers 90)]
           (Sample.created Sample.oneQuestion) H).
Defined.

(** ** Completing an interview *)

Section completion.
Import ConversationManagerService InterviewOrchestratorService.

Lemma completeInterview_missing sessionId io (s : Store) :
  s !! sessionId = None →
  completeInterview sessionId io s
  = (s, inl (NotFoundException "Session not found or expired")).
Proof.
  intros Hnone. unfold completeInterview, mbind, Async_bind, andThen, getContext.
  by rewrite Hnone.
Qed.

Lemma completeInterview_returns sessionId io (s s' : Store) summary :
  completeInterview sessionId io s = (s', inr summary) →
  ∃ c,
    s !! sessionId = Some c
    ∧ s' = delete sessionId s
    ∧ InterviewSummary.overallScore summary = overallScoreOf c
    ∧ InterviewSummary.scoreBreakdown summary = scoreBreakdownOf c.
Proof.
  unfold completeInterview, mbind, Async_bind, andThen, getContext.
  destruct (s !! sessionId) as [c|]; [|done].
  destruct (CompleteInterviewIO.chat io), (CompleteInterviewIO.interviewUpdate io);
    simpl; try done.
  all: intros [= <- <-]; by exists c.
Qed.
End completion.

(** C1.  [completeInterview] takes the plain mean of all recorded scores
    and never reads a weight: with 100 on the one question of an
    assessment of weight 50 and 60 on the three questions of another of
    weight 50 it returns 70, where the weighted average of the assessment
    scores is 80.  With one assessment of weight 100 and three questions
    scored 80 it returns 80 and a breakdown with the one entry 80. *)
Theorem overall_score_ignores_weights :
  (∃ c summary,
      Sample.unevenAssessments !! Sample.sessionId = Some c
      ∧ (InterviewOrchestratorService.completeInterview Sample.sessionId
           Sample.narrative Sample.unevenAssessments).2 = inr summary
      ∧ InterviewSummary.overallScore summary = 70
      ∧ Spec.overallScore c = 80)
  ∧ (∃ summary,
       (InterviewOrchestratorService.completeInterview Sample.sessionId
          Sample.narrative Sample.allEighty).2 = inr summary
       ∧ InterviewSummary.overallScore summary = 80
       ∧ InterviewSummary.scoreBreakdown summary = {[ "A" := 80 ]}).
Proof.
  split.
  - eexists _, _. split; [vm_compute; reflexivity|].
    split; [vm_compute; reflexivity|]. split; vm_compute; reflexivity.
  - eexists. split; [vm_compute; reflexivity|]. split; vm_compute; reflexivity.
Qed.

(** C2, as the code has it.  A [completeInterview] that returns a summary
    has computed it from the stored conversation state and has deleted
    the session; every later call on the same session id throws "Session
    not found or expired" and returns no summary. *)
Theorem completeInterview_consumes_session
    (sessionId : string) (io io' : InterviewOrchestratorService.CompleteInterviewIO.t)
    (s s' : gmap string ConversationContext.t) (summary : InterviewSummary.t) :
  InterviewOrchestratorService.completeInterview sessionId io s = (s', inr summary) →
  (∃ c,
      s !! sessionId = Some c
      ∧ InterviewSummary.overallScore summary
        = InterviewOrchestratorService.overallScoreOf c
      ∧ InterviewSummary.scoreBreakdown summary
        = InterviewOrchestratorService.scoreBreakdownOf c)
  ∧ InterviewOrchestratorService.completeInterview sessionId io' s'
    = (s', inl (NotFoundException "Session not found or expired")).
Proof.
  intros Hfirst.
  destruct (completeInterview_returns _ _ _ _ _ Hfirst) as (c & Hc & -> & Hov & Hbd).
  split; [by exists c|].
  apply completeInterview_missing, lookup_delete_eq.
Qed.

Lemma completeInterview_consumes_session_witness :
  ∃ s' summary,
    InterviewOrchestratorService.completeInterview Sample.sessionId Sample.narrative
      Sample.allEighty = (s', inr summary)
    ∧ InterviewOrchestratorService.completeInterview Sample.sessionId Sample.narrative s'
      = (s', inl (NotFoundException "Session not found or expired")).
Proof.
  eexists _, _.
  assert (InterviewOrchestratorService.completeInterview Sample.sessionId
            Sample.narrative Sample.allEighty = (_, inr _)) as H
    by (vm_compute; reflexivity).
  split; [exact H|].
  exact (proj2 (completeInterview_consumes_session _ _ Sample.narrative _ _ _ H)).
Defined.

(** C2 fails as stated: the second call on a completed session does not
    return the summary of the first. *)
Lemma completeInterview_not_idempotent :
  let first :=
    InterviewOrchestratorService.completeInterview Sample.sessionId Sample.narrative
      Sample.allEighty in
  (∃ summary, first.2 = inr summary)
  ∧ (InterviewOrchestratorService.completeInterview Sample.sessionId Sample.narrative
       first.1).2 ≠ first.2.
Proof.
  split.
  - eexists. vm_compute. reflexivity.
  - vm_compute. discriminate.
Qed.

(** ** A failing evaluator, and a repeated answer *)

(** C5, as the code has it.  When the evaluation call fails,
    [evaluateResponse] catches the failure and substitutes its fallback
    evaluation (score 50, recommendation maybe), and [processResponse]
    goes on exactly as if the evaluator had answered it: nothing is rolled
    back, and the answer is on the conversation history after the call. *)
Theorem evaluator_failure_falls_back
    (sessionId responseText : string)
    (io : InterviewOrchestratorService.ProcessResponseIO.t)
    (s : gmap string ConversationContext.t) :
  InterviewOrchestratorService.ProcessResponseIO.generateWithJSON io = None →
  InterviewOrchestratorService.processResponse sessionId responseText io s
  = InterviewOrchestratorService.processResponse sessionId responseText
      (withEvaluation io (Some ResponseEvaluatorService.fallbackEvaluation)) s
  ∧ ∀ c,
      s !! sessionId = Some c →
      ∃ c' rest,
        (InterviewOrchestratorService.processResponse sessionId responseText io s).1
          !! sessionId = Some c'
        ∧ ConversationContext.conversationHistory c'
          = ConversationContext.conversationHistory c
              ++ ChatMessage.mk user responseText :: rest.
Proof.
  intros Hfail. split.
  - destruct io as [json followUp save transition find adapt].
    simpl in Hfail. subst json. reflexivity.
  - intros c Hc.
    destruct (processResponse_session sessionId responseText io s c Hc)
      as (c' & Hc' & (_ & _ & _ & rest & Hrest) & _).
    by exists c', rest.
Qed.

Lemma evaluator_failure_falls_back_witness :
  InterviewOrchestratorService.processResponse Sample.sessionId Sample.longAnswer
    Sample.evaluatorDown (Sample.created Sample.oneAssessment)
  = InterviewOrchestratorService.processResponse Sample.sessionId Sample.longAnswer
      (withEvaluation Sample.evaluatorDown
         (Some ResponseEvaluatorService.fallbackEvaluation))
      (Sample.created Sample.oneAssessment).
Proof.
  exact (proj1 (evaluator_failure_falls_back Sample.sessionId Sample.longAnswer
                  Sample.evaluatorDown (Sample.created Sample.oneAssessment)
                  eq_refl)).
Defined.

(** C5 fails as stated: after a call during which the evaluator failed,
    a response is on record for the question and the cursor has moved. *)
Lemma evaluator_failure_commits_turn :
  InterviewOrchestratorService.ProcessResponseIO.generateWithJSON Sample.evaluatorDown
  = None
  ∧ (InterviewOrchestratorService.processResponse Sample.sessionId Sample.longAnswer
       Sample.evaluatorDown (Sample.created Sample.oneAssessment)).1
    ≠ Sample.created Sample.oneAssessment.
Proof.
  split; [reflexivity|]. intros H.
  apply (f_equal (λ s : gmap string ConversationContext.t,
                    cursor <$> s !! Sample.sessionId)) in H.
  vm_compute in H. discriminate H.
Qed.

(** C6.  On a repeated answer the stored response is kept as it is: after
    a short answer scored 40, a follow-up, and a second answer scored 90,
    the turn reports 90 while [responses] still holds the text and the
    score of the first answer, with its follow-up count, and the overall
    score and the breakdown are computed from 40. *)
Theorem repeated_answer_keeps_first :
  ∃ turn c r,
    (InterviewOrchestratorService.processResponse Sample.sessionId Sample.longAnswer
       (Sample.answers 90) Sample.afterFirstAnswer).2 = inr turn
    ∧ TurnResponse.score (InterviewTurn.response turn) = 90
    ∧ Sample.afterSecondAnswer !! Sample.sessionId = Some c
    ∧ ConversationContext.responses c !! "q1" = Some r
    ∧ StoredResponse.text r = Sample.shortAnswer
    ∧ StoredResponse.score r = 40
    ∧ StoredResponse.followUpsAsked r = 1
    ∧ InterviewOrchestratorService.overallScoreOf c = 40
    ∧ InterviewOrchestratorService.scoreBreakdownOf c = {[ "A" := 40 ]}.
Proof.
  eexists _, _, _. split; [vm_compute; reflexivity|].
  split; [vm_compute; reflexivity|]. split; [vm_compute; reflexivity|].
  split; [vm_compute; reflexivity|]. repeat split; vm_compute; reflexivity.
Qed.

(** ** The trust score *)

Section trust_score.
Import InterviewGateway.

Lemma penalise_faces (fds : list FaceDetection.t) (score : Z) :
  fold_left (λ score fd,
               if 1 <? FaceDetection.facesDetected fd then score - 5 else score)
            fds score
  = score
    - Z.of_nat (length (List.filter (λ fd, 1 <? FaceDetection.facesDetected fd) fds))
      * 5.
Proof.
  revert score. induction fds as [|fd fds IH]; intros score; simpl; [lia|].
  rewrite IH. destruct (1 <? FaceDetection.facesDetected fd); simpl length; lia.
Qed.

Lemma penalise_each (k : Z) (m : nat) (score : Z) :
  Nat.iter m (λ score, score - k) score = score - Z.of_nat m * k.
Proof. induction m as [|m IH]; simpl; [lia|]. rewrite IH. lia. Qed.

Lemma penalise_entries {A} (k : Z) (l : list A) (score : Z) :
  fold_left (λ score _, score - k) l score = score - Z.of_nat (length l) * k.
Proof.
  revert score. induction l as [|a l IH]; intros score; simpl; [lia|].
  rewrite IH. lia.
Qed.

(** C7.  For every proctoring log, the trust score computed from the
    proctoring data that records it is 100 minus 5 for each
    face-detection event with more than one face, 3 for each tab switch,
    10 for each fullscreen exit and 15 for each suspicious-activity
    entry, clamped to the range 0..100; two tab switches and one
    fullscreen exit give 84. *)
Theorem trust_score_penalties (log : ProctorLog.t) (proctorData : ProctorData.t) :
  ProctorLog.recordedIn log proctorData →
  calculateTrustScore proctorData = ProctorLog.trustScore log
  ∧ 0 ≤ calculateTrustScore proctorData ≤ 100
  ∧ calculateTrustScore (ProctorData.mk (Some []) (Some 2) (Some 1) (Some [])) = 84.
Proof.
  intros (Hfaces & Htabs & Hexits & Hsusp).
  split; [|split; [unfold calculateTrustScore; lia | reflexivity]].
  unfold calculateTrustScore, ProctorLog.trustScore, clamp, Math.round.
  rewrite penalise_entries, !penalise_each, penalise_faces.
  rewrite Hfaces, Htabs, Hexits, <- Hsusp.
  by destruct (ProctorData.suspiciousActivity proctorData).
Qed.

Lemma trust_score_penalties_witness :
  calculateTrustScore (ProctorData.mk None (Some 2) (Some 1) None)
  = ProctorLog.trustScore (ProctorLog.mk [] 2 1 []).
Proof.
  refine (proj1 (trust_score_penalties (ProctorLog.mk [] 2 1 [])
                   (ProctorData.mk None (Some 2) (Some 1) None) _)).
  repeat split.
Defined.
End trust_score.

(** ** The session registry *)

Section registry.
Import Websockets Websockets.InterviewSessionManager InterviewGateway.

Lemma assign_id session p :
  InterviewSession.id (assign session p) = InterviewSession.id session.
Proof. by destruct session, p. Qed.

Lemma assign_interviewId session p :
  InterviewSession.interviewId (assign session p)
  = InterviewSession.interviewId session.
Proof. by destruct session, p. Qed.

Lemma spread_id session updates :
  InterviewSession.id (spread session updates) = InterviewSession.id session.
Proof.
  revert session. induction updates as [|p updates IH]; intros session; [done|].
  simpl. fold (spread (assign session p) updates). by rewrite IH, assign_id.
Qed.

Lemma spread_interviewId session updates :
  InterviewSession.interviewId (spread session updates)
  = InterviewSession.interviewId session.
Proof.
  revert session. induction updates as [|p updates IH]; intros session; [done|].
  simpl. fold (spread (assign session p) updates).
  by rewrite IH, assign_interviewId.
Qed.

(** [updateSession] on a session that also holds the entry of its
    interview rewrites both entries. *)
Lemma updateSession_entries (sessions : Sessions) session other updates :
  sessions !! InterviewSession.id session = Some session →
  sessions !! interviewKey (InterviewSession.interviewId session) = Some other →
  InterviewSession.id other = InterviewSession.id session →
  ∃ sessions',
    updateSession (InterviewSession.id session) updates sessions
    = (sessions', inr tt)
    ∧ registered sessions' (InterviewSession.interviewId session)
        (spread session updates).
Proof.
  intros Hid Hkey Hother.
  unfold updateSession, mbind, Async_bind, andThen, getSession,
    getSessionByInterviewId, modifyStore, resolve.
  rewrite Hid. simpl.
  assert (∃ found,
            <[InterviewSession.id session := spread session updates]> sessions
              !! interviewKey (InterviewSession.interviewId session) = Some found
            ∧ InterviewSession.id found = InterviewSession.id session)
    as (found & -> & Hfound).
  { rewrite lookup_insert. case_decide.
    - eexists. split; [done|]. apply spread_id.
    - by exists other. }
  rewrite Hfound, String.eqb_refl. eexists. split; [done|].
  split; [apply lookup_insert_eq|]. split; [|by rewrite spread_interviewId].
  rewrite spread_id, lookup_insert. case_decide; [done|]. apply lookup_insert_eq.
Qed.

Lemma updateSession_registered (sessions : Sessions) interviewId session updates :
  registered sessions interviewId session →
  ∃ sessions',
    updateSession (InterviewSession.id session) updates sessions
    = (sessions', inr tt)
    ∧ registered sessions' interviewId (spread session updates).
Proof.
  intros (Hkey & Hid & <-). by eapply updateSession_entries.
Qed.

Lemma existsb_eqb_elem_of (x : string) (l : list string) :
  existsb (String.eqb x) l = true ↔ x ∈ l.
Proof.
  rewrite existsb_exists, list_elem_of_In. split.
  - intros (y & Hin & Heq). apply String.eqb_eq in Heq. by subst.
  - intros Hin. exists x. split; [done | apply String.eqb_refl].
Qed.

Lemma addRecruiterObserver_present (sessions : Sessions) sessionId session socketId :
  sessions !! sessionId = Some session →
  socketId ∈ InterviewSession.recruiterSocketIds session →
  addRecruiterObserver sessionId socketId sessions = (sessions, inr tt).
Proof.
  intros Hsession Hin.
  unfold addRecruiterObserver, mbind, Async_bind, andThen, getSession.
  rewrite Hsession. apply existsb_eqb_elem_of in Hin. by rewrite Hin.
Qed.

Lemma addRecruiterObserver_absent (sessions : Sessions) interviewId session socketId :
  registered sessions interviewId session →
  socketId ∉ InterviewSession.recruiterSocketIds session →
  ∃ sessions',
    addRecruiterObserver (InterviewSession.id session) socketId sessions
    = (sessions', inr tt)
    ∧ registered sessions' interviewId
        (assign session
           (recruiterSocketIds
              (InterviewSession.recruiterSocketIds session ++ [socketId]))).
Proof.
  intros (Hkey & Hid & <-) Hnotin.
  unfold addRecruiterObserver, mbind, Async_bind, andThen, getSession.
  rewrite Hid. rewrite <- existsb_eqb_elem_of in Hnotin.
  apply not_true_is_false in Hnotin. rewrite Hnotin. simpl.
  set (session1 := assign session _).
  destruct (updateSession_entries
              (<[InterviewSession.id session := session1]> sessions) session1
              (if decide (InterviewSession.id session
                          = interviewKey (InterviewSession.interviewId session))
               then session1 else session)
              [recruiterSocketIds (InterviewSession.recruiterSocketIds session1)])
    as (sessions' & Hupdate & Hregistered).
  - subst session1. rewrite assign_id. apply lookup_insert_eq.
  - subst session1. rewrite assign_interviewId, lookup_insert.
    by case_decide.
  - case_decide; [done | subst session1; by rewrite assign_id].
  - exists sessions'. subst session1. rewrite assign_id in Hupdate.
    split; [exact Hupdate|]. rewrite assign_interviewId in Hregistered.
    by destruct session.
Qed.

(** C9.  In a registry where a session is registered for an interview:
    a candidate who joins replaces the candidate connection of that
    session, so that the session stored under both of its keys has the
    joining socket as its candidate connection and every other property
    as before, and no error is sent; adding an observer succeeds, adding
    one that is already in the observer list leaves the registry as it is,
    adding a new one appends it to the list of the session under both
    keys, and adding the same observer a second time changes nothing. *)
Theorem registry_join_and_observe
    (sessions : gmap string InterviewSession.t) (interviewId : string)
    (session : InterviewSession.t) (clientId socketId : string)
    (io : JoinInterviewIO.t) (interview : Interview.t) :
  registered sessions interviewId session →
  JoinInterviewIO.findInterview io = Some (Some interview) →
  Interview.status interview = "ONGOING"
  ∨ Interview.status interview = "SCHEDULED" →
  (∃ session',
     registered (handleJoinInterview clientId interviewId io sessions).1
       interviewId session'
     ∧ candidateReplaced session session' clientId
     ∧ noError (handleJoinInterview clientId interviewId io sessions).2
     ∧ Handled.sessionId (handleJoinInterview clientId interviewId io sessions).2
       = Some (InterviewSession.id session))
  ∧ (addRecruiterObserver (InterviewSession.id session) socketId sessions).2
    = inr tt
  ∧ (socketId ∈ InterviewSession.recruiterSocketIds session →
     (addRecruiterObserver (InterviewSession.id session) socketId sessions).1
     = sessions)
  ∧ (socketId ∉ InterviewSession.recruiterSocketIds session →
     ∃ session',
       registered
         (addRecruiterObserver (InterviewSession.id session) socketId sessions).1
         interviewId session'
       ∧ observerAdded session session' socketId)
  ∧ addRecruiterObserver (InterviewSession.id session) socketId
      (addRecruiterObserver (InterviewSession.id session) socketId sessions).1
    = ((addRecruiterObserver (InterviewSession.id session) socketId sessions).1,
       inr tt).
Proof.
  intros Hregistered Hfind Hstatus. split.
  - destruct (updateSession_registered sessions interviewId session
                [candidateSocketId clientId] Hregistered)
      as (sessions' & Hupdate & Hregistered').
    exists (spread session [candidateSocketId clientId]).
    unfold handleJoinInterview, tryCatch, mbind, Async_bind, andThen,
      getSessionByInterviewId.
    rewrite Hfind. simpl.
    replace (negb (String.eqb (Interview.status interview) "ONGOING")
             && negb (String.eqb (Interview.status interview) "SCHEDULED"))
      with false by (by destruct Hstatus as [-> | ->]).
    simpl. rewrite (proj1 Hregistered). unfold andThen. rewrite Hupdate. simpl.
    split; [exact Hregistered'|]. split; [by destruct session|]. split; [|done].
    intros message Hin. simpl in Hin.
    apply elem_of_cons in Hin as [[=]|Hin].
    apply elem_of_cons in Hin as [[=]|Hin].
    by apply elem_of_nil in Hin.
  - destruct (decide (socketId ∈ InterviewSession.recruiterSocketIds session))
      as [Hin|Hnotin].
    + rewrite (addRecruiterObserver_present sessions _ session socketId
                 (proj1 (proj2 Hregistered)) Hin).
      cbn [fst snd]. split; [done|]. split; [done|]. split; [done|].
      exact (addRecruiterObserver_present sessions _ session socketId
               (proj1 (proj2 Hregistered)) Hin).
    + destruct (addRecruiterObserver_absent sessions interviewId session socketId
                  Hregistered Hnotin) as (sessions' & -> & Hregistered').
      cbn [fst snd]. split; [done|]. split; [done|].
      split.
      { intros _. eexists. split; [exact Hregistered'|]. by destruct session. }
      pose proof (proj1 (proj2 Hregistered')) as Hid. rewrite assign_id in Hid.
      apply (addRecruiterObserver_present sessions' _ _ socketId Hid).
      destruct session. simpl. apply elem_of_app. right.
      by apply list_elem_of_singleton.
Qed.

Lemma registry_join_and_observe_witness :
  (∃ session',
     registered
       (handleJoinInterview "socket-2" "iv" SampleRegistry.joinIO
          SampleRegistry.observed).1 "iv" session'
     ∧ InterviewSession.candidateSocketId session' = "socket-2"
     ∧ InterviewSession.recruiterSocketIds session' = ["recruiter-1"])
  ∧ (addRecruiterObserver SampleRegistry.sessionId "recruiter-1"
       SampleRegistry.observed).1 = SampleRegistry.observed
  ∧ (∃ session',
       registered
         (addRecruiterObserver SampleRegistry.sessionId "recruiter-2"
            SampleRegistry.observed).1 "iv" session'
       ∧ InterviewSession.recruiterSocketIds session'
         = ["recruiter-1"; "recruiter-2"]
       ∧ InterviewSession.candidateSocketId session' = "socket-1").
Proof.
  assert (registered SampleRegistry.observed "iv"
            (InterviewSession.mk SampleRegistry.sessionId "iv" None "socket-1"
               ["recruiter-1"] false None None None None (Progress.mk 0 1 0 3) 100
               None None None None 1700000000012)) as Hregistered.
  { repeat split; vm_compute; reflexivity. }
  destruct (registry_join_and_observe SampleRegistry.observed "iv" _
              "socket-2" "recruiter-1" SampleRegistry.joinIO
              (Sample.interviewOn Sample.oneAssessment)
              Hregistered eq_refl (or_introl eq_refl))
    as ((joined & Hjoin & Hreplaced & _) & _ & Hsame & _).
  destruct (registry_join_and_observe SampleRegistry.observed "iv" _
              "socket-2" "recruiter-2" SampleRegistry.joinIO
              (Sample.interviewOn Sample.oneAssessment)
              Hregistered eq_refl (or_introl eq_refl))
    as (_ & _ & _ & Hadded & _).
  split; [|split].
  - exists joined. split; [exact Hjoin|].
    split; [exact (proj1 Hreplaced)|exact (proj1 (proj2 Hreplaced))].
  - apply Hsame. apply list_elem_of_here.
  - assert ("recruiter-2" ∉ ["recruiter-1"]) as Hnotin.
    { intros Hin. apply list_elem_of_singleton in Hin. discriminate Hin. }
    destruct (Hadded Hnotin) as (observing & Hobserving & Hlist & Hcandidate & _).
    exists observing. split; [exact Hobserving|].
    split; [exact Hlist|exact Hcandidate].
Defined.
End registry.

(** ** More on what a turn does *)

Section more_turn_facts.
Import ConversationManagerService InterviewOrchestratorService.

Lemma processResponse_recorded G sessionId responseText io s c :
  (∀ k c a q, G k c → G k (ConversationContext.setCursor c a q)) →
  (∀ k c h, G k c → G k (ConversationContext.setHistory c h)) →
  (∀ c, G sessionId c → G (ConversationContext.sessionId c) c) →
  (∀ c questionId r,
     G sessionId c →
     recordedBy (ConversationContext.responses c) questionId r →
     G sessionId
       (ConversationContext.setResponses c
          (<[questionId := r]> (ConversationContext.responses c)))) →
  Holds sessionId G c s →
  ∃ c',
    Holds sessionId G c' (processResponse sessionId responseText io s).1
    ∧ turnKeeps responseText c c'
    ∧ turnTouches c c'.
Proof.
  intros G1 G2 G3 G4 Hs.
  pose proof (triple_processResponse_recorded sessionId G G1 G2 G3 G4
                responseText io c s Hs) as Hwp.
  unfold wp in Hwp.
  destruct (processResponse sessionId responseText io s) as [s' [e|t]];
    destruct Hwp as (c' & ? & ? & ? & _); by exists c'.
Qed.

Lemma processResponse_touches sessionId responseText io (s : Store) c :
  s !! sessionId = Some c →
  ∃ c',
    (processResponse sessionId responseText io s).1 !! sessionId = Some c'
    ∧ turnKeeps responseText c c'
    ∧ turnTouches c c'.
Proof.
  intros Hc.
  destruct (processResponse_recorded (λ _ _, True) sessionId responseText io s c)
    as (c' & [Hc' _] & Hkeeps & Htouches); try done.
  by exists c'.
Qed.
End more_turn_facts.

(** ** Scores stay in range *)

Section score_range.
Import ConversationManagerService InterviewOrchestratorService.

(** X1.  For every whole-number score the language model answers, the
    score of the evaluation that [evaluateResponse] hands back is that
    score clamped to 0..100: a score out of range is replaced by the
    nearer bound, one in range is returned with the evaluation untouched;
    a failed call gives the fallback score 50.  No rounding takes place. *)
Theorem evaluateResponse_in_range (question : Question.t) (response : string)
    (generateWithJSON : option EvaluationResult.t) :
  0 ≤ EvaluationResult.score
        (ResponseEvaluatorService.evaluateResponse question response generateWithJSON)
    ≤ 100
  ∧ (∀ evaluation,
       generateWithJSON = Some evaluation →
       EvaluationResult.score
         (ResponseEvaluatorService.evaluateResponse question response generateWithJSON)
       = clamp 0 100 (EvaluationResult.score evaluation)
       ∧ (0 ≤ EvaluationResult.score evaluation ≤ 100 →
          ResponseEvaluatorService.evaluateResponse question response generateWithJSON
          = evaluation))
  ∧ (generateWithJSON = None →
     EvaluationResult.score
       (ResponseEvaluatorService.evaluateResponse question response generateWithJSON)
     = 50).
Proof.
  split; [apply evaluateResponse_score|]. split.
  - intros evaluation ->. unfold ResponseEvaluatorService.evaluateResponse, clamp.
    destruct (Z.ltb_spec (EvaluationResult.score evaluation) 0),
      (Z.gtb_spec (EvaluationResult.score evaluation) 100); simpl;
      (split; [lia | first [lia | done]]).
  - by intros ->.
Qed.

Lemma roundQuot_range (a n : Z) :
  0 < n → 0 ≤ a ≤ 100 * n → 0 ≤ Math.roundQuot a n ≤ 100.
Proof.
  intros Hn Ha. unfold Math.roundQuot. split.
  - apply Z.div_pos; lia.
  - apply Z.lt_succ_r. apply Z.div_lt_upper_bound; lia.
Qed.

Lemma sum_scores_range {A} (f : A → Z) (l : list A) (acc : Z) :
  Forall (λ x, 0 ≤ f x ≤ 100) l →
  acc ≤ fold_left (λ sum x, sum + f x) l acc ≤ acc + 100 * Z.of_nat (length l).
Proof.
  intros Hl. revert acc. induction Hl as [|x l Hx Hl IH]; intros acc; simpl; [lia|].
  specialize (IH (acc + f x)). lia.
Qed.

Lemma entries_range c :
  scoresInRange c →
  Forall (λ entry : string * StoredResponse.t, 0 ≤ StoredResponse.score entry.2 ≤ 100)
         (entries (ConversationContext.responses c)).
Proof.
  intros Hc. apply Forall_forall. intros [questionId r] Hin.
  apply elem_of_map_to_list in Hin. by eapply Hc.
Qed.

Lemma overallScoreOf_range c : scoresInRange c → 0 ≤ overallScoreOf c ≤ 100.
Proof.
  intros Hc. unfold overallScoreOf.
  set (scores := map _ _).
  destruct (Z.ltb_spec 0 (Z.of_nat (length scores))); [|lia].
  apply roundQuot_range; [done|].
  pose proof (sum_scores_range (λ x : Z, x) scores 0) as Hsum.
  assert (Forall (λ x, 0 ≤ x ≤ 100) scores) as Hall.
  { subst scores. apply Forall_map. by apply entries_range. }
  specialize (Hsum Hall).
  change (0 ≤ fold_left Z.add scores 0
            ≤ 0 + 100 * Z.of_nat (length scores)) in Hsum.
  lia.
Qed.

Lemma scoreBreakdownOf_range c assessmentId v :
  scoresInRange c → scoreBreakdownOf c !! assessmentId = Some v → 0 ≤ v ≤ 100.
Proof.
  intros Hc. unfold scoreBreakdownOf.
  set (step := λ (scoreBreakdown : gmap string Z) (ta : TemplateAssessment.t), _).
  assert (∀ plan (acc : gmap string Z),
            (∀ k x, acc !! k = Some x → 0 ≤ x ≤ 100) →
            ∀ k x, fold_left step plan acc !! k = Some x → 0 ≤ x ≤ 100) as Hfold.
  { induction plan as [|ta plan IH]; intros acc Hacc; [done|].
    simpl. apply IH. subst step. simpl.
    set (found := List.filter _ _).
    destruct (Z.ltb_spec 0 (Z.of_nat (length found))); [|done].
    intros k x. rewrite lookup_insert. case_decide; [|apply Hacc].
    intros [= <-]. apply roundQuot_range; [done|].
    pose proof (sum_scores_range
                  (λ entry : string * StoredResponse.t, StoredResponse.score entry.2)
                  found 0) as Hsum.
    assert (Forall (λ entry : string * StoredResponse.t,
                      0 ≤ StoredResponse.score entry.2 ≤ 100) found) as Hall.
    { subst found. apply Forall_forall. intros entry Hin.
      apply list_elem_of_In, filter_In in Hin as [Hin _].
      apply list_elem_of_In in Hin.
      by apply (proj1 (Forall_forall _ _) (entries_range c Hc)). }
    specialize (Hsum Hall). lia. }
  apply Hfold. intros k x. by rewrite lookup_empty.
Qed.

Lemma scoresInRange_recorded c questionId r :
  scoresInRange c →
  recordedBy (ConversationContext.responses c) questionId r →
  scoresInRange
    (ConversationContext.setResponses c
       (<[questionId := r]> (ConversationContext.responses c))).
Proof.
  intros Hc (responseText & evaluation & Hscore & Hr) questionId' r'. simpl.
  rewrite lookup_insert. case_decide; [|apply Hc]. intros [= <-].
  assert (0 ≤ StoredResponse.score
                (default
                   (StoredResponse.mk responseText (EvaluationResult.score evaluation)
                      0 (Some (ResponseEvaluatorService.generateEvaluationText
                                 evaluation)))
                   (ConversationContext.responses c !! questionId)) ≤ 100) as Hex.
  { destruct (ConversationContext.responses c !! questionId) as [r0|] eqn:Hr0;
      [by eapply Hc | done]. }
  by destruct Hr as [-> | [_ ->]].
Qed.

Lemma processResponse_scoresInRange sessionId responseText io (s : Store) :
  everySession scoresInRange s →
  everySession scoresInRange (processResponse sessionId responseText io s).1.
Proof.
  intros Hs. destruct (s !! sessionId) as [c|] eqn:Hc.
  - destruct (processResponse_recorded (λ _, scoresInRange) sessionId
                responseText io s c)
      as (c' & [_ Hall] & _); [done | done | done | | done | done].
    apply scoresInRange_recorded.
  - by rewrite processResponse_missing.
Qed.

Lemma completeInterview_everySession P sessionId io (s : Store) :
  everySession P s → everySession P (completeInterview sessionId io s).1.
Proof.
  intros Hs. unfold completeInterview, mbind, Async_bind, andThen, getContext.
  destruct (s !! sessionId) as [c|]; [|done].
  destruct (CompleteInterviewIO.chat io), (CompleteInterviewIO.interviewUpdate io);
    simpl; try done.
  all: intros k c'; rewrite lookup_delete_Some; intros [_ Hk]; by eapply Hs.
Qed.

Lemma startInterview_everySession (P : ConversationContext.t → Prop)
    interviewId io (s : Store) :
  (∀ sessionId interviewId template candidateInfo,
     P (ConversationContext.mk sessionId interviewId template 0 0 [] candidateInfo ∅)) →
  (∀ c h, P c → P (ConversationContext.setHistory c h)) →
  everySession P s → everySession P (startInterview interviewId io s).1.
Proof.
  intros Pfresh Phistory Hs.
  enough (wp (startInterview interviewId io) (λ _, everySession P) (everySession P) s)
    as Hwp.
  { unfold wp in Hwp. by destruct (startInterview interviewId io s) as [s' [e|a]]. }
  unfold startInterview. apply wp_bind, wp_await.
  destruct (StartInterviewIO.findInterview io) as [[interview|]|]; [|done..].
  destruct (negb _); [done|].
  unfold createSession. apply wp_bind_assoc, wp_bind, wp_await.
  destruct (StartInterviewIO.findTemplate io) as [[template|]|]; [|done..].
  apply wp_bind_assoc, wp_bind, wp_modifyStore, wp_bind, wp_resolve.
  set (sessionId := ("interview:" +:+ _)%string).
  set (c0 := ConversationContext.mk _ _ _ _ _ _ _ _).
  assert (Holds sessionId (λ _, P) c0 (<[sessionId := c0]> s)) as Hholds.
  { split; [apply lookup_insert_eq|]. intros k c'. rewrite lookup_insert.
    case_decide; [intros [= <-]; apply Pfresh | apply Hs]. }
  revert Hholds. generalize (<[sessionId := c0]> s).
  lazymatch goal with
  | |- ∀ s1, Holds ?sid ?G ?c s1 → wp ?m ?Q ?E s1 => change (triple sid G c m Q E)
  end.
  assert (∀ (k : string) c h, P c → P (ConversationContext.setHistory c h))
    as G2 by (intros _; apply Phistory).
  assert (∀ c, P c → P c) as G3 by done.
  tsteps. unfold QuestionGeneratorService.generateOpeningMessage.
  apply triple_await; [intros openingMessage _ | by intros _ s' [_ Hall]].
  tsteps.
  destruct (getCurrentQuestion _) as [firstQuestion|].
  - tsteps. apply triple_resolve. by intros s' [_ Hall].
  - apply triple_throw. by intros s' [_ Hall].
Qed.

Lemma reachable_scoresInRange (s : Store) :
  reachable s → everySession scoresInRange s.
Proof.
  intros [calls ->]. induction calls as [|call calls IH] using rev_ind.
  - intros k c. simpl. by rewrite lookup_empty.
  - rewrite fold_left_app. simpl. destruct call; simpl.
    + apply startInterview_everySession; [|done..].
      intros ???? questionId r. simpl. by rewrite lookup_empty.
    + by apply processResponse_scoresInRange.
    + by apply completeInterview_everySession.
Qed.

(** X2.  In every store the orchestrator can reach, for a session whose
    plan names no question by a member of [Object.prototype], a
    [completeInterview] that returns a summary returns an overall score in
    0..100 and a score breakdown whose every entry is in 0..100. *)
Theorem summary_scores_in_range
    (s s' : gmap string ConversationContext.t) (sessionId : string)
    (c : ConversationContext.t)
    (io : CompleteInterviewIO.t) (summary : InterviewSummary.t) :
  reachable s →
  s !! sessionId = Some c →
  ordinaryPlan c = true →
  completeInterview sessionId io s = (s', inr summary) →
  0 ≤ InterviewSummary.overallScore summary ≤ 100
  ∧ ∀ assessmentId v,
      InterviewSummary.scoreBreakdown summary !! assessmentId = Some v →
      0 ≤ v ≤ 100.
Proof.
  intros Hs Hc _ Hsummary.
  destruct (completeInterview_returns _ _ _ _ _ Hsummary)
    as (c0 & Hc0 & _ & -> & ->).
  rewrite Hc in Hc0. injection Hc0 as <-.
  pose proof (reachable_scoresInRange s Hs sessionId c Hc) as Hrange.
  split; [by apply overallScoreOf_range|].
  intros assessmentId v. by apply scoreBreakdownOf_range.
Qed.

Lemma summary_scores_in_range_witness :
  ∃ s' summary,
    completeInterview Sample.sessionId Sample.narrative Sample.unevenAssessments
    = (s', inr summary)
    ∧ 0 ≤ InterviewSummary.overallScore summary ≤ 100.
Proof.
  assert (reachable Sample.unevenAssessments) as Hreachable.
  { exists [callStartInterview "iv"
              (StartInterviewIO.mk
                 (Some (Some (Sample.interviewOn Sample.twoAssessments)))
                 1700000000000 (Some (Some Sample.twoAssessments)) None None);
            callProcessResponse Sample.sessionId Sample.longAnswer (Sample.answers 100);
            callProcessResponse Sample.sessionId Sample.longAnswer (Sample.answers 60);
            callProcessResponse Sample.sessionId Sample.longAnswer (Sample.answers 60);
            callProcessResponse Sample.sessionId Sample.longAnswer (Sample.answers 60)].
    vm_compute. reflexivity. }
  assert (∃ c, Sample.unevenAssessments !! Sample.sessionId = Some c
               ∧ ordinaryPlan c = true) as (c & Hc & Hordinary)
    by (eexists; split; vm_compute; reflexivity).
  assert (completeInterview Sample.sessionId Sample.narrative Sample.unevenAssessments
          = (_, inr _)) as Hsummary by (vm_compute; reflexivity).
  eexists _, _. split; [exact Hsummary|].
  exact (proj1 (summary_scores_in_range _ _ _ c _ _ Hreachable Hc Hordinary
                  Hsummary)).
Defined.
End score_range.

(** ** What a turn leaves alone, and the transcript *)

Section transcript.
Import ConversationManagerService InterviewOrchestratorService.

(** X3.  A [processResponse], whether it returns or throws, keeps the
    plan, the ids and the candidate of its session, and changes no
    recorded response but that of the question the cursor is on; with the
    cursor past the plan it changes no response at all. *)
Theorem turn_touches_current_question_only
    (sessionId responseText : string) (io : ProcessResponseIO.t)
    (s : gmap string ConversationContext.t) (c : ConversationContext.t) :
  s !! sessionId = Some c →
  ∃ c',
    (processResponse sessionId responseText io s).1 !! sessionId = Some c'
    ∧ ConversationContext.template c' = ConversationContext.template c
    ∧ ConversationContext.sessionId c' = ConversationContext.sessionId c
    ∧ ConversationContext.interviewId c' = ConversationContext.interviewId c
    ∧ ConversationContext.candidateInfo c' = ConversationContext.candidateInfo c
    ∧ (∀ questionId,
         Question.id <$> getCurrentQuestion c ≠ Some questionId →
         ConversationContext.responses c' !! questionId
         = ConversationContext.responses c !! questionId)
    ∧ (getCurrentQuestion c = None →
       ConversationContext.responses c' = ConversationContext.responses c).
Proof.
  intros Hc.
  destruct (processResponse_touches sessionId responseText io s c Hc)
    as (c' & Hc' & (Htemplate & Hsid & _) & Hiid & Hcandidate & _ & Hresponses).
  exists c'. do 5 (split; [done|]). split.
  - intros questionId Hother.
    destruct Hresponses as [-> | (q & r & Hq & _ & ->)]; [done|].
    rewrite Hq in Hother. simpl in Hother.
    apply lookup_insert_ne. congruence.
  - intros Hnone. destruct Hresponses as [-> | (q & r & Hq & _)]; [done|].
    congruence.
Qed.

Lemma turn_touches_current_question_only_witness :
  ∃ c',
    Sample.afterSecondAnswer !! Sample.sessionId = Some c'
    ∧ ConversationContext.responses c' !! "q2" = None.
Proof.
  assert (Sample.afterFirstAnswer !! Sample.sessionId = Some _) as Hc
    by (vm_compute; reflexivity).
  destruct (turn_touches_current_question_only Sample.sessionId Sample.longAnswer
              (Sample.answers 90) Sample.afterFirstAnswer _ Hc)
    as (c' & Hc' & _ & _ & _ & _ & Hother & _).
  exists c'. split; [exact Hc'|].
  rewrite (Hother "q2"); [vm_compute; reflexivity | vm_compute; discriminate].
Defined.

Lemma saidByCandidate_app h1 h2 :
  saidByCandidate (h1 ++ h2) = saidByCandidate h1 ++ saidByCandidate h2.
Proof. apply omap_app. Qed.

Lemma saidByCandidate_assistant said :
  saidByCandidate (map (ChatMessage.mk assistant) said) = [].
Proof. by induction said. Qed.

(** X4.  The conversation history only grows: after any sequence of
    [processResponse] calls on a session it is the history before followed
    by new messages, the candidate's messages among the new ones are the
    answers of the calls, one per call and in the order of the calls, and
    each call added at most one message of the interviewer. *)
Theorem transcript_records_answers
    (sessionId : string) (calls : list (string * ProcessResponseIO.t))
    (s : gmap string ConversationContext.t) (c : ConversationContext.t) :
  s !! sessionId = Some c →
  ∃ c' added,
    turns sessionId calls s !! sessionId = Some c'
    ∧ ConversationContext.conversationHistory c'
      = ConversationContext.conversationHistory c ++ added
    ∧ saidByCandidate added = calls.*1
    ∧ (length calls ≤ length added ≤ 2 * length calls)%nat.
Proof.
  intros Hc. induction calls as [|call calls IH] using rev_ind.
  - exists c, []. split; [done|]. split; [by rewrite app_nil_r|]. by split.
  - destruct IH as (c1 & added & Hc1 & Hhistory & Hsaid & Hlen).
    destruct (processResponse_touches sessionId call.1 call.2 _ _ Hc1)
      as (c2 & Hc2 & _ & _ & _ & (responseText & said & Hadd & Hone) & _).
    destruct (processResponse_session sessionId call.1 call.2 _ _ Hc1)
      as (c2' & Hc2' & (_ & _ & _ & rest & Hrest) & _).
    rewrite Hc2 in Hc2'. injection Hc2' as <-.
    rewrite Hadd in Hrest. apply app_inv_head in Hrest.
    injection Hrest as Htext _. subst responseText.
    exists c2, (added ++ ChatMessage.mk user call.1 :: map (ChatMessage.mk assistant) said).
    rewrite turns_snoc. split; [done|]. split; [by rewrite Hadd, Hhistory, app_assoc|].
    split.
    + rewrite saidByCandidate_app, Hsaid, fmap_app. simpl.
      by rewrite saidByCandidate_assistant.
    + rewrite !length_app. simpl. rewrite length_map. lia.
Qed.

Lemma transcript_records_answers_witness :
  ∃ c' added,
    turns Sample.sessionId
      [(Sample.shortAnswer, Sample.answers 40); (Sample.longAnswer, Sample.answers 90)]
      (Sample.created Sample.oneQuestion) !! Sample.sessionId = Some c'
    ∧ ConversationContext.conversationHistory c'
      = ConversationContext.conversationHistory (Sample.fresh Sample.oneQuestion)
          ++ added
    ∧ saidByCandidate added = [Sample.shortAnswer; Sample.longAnswer].
Proof.
  assert (Sample.created Sample.oneQuestion !! Sample.sessionId
          = Some (Sample.fresh Sample.oneQuestion)) as Hfresh
    by (vm_compute; reflexivity).
  destruct (transcript_records_answers Sample.sessionId
              [(Sample.shortAnswer, Sample.answers 40);
               (Sample.longAnswer, Sample.answers 90)]
              (Sample.created Sample.oneQuestion) _ Hfresh)
    as (c' & added & Hc' & Hhistory & Hsaid & _).
  exists c', added. split; [exact Hc'|]. split; [exact Hhistory | exact Hsaid].
Defined.
End transcript.

(** ** Running a call on a store *)

Section running.
Import ConversationManagerService.

Lemma written_lookup key c (s : Store) : written key c s !! key = Some c.
Proof.
  unfold written. rewrite lookup_insert. case_decide; [done|].
  apply lookup_insert_eq.
Qed.

Lemma written_written key c c' (s : Store) :
  ConversationContext.sessionId c' = ConversationContext.sessionId c →
  written key c' (written key c s) = written key c' s.
Proof.
  intros Hsid. unfold written. rewrite Hsid.
  destruct (decide (key = ConversationContext.sessionId c)) as [->|Hne].
  - by rewrite !insert_insert_eq.
  - rewrite (insert_insert_ne _ key (ConversationContext.sessionId c)) by done.
    by rewrite !insert_insert_eq.
Qed.

Lemma run_resolve {A B} (a : A) (k : A → Async Store B) s :
  (resolve a ≫= k) s = k a s.
Proof. done. Qed.

Lemma run_assoc {A B C} (m : Async Store A) (f : A → Async Store B)
    (g : B → Async Store C) s :
  ((m ≫= f) ≫= g) s = (m ≫= (λ a, f a ≫= g)) s.
Proof.
  unfold mbind, Async_bind, andThen. by destruct (m s) as [s' [e|a]].
Qed.

Lemma run_await_Some {A B} (a : A) (k : A → Async Store B) s :
  (await (Some a) ≫= k) s = k a s.
Proof. done. Qed.

Lemma run_await_None {A B} (k : A → Async Store B) s :
  (await None ≫= k) s = (s, inl CollaboratorRejected).
Proof. done. Qed.

Lemma run_throw {A B} e (k : A → Async Store B) s :
  (throw e ≫= k) s = (s, inl e).
Proof. done. Qed.

Lemma run_getContext {B} sessionId c (k : ConversationContext.t → Async Store B) s :
  s !! sessionId = Some c → (getContext sessionId ≫= k) s = k c s.
Proof.
  intros Hc. unfold mbind, Async_bind, andThen, getContext. by rewrite Hc.
Qed.

Lemma run_mutate_update {B} sessionId c (k : unit → Async Store B) s :
  (mutate sessionId c ≫= λ _, updateContext c ≫= k) s = k tt (written sessionId c s).
Proof. done. Qed.

Lemma run_addMessage {B} sessionId role content c (k : unit → Async Store B) s :
  s !! sessionId = Some c →
  (addMessage sessionId role content ≫= k) s
  = k tt (written sessionId (pushMessage c role content) s).
Proof.
  intros Hc. unfold addMessage. rewrite run_assoc, (run_getContext _ c) by done.
  by rewrite run_assoc, run_mutate_update.
Qed.

(** [moveToNextQuestion] from a question of the plan. *)
Lemma run_moveToNextQuestion {B} sessionId c ta (k : bool → Async Store B) s :
  s !! sessionId = Some c →
  planOf c !! ConversationContext.currentAssessmentIndex c = Some ta →
  (moveToNextQuestion sessionId ≫= k) s
  = if (length (Assessment.questionsOrEmpty (TemplateAssessment.assessment ta))
          <=? ConversationContext.currentQuestionIndex c + 1)%nat
    then
      k (length (planOf c) <=? ConversationContext.currentAssessmentIndex c + 1)%nat
        (written sessionId
           (ConversationContext.setCursor c
              (ConversationContext.currentAssessmentIndex c + 1) 0) s)
    else
      k false
        (written sessionId
           (ConversationContext.setCursor c
              (ConversationContext.currentAssessmentIndex c)
              (ConversationContext.currentQuestionIndex c + 1)) s).
Proof.
  intros Hc Hta. unfold moveToNextQuestion.
  rewrite run_assoc, (run_getContext _ c) by done.
  unfold planOf in Hta. rewrite Hta. simpl.
  destruct (_ <=? _)%nat.
  - unfold mbind, Async_bind, andThen, mutate, modifyStore, updateContext, resolve.
    simpl. fold (planOf c).
    destruct (_ <=? _)%nat; simpl; unfold written; simpl;
      by rewrite insert_insert_eq.
  - done.
Qed.
End running.

(** ** The branches of a turn *)

Section turn_branches.
Import ConversationManagerService InterviewOrchestratorService.

Lemma run_mutate {B} key c (k : unit → Async Store B) (s : Store) :
  (mutate key c ≫= k) s = k tt (<[key := c]> s).
Proof. done. Qed.

Lemma run_updateContext {B} c (k : unit → Async Store B) (s : Store) :
  (updateContext c ≫= k) s = k tt (<[ConversationContext.sessionId c := c]> s).
Proof. done. Qed.

(** The first three statements of [processResponse] on a stored session. *)
Ltac enter Hc Hq :=
  unfold processResponse;
  rewrite (run_getContext _ _ _ _ Hc);
  rewrite (run_addMessage _ _ _ _ _ _ Hc);
  rewrite (run_getContext _ _ _ _ (written_lookup _ _ _));
  lazymatch goal with
  | |- context [getCurrentQuestion (pushMessage ?c ?r ?t)] =>
      change (getCurrentQuestion (pushMessage c r t)) with (getCurrentQuestion c)
  end;
  rewrite Hq; cbv zeta.

(** The statements after [moveToNextQuestion] answered [false]. *)
Ltac next_question :=
  rewrite run_assoc, (run_getContext _ _ _ _ (written_lookup _ _ _));
  lazymatch goal with
  | |- _ = match getCurrentQuestion ?x with _ => _ end =>
      destruct (getCurrentQuestion x) as [nextQuestionData|]
  end;
    [|rewrite run_resolve;
      by rewrite (run_getContext _ _ _ _ (written_lookup _ _ _))];
  rewrite run_assoc, (run_getContext _ _ _ _ (written_lookup _ _ _));
  rewrite Nat.ltb_irrefl; cbv iota; rewrite run_assoc, run_resolve, run_assoc;
  destruct (ProcessResponseIO.findInterview _) as [interview|];
    [rewrite run_await_Some|by rewrite run_await_None];
  rewrite run_assoc, (run_addMessage _ _ _ _ _ _ (written_lookup _ _ _));
  rewrite written_written by done;
  rewrite run_resolve;
  by rewrite (run_getContext _ _ _ _ (written_lookup _ _ _)).

(** The statements that store the response. *)
Ltac store_response sessionId c q responseText r s :=
  rewrite run_assoc, run_mutate, run_assoc, run_updateContext;
  lazymatch goal with
  | |- ?m _ = ?rhs =>
      change (m (written sessionId (record (pushMessage c user responseText) q r)
                   (written sessionId (pushMessage c user responseText) s)) = rhs)
  end;
  rewrite written_written by done.

Lemma processResponse_asks sessionId responseText io (s : Store) c q :
  s !! sessionId = Some c →
  getCurrentQuestion c = Some q →
  asksFollowUp c q responseText io = true →
  processResponse sessionId responseText io s
  = match ProcessResponseIO.followUpChat io with
    | None =>
        (written sessionId (pushMessage c user responseText) s,
         inl CollaboratorRejected)
    | Some followUp =>
        (written sessionId
           (pushMessage
              (record (pushMessage c user responseText) q
                 (StoredResponse.incrFollowUps
                    (existingResponse c q responseText io)))
              assistant followUp) s,
         inr (InterviewTurn.mk (turnResponseOf q responseText io)
                (Some (Question.withText q followUp)) false (getProgress c)))
    end.
Proof.
  intros Hc Hq Hasks. enter Hc Hq.
  lazymatch goal with
  | |- context [if ?b then _ else _] =>
      change b with (asksFollowUp c q responseText io)
  end.
  rewrite Hasks, run_assoc.
  unfold QuestionGeneratorService.generateFollowUp.
  destruct (ProcessResponseIO.followUpChat io) as [followUp|].
  - rewrite run_await_Some.
    store_response sessionId c q responseText
      (StoredResponse.incrFollowUps (existingResponse c q responseText io)) s.
    rewrite run_assoc, (run_addMessage _ _ _ _ _ _ (written_lookup _ _ _)).
    rewrite written_written by done.
    rewrite run_resolve.
    by rewrite (run_getContext _ _ _ _ (written_lookup _ _ _)).
  - by rewrite run_await_None.
Qed.

(** The cursor after [moveToNextQuestion]. *)
Lemma processResponse_advances sessionId responseText io (s : Store) c q ta :
  s !! sessionId = Some c →
  getCurrentQuestion c = Some q →
  asksFollowUp c q responseText io = false →
  planOf c !! ConversationContext.currentAssessmentIndex c = Some ta →
  let recorded :=
    record (pushMessage c user responseText) q
      (existingResponse c q responseText io) in
  let over :=
    (length (Assessment.questionsOrEmpty (TemplateAssessment.assessment ta))
       <=? ConversationContext.currentQuestionIndex c + 1)%nat in
  let moved :=
    if over
    then ConversationContext.setCursor recorded
           (ConversationContext.currentAssessmentIndex c + 1) 0
    else ConversationContext.setCursor recorded
           (ConversationContext.currentAssessmentIndex c)
           (ConversationContext.currentQuestionIndex c + 1) in
  let turn nextQuestion isComplete :=
    InterviewTurn.mk (turnResponseOf q responseText io) nextQuestion isComplete
      (getProgress moved) in
  processResponse sessionId responseText io s
  = match ProcessResponseIO.saveResponseToDatabase io with
    | None => (written sessionId recorded s, inl CollaboratorRejected)
    | Some _ =>
        if over
           && (length (planOf c)
                 <=? ConversationContext.currentAssessmentIndex c + 1)%nat
        then (written sessionId moved s, inr (turn None true))
        else
          match getCurrentQuestion moved with
          | None => (written sessionId moved s, inr (turn None false))
          | Some nextQuestionData =>
              match ProcessResponseIO.findInterview io with
              | None => (written sessionId moved s, inl CollaboratorRejected)
              | Some interview =>
                  let adapted :=
                    QuestionGeneratorService.adaptQuestionToContext
                      nextQuestionData (ConversationContext.candidateInfo c)
                      (interview ← interview;
                       Template.jobDescription (Interview.template interview))
                      (ProcessResponseIO.adaptChat io) in
                  (written sessionId (pushMessage moved assistant adapted) s,
                   inr (turn (Some (Question.withText nextQuestionData adapted))
                          false))
              end
          end
    end.
Proof.
  intros Hc Hq Hasks Hta recorded. cbv zeta. enter Hc Hq.
  lazymatch goal with
  | |- context [if ?b then _ else _] =>
      change b with (asksFollowUp c q responseText io)
  end.
  rewrite Hasks.
  store_response sessionId c q responseText (existingResponse c q responseText io) s.
  fold recorded. rewrite run_assoc.
  destruct (ProcessResponseIO.saveResponseToDatabase io) as [[]|];
    [rewrite run_await_Some|by rewrite run_await_None].
  rewrite run_assoc.
  rewrite (run_moveToNextQuestion _ recorded ta) by (done || apply written_lookup).
  change (ConversationContext.currentQuestionIndex recorded)
    with (ConversationContext.currentQuestionIndex c).
  change (ConversationContext.currentAssessmentIndex recorded)
    with (ConversationContext.currentAssessmentIndex c).
  change (planOf recorded) with (planOf c).
  destruct (_ <=? ConversationContext.currentQuestionIndex c + 1)%nat;
    [destruct (_ <=? ConversationContext.currentAssessmentIndex c + 1)%nat|];
    cbn [andb]; cbv iota; rewrite written_written by done.
  - rewrite run_resolve.
    by rewrite (run_getContext _ _ _ _ (written_lookup _ _ _)).
  - next_question.
  - next_question.
Qed.

Lemma processResponse_past sessionId responseText io (s : Store) c :
  s !! sessionId = Some c →
  getCurrentQuestion c = None →
  processResponse sessionId responseText io s
  = (written sessionId (pushMessage c user responseText) s,
     inr (handleInterviewComplete sessionId)).
Proof. intros Hc Hq. by enter Hc Hq. Qed.

(** X5.  [processResponse] and [completeInterview] on a session id that is
    not in the store throw [NotFoundException("Session not found or
    expired")] and leave the store as it was. *)
Theorem unknown_session_rejected sessionId responseText io io' (s : Store) :
  s !! sessionId = None →
  processResponse sessionId responseText io s
  = (s, inl (NotFoundException "Session not found or expired"))
  ∧ completeInterview sessionId io' s
    = (s, inl (NotFoundException "Session not found or expired")).
Proof.
  intros Hnone. split.
  - by apply processResponse_missing.
  - by apply completeInterview_missing.
Qed.

Lemma unknown_session_rejected_witness :
  processResponse "interview:iv:1" Sample.longAnswer (Sample.answers 80)
    (Sample.created Sample.oneQuestion)
  = (Sample.created Sample.oneQuestion,
     inl (NotFoundException "Session not found or expired"))
  ∧ completeInterview "interview:iv:1" Sample.narrative
      (Sample.created Sample.oneQuestion)
    = (Sample.created Sample.oneQuestion,
       inl (NotFoundException "Session not found or expired")).
Proof.
  apply (unknown_session_rejected "interview:iv:1" Sample.longAnswer
           (Sample.answers 80) Sample.narrative
           (Sample.created Sample.oneQuestion)).
  vm_compute. reflexivity.
Defined.

(** X6.  A turn that asks a follow-up, on a question whose id names no
    member of [Object.prototype]: the cursor stays; the entry stored for
    the question has one follow-up more than the one that was there, which
    otherwise is kept, or is a new entry for this answer with one
    follow-up; no other entry changes; the answer and the follow-up are
    appended to the history; and the turn returns the current question
    with the follow-up as its text, not complete, with the progress of
    before the turn. *)
Theorem followUp_turn sessionId responseText io (s : Store) c q followUp :
  s !! sessionId = Some c →
  getCurrentQuestion c = Some q →
  JsObject.inherited (Question.id q) = false →
  asksFollowUp c q responseText io = true →
  ProcessResponseIO.followUpChat io = Some followUp →
  ∃ s' c' r,
    processResponse sessionId responseText io s
    = (s', inr (InterviewTurn.mk (turnResponseOf q responseText io)
                  (Some (Question.withText q followUp)) false (getProgress c)))
    ∧ s' !! sessionId = Some c'
    ∧ cursor c' = cursor c
    ∧ ConversationContext.conversationHistory c'
      = ConversationContext.conversationHistory c
        ++ [ChatMessage.mk user responseText; ChatMessage.mk assistant followUp]
    ∧ ConversationContext.responses c' !! Question.id q = Some r
    ∧ followUpRecorded (ConversationContext.responses c !! Question.id q)
        responseText (evaluationOf q responseText io) r
    ∧ ∀ questionId,
        questionId ≠ Question.id q →
        ConversationContext.responses c' !! questionId
        = ConversationContext.responses c !! questionId.
Proof.
  intros Hc Hq _ Hasks Hchat.
  rewrite (processResponse_asks _ _ _ _ c q), Hchat by done.
  eexists _, _, _. split; [done|]. split; [apply written_lookup|].
  split; [done|]. split; [simpl; by rewrite <-app_assoc|].
  split; [simpl; apply lookup_insert_eq|]. split.
  - unfold existingResponse.
    by destruct (ConversationContext.responses c !! Question.id q).
  - intros questionId Hne. simpl. by rewrite lookup_insert_ne.
Qed.

Lemma followUp_turn_witness :
  JsString.length Scenario.accentedAnswer = 49
  ∧ ∃ s' c' turn,
      processResponse Sample.sessionId Scenario.accentedAnswer (Sample.answers 80)
        (Sample.created Sample.oneQuestion) = (s', inr turn)
      ∧ InterviewTurn.isComplete turn = false
      ∧ s' !! Sample.sessionId = Some c'
      ∧ ConversationContext.responses c' !! "q1"
        = Some (StoredResponse.mk Scenario.accentedAnswer 80 1
                  (Some (ResponseEvaluatorService.generateEvaluationText
                           (Sample.evaluation 80)))).
Proof.
  split; [reflexivity|].
  destruct (followUp_turn Sample.sessionId Scenario.accentedAnswer
              (Sample.answers 80) (Sample.created Sample.oneQuestion)
              (Sample.fresh Sample.oneQuestion) (Sample.question "q1")
              "Could you give an example?")
    as (s' & c' & r & Hrun & Hc' & _ & _ & Hr & Hrecorded & _);
    [vm_compute; reflexivity ..|].
  exists s', c'. eexists. split; [exact Hrun|]. split; [reflexivity|].
  split; [exact Hc'|].
  change (Question.id (Sample.question "q1")) with "q1" in Hr.
  rewrite Hr. f_equal.
  assert (ConversationContext.responses (Sample.fresh Sample.oneQuestion) !! "q1"
          = None) as Hnone by reflexivity.
  change (Question.id (Sample.question "q1")) with "q1" in Hrecorded.
  rewrite Hnone in Hrecorded.
  destruct Hrecorded as (Hasked & Htext & Hscore & Hevaluation).
  destruct r as [text score asked evaluation]. simpl in *.
  by rewrite Hasked, Htext, Hscore, Hevaluation.
Defined.



(** X8.  The turn that answers the last question of the last assessment
    without a follow-up, the id of the question naming no member of
    [Object.prototype]: it returns [isComplete = true] without a next
    question, leaves the cursor at assessment [length plan], question 0,
    appends nothing but the answer, and reports the progress "assessment
    [length plan + 1] of [length plan], question 1 of 0". *)
Theorem last_question_turn sessionId responseText io (s : Store) c q ta :
  s !! sessionId = Some c →
  getCurrentQuestion c = Some q →
  JsObject.inherited (Question.id q) = false →
  asksFollowUp c q responseText io = false →
  ProcessResponseIO.saveResponseToDatabase io = Some tt →
  planOf c !! ConversationContext.currentAssessmentIndex c = Some ta →
  (length (Assessment.questionsOrEmpty (TemplateAssessment.assessment ta))
   ≤ ConversationContext.currentQuestionIndex c + 1)%nat →
  (length (planOf c) ≤ ConversationContext.currentAssessmentIndex c + 1)%nat →
  processResponse sessionId responseText io s
  = (written sessionId
       (ConversationContext.setCursor
          (record (pushMessage c user responseText) q
             (existingResponse c q responseText io))
          (length (planOf c)) 0) s,
     inr (InterviewTurn.mk (turnResponseOf q responseText io) None true
            (Progress.mk (Z.of_nat (length (planOf c)) + 1)
               (Z.of_nat (length (planOf c))) 1 0))).
Proof.
  intros Hc Hq _ Hasks Hsave Hta Hover Hlast.
  rewrite (processResponse_advances _ _ _ _ c q ta), Hsave by done.
  apply Nat.leb_le in Hover as ->. apply Nat.leb_le in Hlast as Hlast'.
  rewrite Hlast'. cbn [andb].
  apply lookup_lt_Some in Hta as Hlt.
  replace (ConversationContext.currentAssessmentIndex c + 1)%nat
    with (length (planOf c)) by lia.
  do 3 f_equal. unfold getProgress. simpl. fold (planOf c).
  rewrite (lookup_ge_None_2 (planOf c) (length (planOf c))) by done.
  simpl. f_equal.
Qed.

Lemma last_question_turn_witness :
  ∃ s' turn,
    processResponse Sample.sessionId Sample.longAnswer (Sample.answers 80)
      (Sample.created Sample.oneQuestion) = (s', inr turn)
    ∧ InterviewTurn.isComplete turn = true
    ∧ InterviewTurn.progress turn = Progress.mk 2 1 1 0.
Proof.
  eexists _, _. split.
  - apply (last_question_turn Sample.sessionId Sample.longAnswer
             (Sample.answers 80) (Sample.created Sample.oneQuestion)
             (Sample.fresh Sample.oneQuestion) (Sample.question "q1")
             (TemplateAssessment.mk "A" 100
                (Assessment.mk "Technical" (Some [Sample.question "q1"]))));
      vm_compute; first [reflexivity | lia].
  - split; reflexivity.
Defined.

Lemma getCurrentQuestion_at c a i ta q :
  planOf c !! a = Some ta →
  Assessment.questionsOrEmpty (TemplateAssessment.assessment ta) !! i = Some q →
  getCurrentQuestion (ConversationContext.setCursor c a i) = Some q.
Proof.
  intros Hta Hq. unfold getCurrentQuestion. simpl. fold (planOf c).
  apply lookup_lt_Some in Hta as Ha. apply lookup_lt_Some in Hq as Hi.
  rewrite Hta.
  destruct (Nat.leb_spec (length (planOf c)) a); [lia|].
  by destruct (Nat.leb_spec
                 (length (Assessment.questionsOrEmpty
                            (TemplateAssessment.assessment ta))) i); [lia|].
Qed.

Lemma getCurrentQuestion_empty c a i ta :
  planOf c !! a = Some ta →
  Assessment.questionsOrEmpty (TemplateAssessment.assessment ta) = [] →
  getCurrentQuestion (ConversationContext.setCursor c a i) = None.
Proof.
  intros Hta Hq. unfold getCurrentQuestion. simpl. fold (planOf c).
  rewrite Hta, Hq. by destruct (_ <=? _)%nat.
Qed.

Lemma getProgress_at c a i ta :
  planOf c !! a = Some ta →
  getProgress (ConversationContext.setCursor c a i)
  = Progress.mk (Z.of_nat a + 1) (Z.of_nat (length (planOf c))) (Z.of_nat i + 1)
      (Z.of_nat (length (Assessment.questionsOrEmpty
                           (TemplateAssessment.assessment ta)))).
Proof.
  intros Hta. unfold getProgress. simpl. fold (planOf c). by rewrite Hta.
Qed.

(** X9.  The turn that answers, without a follow-up, the last question of
    an assessment that is not the last one moves the cursor to the first question of the next
    assessment and appends to the history the answer and the wording of
    that question, and nothing else: no transition message is generated,
    whatever the transition call would have answered. *)
Theorem next_assessment_without_transition sessionId responseText io (s : Store)
    c q ta ta' q' interview :
  s !! sessionId = Some c →
  getCurrentQuestion c = Some q →
  asksFollowUp c q responseText io = false →
  ProcessResponseIO.saveResponseToDatabase io = Some tt →
  planOf c !! ConversationContext.currentAssessmentIndex c = Some ta →
  (length (Assessment.questionsOrEmpty (TemplateAssessment.assessment ta))
   ≤ ConversationContext.currentQuestionIndex c + 1)%nat →
  planOf c !! (ConversationContext.currentAssessmentIndex c + 1)%nat = Some ta' →
  Assessment.questionsOrEmpty (TemplateAssessment.assessment ta') !! 0%nat
  = Some q' →
  ProcessResponseIO.findInterview io = Some interview →
  ∃ s' c' adapted,
    processResponse sessionId responseText io s
    = (s', inr (InterviewTurn.mk (turnResponseOf q responseText io)
                  (Some (Question.withText q' adapted)) false
                  (Progress.mk
                     (Z.of_nat (ConversationContext.currentAssessmentIndex c) + 2)
                     (Z.of_nat (length (planOf c))) 1
                     (Z.of_nat (length (Assessment.questionsOrEmpty
                                          (TemplateAssessment.assessment ta')))))))
    ∧ adapted
      = QuestionGeneratorService.adaptQuestionToContext q'
          (ConversationContext.candidateInfo c)
          (interview ← interview;
           Template.jobDescription (Interview.template interview))
          (ProcessResponseIO.adaptChat io)
    ∧ s' !! sessionId = Some c'
    ∧ cursor c' = ((ConversationContext.currentAssessmentIndex c + 1)%nat, 0%nat)
    ∧ ConversationContext.conversationHistory c'
      = ConversationContext.conversationHistory c
        ++ [ChatMessage.mk user responseText; ChatMessage.mk assistant adapted].
Proof.
  intros Hc Hq Hasks Hsave Hta Hover Hta' Hq' Hfind.
  rewrite (processResponse_advances _ _ _ _ c q ta), Hsave by done.
  apply Nat.leb_le in Hover as ->. apply lookup_lt_Some in Hta' as Hlt.
  destruct (Nat.leb_spec (length (planOf c))
              (ConversationContext.currentAssessmentIndex c + 1)); [lia|].
  cbn [andb]. cbv zeta.
  rewrite (getCurrentQuestion_at _ _ _ ta' q'), Hfind by done.
  rewrite (getProgress_at _ _ _ ta') by done.
  eexists _, _, _. split; [|split; [reflexivity|]].
  - do 4 f_equal. lia.
  - split; [apply written_lookup|]. split; [done|].
    simpl. by rewrite <-app_assoc.
Qed.

Lemma next_assessment_without_transition_witness :
  ∃ s' c',
    (processResponse Sample.sessionId Sample.longAnswer (Sample.answers 80)
       (Sample.created Sample.twoAssessments)).1 = s'
    ∧ s' !! Sample.sessionId = Some c'
    ∧ ConversationContext.conversationHistory c'
      = [ChatMessage.mk user Sample.longAnswer;
         ChatMessage.mk assistant "Tell me about q2"].
Proof.
  destruct (next_assessment_without_transition Sample.sessionId Sample.longAnswer
              (Sample.answers 80) (Sample.created Sample.twoAssessments)
              (Sample.fresh Sample.twoAssessments) (Sample.question "q1")
              (TemplateAssessment.mk "A" 50
                 (Assessment.mk "Technical" (Some [Sample.question "q1"])))
              (TemplateAssessment.mk "B" 50
                 (Assessment.mk "Behavioural"
                    (Some [Sample.question "q2"; Sample.question "q3";
                           Sample.question "q4"])))
              (Sample.question "q2") None)
    as (s' & c' & adapted & Hrun & Hadapted & Hc' & _ & Hhistory);
    [vm_compute; first [reflexivity | lia] ..|].
  exists s', c'. split; [by rewrite Hrun|]. split; [exact Hc'|].
  rewrite Hhistory, Hadapted. reflexivity.
Defined.

(** X10.  When no follow-up is asked on a question whose id names no
    member of [Object.prototype] and the database rejects the response,
    [processResponse] throws with the response already stored in the
    session and the cursor still on the question that was answered. *)
Theorem save_failure_keeps_cursor sessionId responseText io (s : Store) c q :
  s !! sessionId = Some c →
  getCurrentQuestion c = Some q →
  JsObject.inherited (Question.id q) = false →
  asksFollowUp c q responseText io = false →
  ProcessResponseIO.saveResponseToDatabase io = None →
  ∃ s' c',
    processResponse sessionId responseText io s = (s', inl CollaboratorRejected)
    ∧ s' !! sessionId = Some c'
    ∧ cursor c' = cursor c
    ∧ getCurrentQuestion c' = Some q
    ∧ ConversationContext.responses c'
      = <[Question.id q := existingResponse c q responseText io]>
          (ConversationContext.responses c).
Proof.
  intros Hc Hq _ Hasks Hsave.
  destruct (getCurrentQuestion_Some _ _ Hq) as (ta & Hta & _).
  rewrite (processResponse_advances _ _ _ _ c q ta), Hsave by done.
  eexists _, _. split; [done|]. split; [apply written_lookup|done].
Qed.

Lemma save_failure_keeps_cursor_witness :
  ∃ s' c',
    processResponse Sample.sessionId Sample.longAnswer (Scenario.databaseDown 80)
      (Sample.created Sample.oneQuestion) = (s', inl CollaboratorRejected)
    ∧ s' !! Sample.sessionId = Some c'
    ∧ cursor c' = (0%nat, 0%nat)
    ∧ ConversationContext.responses c' !! "q1"
      = Some (StoredResponse.mk Sample.longAnswer 80 0
                (Some (ResponseEvaluatorService.generateEvaluationText
                         (Sample.evaluation 80)))).
Proof.
  destruct (save_failure_keeps_cursor Sample.sessionId Sample.longAnswer
              (Scenario.databaseDown 80) (Sample.created Sample.oneQuestion)
              (Sample.fresh Sample.oneQuestion) (Sample.question "q1"))
    as (s' & c' & Hrun & Hc' & Hcursor & _ & Hresponses);
    [vm_compute; reflexivity ..|].
  exists s', c'. split; [exact Hrun|]. split; [exact Hc'|].
  split; [exact Hcursor|]. rewrite Hresponses. vm_compute. reflexivity.
Defined.

(** X11.  An answer given when the cursor is past the plan is appended to
    the history and nothing else changes; the turn returned is the fixed
    completion turn: empty response with score 0, no next question,
    complete, progress all zero.  The answer is not evaluated. *)
Theorem answer_past_plan sessionId responseText io (s : Store) c :
  s !! sessionId = Some c →
  getCurrentQuestion c = None →
  ∃ s' c',
    processResponse sessionId responseText io s
    = (s', inr (InterviewTurn.mk (TurnResponse.mk "" 0 "") None true
                  (Progress.mk 0 0 0 0)))
    ∧ s' !! sessionId = Some c'
    ∧ c' = ConversationContext.setHistory c
             (ConversationContext.conversationHistory c
                ++ [ChatMessage.mk user responseText]).
Proof.
  intros Hc Hq. rewrite (processResponse_past _ _ _ _ c) by done.
  eexists _, _. split; [done|]. split; [apply written_lookup|done].
Qed.

Lemma answer_past_plan_witness :
  ∃ s',
    processResponse Sample.sessionId Sample.longAnswer Sample.evaluatorDown
      Sample.allEighty
    = (s', inr (InterviewTurn.mk (TurnResponse.mk "" 0 "") None true
                  (Progress.mk 0 0 0 0))).
Proof.
  assert (∃ c, Sample.allEighty !! Sample.sessionId = Some c
               ∧ ConversationManagerService.getCurrentQuestion c = None)
    as (c & Hc & Hq) by (eexists; split; vm_compute; reflexivity).
  destruct (answer_past_plan Sample.sessionId Sample.longAnswer
              Sample.evaluatorDown Sample.allEighty c Hc Hq)
    as (s' & c' & Hrun & _).
  exists s'. exact Hrun.
Defined.

(** X12.  An assessment without questions ends the interview silently.
    The turn that reaches it, without a follow-up, returns neither a next question nor
    [isComplete]; the answer after that gets the fixed completion turn
    without being evaluated, and the assessments behind the empty one are
    never asked. *)
Theorem empty_assessment_stalls sessionId responseText io (s : Store) c q ta ta'
    responseText' io' :
  s !! sessionId = Some c →
  getCurrentQuestion c = Some q →
  asksFollowUp c q responseText io = false →
  ProcessResponseIO.saveResponseToDatabase io = Some tt →
  planOf c !! ConversationContext.currentAssessmentIndex c = Some ta →
  (length (Assessment.questionsOrEmpty (TemplateAssessment.assessment ta))
   ≤ ConversationContext.currentQuestionIndex c + 1)%nat →
  planOf c !! (ConversationContext.currentAssessmentIndex c + 1)%nat = Some ta' →
  Assessment.questionsOrEmpty (TemplateAssessment.assessment ta') = [] →
  ∃ s' s'' c'',
    processResponse sessionId responseText io s
    = (s', inr (InterviewTurn.mk (turnResponseOf q responseText io) None false
                  (Progress.mk
                     (Z.of_nat (ConversationContext.currentAssessmentIndex c) + 2)
                     (Z.of_nat (length (planOf c))) 1 0)))
    ∧ processResponse sessionId responseText' io' s'
      = (s'', inr (handleInterviewComplete sessionId))
    ∧ s'' !! sessionId = Some c''
    ∧ cursor c'' = ((ConversationContext.currentAssessmentIndex c + 1)%nat, 0%nat).
Proof.
  intros Hc Hq Hasks Hsave Hta Hover Hta' Hempty.
  rewrite (processResponse_advances _ _ _ _ c q ta), Hsave by done.
  apply Nat.leb_le in Hover as ->. apply lookup_lt_Some in Hta' as Hlt.
  destruct (Nat.leb_spec (length (planOf c))
              (ConversationContext.currentAssessmentIndex c + 1)); [lia|].
  cbn [andb]. cbv zeta.
  rewrite (getCurrentQuestion_empty _ _ _ ta') by done.
  rewrite (getProgress_at _ _ _ ta'), Hempty by done.
  eexists _, _, _. split; [|split].
  - do 4 f_equal. lia.
  - apply processResponse_past; [apply written_lookup|].
    by apply (getCurrentQuestion_empty _ _ _ ta').
  - split; [apply written_lookup|done].
Qed.

Lemma empty_assessment_stalls_witness :
  ∃ s' s'' turn,
    processResponse Sample.sessionId Sample.longAnswer (Sample.answers 80)
      (Sample.created Scenario.emptySecond) = (s', inr turn)
    ∧ InterviewTurn.nextQuestion turn = None
    ∧ InterviewTurn.isComplete turn = false
    ∧ processResponse Sample.sessionId Sample.longAnswer (Sample.answers 80) s'
      = (s'', inr (handleInterviewComplete Sample.sessionId)).
Proof.
  destruct (empty_assessment_stalls Sample.sessionId Sample.longAnswer
              (Sample.answers 80) (Sample.created Scenario.emptySecond)
              (Sample.fresh Scenario.emptySecond) (Sample.question "q1")
              (TemplateAssessment.mk "A" 40
                 (Assessment.mk "Technical" (Some [Sample.question "q1"])))
              (TemplateAssessment.mk "B" 30 (Assessment.mk "Behavioural" None))
              Sample.longAnswer (Sample.answers 80))
    as (s' & s'' & c'' & Hrun & Hnext & _);
    [vm_compute; first [reflexivity | lia] ..|].
  exists s', s''. eexists. split; [exact Hrun|]. split; [reflexivity|].
  split; [reflexivity|exact Hnext].
Defined.

(** X13.  [processResponse] never consults the call that words a transition
    between assessments: with any other answer of that call, the store and
    the result are the same, on every store. *)
Theorem transition_never_generated sessionId responseText io transitionChat
    (s : Store) :
  processResponse sessionId responseText (withTransition io transitionChat) s
  = processResponse sessionId responseText io s.
Proof.
  destruct (s !! sessionId) as [c|] eqn:Hc;
    [|by rewrite !processResponse_missing].
  destruct (getCurrentQuestion c) as [q|] eqn:Hq;
    [|by rewrite !(processResponse_past _ _ _ _ c)].
  destruct (asksFollowUp c q responseText io) eqn:Hasks.
  - by rewrite !(processResponse_asks _ _ _ _ c q).
  - destruct (getCurrentQuestion_Some _ _ Hq) as (ta & Hta & _).
    by rewrite !(processResponse_advances _ _ _ _ c q ta).
Qed.

(** X28.  The turn that answers, without a follow-up, a question that is
    not the last of its assessment moves the cursor to the next question of the assessment,
    appends the answer and the wording of that question to the history and
    returns the question under that wording, with the progress "question
    [i + 2]" of the same assessment.  When the interview cannot be read,
    the question is worded as the plan has it. *)
Theorem next_question_turn sessionId responseText io (s : Store) c q ta q'
    interview :
  s !! sessionId = Some c →
  getCurrentQuestion c = Some q →
  asksFollowUp c q responseText io = false →
  ProcessResponseIO.saveResponseToDatabase io = Some tt →
  planOf c !! ConversationContext.currentAssessmentIndex c = Some ta →
  Assessment.questionsOrEmpty (TemplateAssessment.assessment ta)
    !! (ConversationContext.currentQuestionIndex c + 1)%nat = Some q' →
  ProcessResponseIO.findInterview io = Some interview →
  ∃ s' c' adapted,
    processResponse sessionId responseText io s
    = (s', inr (InterviewTurn.mk (turnResponseOf q responseText io)
                  (Some (Question.withText q' adapted)) false
                  (Progress.mk
                     (Z.of_nat (ConversationContext.currentAssessmentIndex c) + 1)
                     (Z.of_nat (length (planOf c)))
                     (Z.of_nat (ConversationContext.currentQuestionIndex c) + 2)
                     (Z.of_nat (length (Assessment.questionsOrEmpty
                                          (TemplateAssessment.assessment ta)))))))
    ∧ adapted
      = QuestionGeneratorService.adaptQuestionToContext q'
          (ConversationContext.candidateInfo c)
          (interview ← interview;
           Template.jobDescription (Interview.template interview))
          (ProcessResponseIO.adaptChat io)
    ∧ (interview = None → adapted = Question.text q')
    ∧ s' !! sessionId = Some c'
    ∧ cursor c'
      = (ConversationContext.currentAssessmentIndex c,
         (ConversationContext.currentQuestionIndex c + 1)%nat)
    ∧ ConversationContext.conversationHistory c'
      = ConversationContext.conversationHistory c
        ++ [ChatMessage.mk user responseText; ChatMessage.mk assistant adapted].
Proof.
  intros Hc Hq Hasks Hsave Hta Hq' Hfind.
  rewrite (processResponse_advances _ _ _ _ c q ta), Hsave by done.
  apply lookup_lt_Some in Hq' as Hlt.
  destruct (Nat.leb_spec
              (length (Assessment.questionsOrEmpty
                         (TemplateAssessment.assessment ta)))
              (ConversationContext.currentQuestionIndex c + 1)); [lia|].
  cbn [andb]. cbv zeta.
  rewrite (getCurrentQuestion_at _ _ _ ta q'), Hfind by done.
  rewrite (getProgress_at _ _ _ ta) by done.
  eexists _, _, _. split; [|split; [reflexivity|]].
  - do 4 f_equal. lia.
  - split; [by intros ->|]. split; [apply written_lookup|]. split; [done|].
    simpl. by rewrite <-app_assoc.
Qed.

Lemma next_question_turn_witness :
  ∃ s' c',
    (processResponse Sample.sessionId Sample.longAnswer (Sample.answers 80)
       (Sample.created Sample.oneAssessment)).1 = s'
    ∧ s' !! Sample.sessionId = Some c'
    ∧ cursor c' = (0%nat, 1%nat).
Proof.
  destruct (next_question_turn Sample.sessionId Sample.longAnswer
              (Sample.answers 80) (Sample.created Sample.oneAssessment)
              (Sample.fresh Sample.oneAssessment) (Sample.question "q1")
              (TemplateAssessment.mk "A" 100
                 (Assessment.mk "Technical"
                    (Some [Sample.question "q1"; Sample.question "q2";
                           Sample.question "q3"])))
              (Sample.question "q2") None)
    as (s' & c' & adapted & Hrun & _ & _ & Hc' & Hcursor & _);
    [vm_compute; first [reflexivity | lia] ..|].
  exists s', c'. split; [by rewrite Hrun|]. split; [exact Hc'|exact Hcursor].
Defined.

(** X29.  While a question is current the progress is within its bounds:
    the assessment number is between 1 and the number of assessments and
    the question number between 1 and the number of questions of the
    assessment. *)
Theorem progress_within_bounds c q :
  getCurrentQuestion c = Some q →
  1 ≤ Progress.currentAssessment (getProgress c)
    ≤ Progress.totalAssessments (getProgress c)
  ∧ 1 ≤ Progress.currentQuestion (getProgress c)
      ≤ Progress.totalQuestions (getProgress c).
Proof.
  intros Hq. destruct (getCurrentQuestion_Some _ _ Hq) as (ta & Hta & Hlt).
  apply lookup_lt_Some in Hta as Ha.
  unfold getProgress. fold (planOf c). rewrite Hta. simpl. lia.
Qed.

Lemma progress_within_bounds_witness :
  1 ≤ Progress.currentQuestion (getProgress (Sample.fresh Sample.oneAssessment))
    ≤ Progress.totalQuestions (getProgress (Sample.fresh Sample.oneAssessment)).
Proof.
  apply (progress_within_bounds (Sample.fresh Sample.oneAssessment)
           (Sample.question "q1")).
  reflexivity.
Defined.
End turn_branches.

(** ** Starting an interview *)

Section starting.
Import ConversationManagerService InterviewOrchestratorService.

Lemma written_created key c c' (s : Store) :
  ConversationContext.sessionId c' = key →
  written key c' (<[key := c]> s) = <[key := c']> s.
Proof.
  intros Hsid. unfold written. rewrite Hsid. by rewrite !insert_insert_eq.
Qed.

Lemma run_createSession {B} interview now template
    (k : string → Async Store B) (s : Store) :
  (createSession interview now (Some (Some template)) ≫= k) s
  = k (sessionIdAt interview now)
      (<[sessionIdAt interview now := contextAt interview now template]> s).
Proof. done. Qed.

(** [startInterview] once the interview is found in status ONGOING and its
    template is found. *)
Lemma startInterview_created interviewId io (s : Store) interview template :
  StartInterviewIO.findInterview io = Some (Some interview) →
  Interview.status interview = "ONGOING" →
  StartInterviewIO.findTemplate io = Some (Some template) →
  let sessionId := sessionIdAt interview (StartInterviewIO.now io) in
  let created := contextAt interview (StartInterviewIO.now io) template in
  startInterview interviewId io s
  = match StartInterviewIO.openingChat io with
    | None => (<[sessionId := created]> s, inl CollaboratorRejected)
    | Some openingMessage =>
        match getCurrentQuestion created with
        | None =>
            (<[sessionId := pushMessage created assistant openingMessage]> s,
             inl (BadRequestException "No questions found in template"))
        | Some firstQuestion =>
            let adaptedQuestion :=
              QuestionGeneratorService.adaptQuestionToContext firstQuestion
                (ConversationContext.candidateInfo created)
                (Template.jobDescription (Interview.template interview))
                (StartInterviewIO.adaptChat io) in
            let updatedContext :=
              pushMessage (pushMessage created assistant openingMessage)
                assistant adaptedQuestion in
            (<[sessionId := updatedContext]> s,
             inr (InterviewSession.mk sessionId interviewId openingMessage
                    (Question.withText firstQuestion adaptedQuestion)
                    updatedContext))
        end
    end.
Proof.
  intros Hfind Hstatus Htemplate sessionId created. unfold startInterview.
  rewrite Hfind, run_await_Some, Hstatus.
  change (negb ("ONGOING" =? "ONGOING")%string) with false. cbv iota.
  rewrite Htemplate, run_createSession. fold sessionId created.
  assert (∀ c' (s0 : Store),
            ConversationContext.sessionId c' = sessionId →
            (<[sessionId := c']> s0) !! sessionId = Some c') as Hlookup
    by (intros; apply lookup_insert_eq).
  rewrite (run_getContext _ created) by by apply Hlookup.
  unfold QuestionGeneratorService.generateOpeningMessage.
  destruct (StartInterviewIO.openingChat io) as [openingMessage|];
    [rewrite run_await_Some|by rewrite run_await_None].
  rewrite (run_addMessage _ _ _ created) by by apply Hlookup.
  rewrite written_created by done.
  rewrite (run_getContext _ (pushMessage created assistant openingMessage))
    by by apply Hlookup.
  change (getCurrentQuestion (pushMessage created assistant openingMessage))
    with (getCurrentQuestion created).
  destruct (getCurrentQuestion created) as [firstQuestion|]; [|done].
  cbv zeta.
  rewrite (run_addMessage _ _ _ (pushMessage created assistant openingMessage))
    by by apply Hlookup.
  rewrite written_created by done.
  lazymatch goal with
  | |- _ (<[_ := ?c]> _) = _ => by rewrite (run_getContext _ c) by by apply Hlookup
  end.
Qed.

Lemma startInterview_rejected interviewId io (s s' : Store) e :
  startInterview interviewId io s = (s', inl e) →
  s' = s
  ∨ ∃ interview template,
      StartInterviewIO.findInterview io = Some (Some interview)
      ∧ Interview.status interview = "ONGOING"
      ∧ StartInterviewIO.findTemplate io = Some (Some template).
Proof.
  intros Hrun.
  destruct (StartInterviewIO.findInterview io) as [[interview|]|] eqn:Hfind.
  - destruct (String.eqb_spec (Interview.status interview) "ONGOING")
      as [Hstatus|Hstatus].
    + destruct (StartInterviewIO.findTemplate io) as [[template|]|] eqn:Htemplate.
      * right. by exists interview, template.
      * left. revert Hrun. unfold startInterview.
        rewrite Hfind, run_await_Some, Hstatus.
        change (negb ("ONGOING" =? "ONGOING")%string) with false. cbv iota.
        rewrite Htemplate. by intros [= <- _].
      * left. revert Hrun. unfold startInterview.
        rewrite Hfind, run_await_Some, Hstatus.
        change (negb ("ONGOING" =? "ONGOING")%string) with false. cbv iota.
        rewrite Htemplate. by intros [= <- _].
    + left. revert Hrun. unfold startInterview.
      rewrite Hfind, run_await_Some.
      apply String.eqb_neq in Hstatus as ->. by intros [= <- _].
  - left. revert Hrun. unfold startInterview.
    rewrite Hfind, run_await_Some. by intros [= <- _].
  - left. revert Hrun. unfold startInterview.
    rewrite Hfind, run_await_None. by intros [= <- _].
Qed.

(** X14.  A [startInterview] that returns has stored, under a session id
    made of the interview id and the time, a context at the first question
    with no responses, whose plan is the template found for the interview
    and whose history is the opening message followed by the wording of
    the first question; it returns that context and the first question
    under that wording. *)
Theorem startInterview_returns interviewId io (s s' : Store) session :
  startInterview interviewId io s = (s', inr session) →
  ∃ interview template firstQuestion,
    StartInterviewIO.findInterview io = Some (Some interview)
    ∧ StartInterviewIO.findTemplate io = Some (Some template)
    ∧ getCurrentQuestion (contextAt interview (StartInterviewIO.now io) template)
      = Some firstQuestion
    ∧ InterviewSession.sessionId session
      = sessionIdAt interview (StartInterviewIO.now io)
    ∧ s' = <[InterviewSession.sessionId session
               := InterviewSession.context session]> s
    ∧ InterviewSession.context session
      = ConversationContext.setHistory
          (contextAt interview (StartInterviewIO.now io) template)
          [ChatMessage.mk assistant (InterviewSession.openingMessage session);
           ChatMessage.mk assistant
             (Question.text (InterviewSession.firstQuestion session))]
    ∧ InterviewSession.firstQuestion session
      = Question.withText firstQuestion
          (QuestionGeneratorService.adaptQuestionToContext firstQuestion
             (CandidateInfo.mk (Interview.candidateName interview)
                (Interview.candidateEmail interview))
             (Template.jobDescription (Interview.template interview))
             (StartInterviewIO.adaptChat io)).
Proof.
  intros Hrun.
  destruct (StartInterviewIO.findInterview io) as [[interview|]|] eqn:Hfind;
    [|by revert Hrun; unfold startInterview; rewrite Hfind..].
  destruct (String.eqb_spec (Interview.status interview) "ONGOING")
    as [Hstatus|Hstatus];
    [|by revert Hrun; unfold startInterview;
         rewrite Hfind, run_await_Some;
         apply String.eqb_neq in Hstatus as ->].
  destruct (StartInterviewIO.findTemplate io) as [[template|]|] eqn:Htemplate;
    [|by revert Hrun; unfold startInterview;
         rewrite Hfind, run_await_Some, Hstatus;
         change (negb ("ONGOING" =? "ONGOING")%string) with false; cbv iota;
         rewrite Htemplate..].
  rewrite (startInterview_created _ _ _ interview template) in Hrun by done.
  destruct (StartInterviewIO.openingChat io) as [openingMessage|]; [|done].
  destruct (getCurrentQuestion _) as [firstQuestion|] eqn:Hq; [|done].
  injection Hrun as <- <-.
  by exists interview, template, firstQuestion.
Qed.

Lemma startInterview_returns_witness :
  ∃ session,
    (startInterview "iv" (Scenario.start Sample.oneQuestion) ∅).2 = inr session
    ∧ InterviewSession.sessionId session = Sample.sessionId.
Proof.
  assert (∃ s' session,
            startInterview "iv" (Scenario.start Sample.oneQuestion) ∅
            = (s', inr session)) as (s' & session & Hrun)
    by (eexists _, _; vm_compute; reflexivity).
  exists session. split; [by rewrite Hrun|].
  destruct (startInterview_returns _ _ _ _ _ Hrun)
    as (interview & template & q & Hfind & _ & _ & Hsid & _).
  injection Hfind as <-. rewrite Hsid. vm_compute. reflexivity.
Defined.

(** X15.  A [startInterview] that throws after the session was created
    leaves the session in the store.  That is so when the opening message
    cannot be generated, and when the plan has no question at the start:
    the latter throws "No questions found in template" with the session
    stored and the opening message on its history. *)
Theorem failed_start_leaves_session interviewId io (s s' : Store) e
    interview template :
  StartInterviewIO.findInterview io = Some (Some interview) →
  Interview.status interview = "ONGOING" →
  StartInterviewIO.findTemplate io = Some (Some template) →
  startInterview interviewId io s = (s', inl e) →
  ∃ history,
    s' = <[sessionIdAt interview (StartInterviewIO.now io)
             := ConversationContext.setHistory
                  (contextAt interview (StartInterviewIO.now io) template)
                  history]> s
    ∧ (e = CollaboratorRejected ∧ StartInterviewIO.openingChat io = None
       ∧ history = []
       ∨ e = BadRequestException "No questions found in template"
         ∧ getCurrentQuestion
             (contextAt interview (StartInterviewIO.now io) template) = None
         ∧ ∃ openingMessage,
             StartInterviewIO.openingChat io = Some openingMessage
             ∧ history = [ChatMessage.mk assistant openingMessage]).
Proof.
  intros Hfind Hstatus Htemplate.
  rewrite (startInterview_created _ _ _ interview template) by done.
  destruct (StartInterviewIO.openingChat io) as [openingMessage|].
  - destruct (getCurrentQuestion _) as [firstQuestion|] eqn:Hq; [done|].
    intros [= <- <-]. exists [ChatMessage.mk assistant openingMessage].
    split; [done|]. right. split; [done|]. split; [done|].
    by exists openingMessage.
  - intros [= <- <-]. exists []. split; [done|]. by left.
Qed.

Lemma failed_start_leaves_session_witness :
  ∃ s' c,
    startInterview "iv" (Scenario.start (Sample.templateOf [])) ∅
    = (s', inl (BadRequestException "No questions found in template"))
    ∧ s' !! Sample.sessionId = Some c.
Proof.
  assert (startInterview "iv" (Scenario.start (Sample.templateOf [])) ∅
          = ((startInterview "iv" (Scenario.start (Sample.templateOf [])) ∅).1,
             inl (BadRequestException "No questions found in template")))
    as Hrun by (vm_compute; reflexivity).
  destruct (failed_start_leaves_session "iv"
              (Scenario.start (Sample.templateOf [])) ∅ _ _
              (Sample.interviewOn (Sample.templateOf [])) (Sample.templateOf [])
              eq_refl eq_refl eq_refl Hrun) as (history & Hs' & _).
  eexists _, _. split; [exact Hrun|].
  rewrite Hs'. apply lookup_insert_eq.
Defined.

(** X16.  A [startInterview] rejected before the session is created leaves
    the store as it was: that is every [NotFoundException] and the
    [BadRequestException] for an interview that is not ONGOING. *)
Theorem rejected_start_keeps_store interviewId io (s s' : Store) e :
  startInterview interviewId io s = (s', inl e) →
  (∃ message, e = NotFoundException message)
  ∨ e = BadRequestException
          "Interview must be in ONGOING status to start AI session" →
  s' = s.
Proof.
  intros Hrun He.
  destruct (startInterview_rejected _ _ _ _ _ Hrun)
    as [?|(interview & template & Hfind & Hstatus & Htemplate)]; [done|].
  rewrite (startInterview_created _ _ _ interview template) in Hrun by done.
  destruct (StartInterviewIO.openingChat io) as [openingMessage|].
  - destruct (getCurrentQuestion _) as [firstQuestion|]; [done|].
    injection Hrun as _ <-. by destruct He as [[message [=]]|[=]].
  - injection Hrun as _ <-. by destruct He as [[message [=]]|[=]].
Qed.

Lemma rejected_start_keeps_store_witness :
  (startInterview "iv"
     (StartInterviewIO.mk (Some None) 1700000000000 None None None)
     (Sample.created Sample.oneQuestion)).1
  = Sample.created Sample.oneQuestion.
Proof.
  apply (rejected_start_keeps_store "iv"
           (StartInterviewIO.mk (Some None) 1700000000000 None None None)
           (Sample.created Sample.oneQuestion) _
           (NotFoundException "Interview not found")).
  - reflexivity.
  - left. exists "Interview not found". reflexivity.
Defined.
End starting.

(** ** Completing an interview *)

Section completing.
Import ConversationManagerService InterviewOrchestratorService.

Lemma orDefault_nonempty items fallback :
  fallback ≠ [] → orDefault items fallback ≠ [].
Proof.
  intros Hfallback. unfold orDefault. by destruct items.
Qed.

(** X17.  When the narrative cannot be generated, [completeInterview] still
    returns: the scores are those of the stored responses, the evaluation
    is "Summary generation failed", the recommendation is [maybe], the
    three lists are their defaults, and the session is deleted. *)
Theorem summary_survives_failed_narrative sessionId io (s : Store) c :
  s !! sessionId = Some c →
  CompleteInterviewIO.chat io = None →
  CompleteInterviewIO.interviewUpdate io = Some tt →
  completeInterview sessionId io s
  = (delete sessionId s,
     inr (InterviewSummary.mk (ConversationContext.interviewId c)
            (overallScoreOf c) (scoreBreakdownOf c) "Summary generation failed"
            ["No specific strengths identified"]
            ["No major weaknesses identified"] maybe
            ["Continue evaluation process"])).
Proof.
  intros Hc Hchat Hupdate. unfold completeInterview.
  rewrite (run_getContext _ c) by done. by rewrite Hchat, Hupdate.
Qed.

Lemma summary_survives_failed_narrative_witness :
  ∃ summary,
    (completeInterview Sample.sessionId (CompleteInterviewIO.mk None (Some tt))
       (Sample.created Sample.oneQuestion)).2 = inr summary
    ∧ InterviewSummary.evaluation summary = "Summary generation failed".
Proof.
  eexists. split.
  - rewrite (summary_survives_failed_narrative Sample.sessionId
               (CompleteInterviewIO.mk None (Some tt))
               (Sample.created Sample.oneQuestion)
               (Sample.fresh Sample.oneQuestion));
      [reflexivity|vm_compute; reflexivity..].
  - reflexivity.
Defined.

(** X18.  When the update of the interview row fails, [completeInterview]
    throws and leaves the store as it was: the session is not deleted and
    a later call can still complete it. *)
Theorem failed_update_keeps_session sessionId io (s : Store) c :
  s !! sessionId = Some c →
  CompleteInterviewIO.interviewUpdate io = None →
  completeInterview sessionId io s = (s, inl CollaboratorRejected).
Proof.
  intros Hc Hupdate. unfold completeInterview.
  rewrite (run_getContext _ c) by done.
  by destruct (CompleteInterviewIO.chat io); rewrite Hupdate.
Qed.

Lemma failed_update_keeps_session_witness :
  completeInterview Sample.sessionId
    (CompleteInterviewIO.mk (Some "Recommendation: hire") None)
    (Sample.created Sample.oneQuestion)
  = (Sample.created Sample.oneQuestion, inl CollaboratorRejected).
Proof.
  apply (failed_update_keeps_session Sample.sessionId
           (CompleteInterviewIO.mk (Some "Recommendation: hire") None)
           (Sample.created Sample.oneQuestion) (Sample.fresh Sample.oneQuestion));
    vm_compute; reflexivity.
Defined.

(** X19.  The strengths, weaknesses and insights of a summary are never
    empty lists. *)
Theorem summary_lists_never_empty sessionId io (s s' : Store) summary :
  completeInterview sessionId io s = (s', inr summary) →
  InterviewSummary.strengths summary ≠ []
  ∧ InterviewSummary.weaknesses summary ≠ []
  ∧ InterviewSummary.insights summary ≠ [].
Proof.
  unfold completeInterview, mbind, Async_bind, andThen, getContext.
  destruct (s !! sessionId) as [c|]; [|done].
  destruct (CompleteInterviewIO.chat io), (CompleteInterviewIO.interviewUpdate io);
    simpl; try done.
  all: intros [= _ <-]; simpl; by repeat split; try apply orDefault_nonempty.
Qed.

Lemma summary_lists_never_empty_witness :
  ∃ summary,
    (completeInterview Sample.sessionId Sample.narrative Sample.allEighty).2
    = inr summary
    ∧ InterviewSummary.strengths summary ≠ [].
Proof.
  destruct (completeInterview Sample.sessionId Sample.narrative Sample.allEighty)
    as [s' [e|summary]] eqn:Hrun; [by vm_compute in Hrun|].
  exists summary. split; [reflexivity|].
  exact (proj1 (summary_lists_never_empty _ _ _ _ _ Hrun)).
Defined.
End completing.

(** ** Reading the narrative *)

Section narrative.
Import InterviewOrchestratorService.

Lemma pushItem_recommendation n item :
  Narrative.recommendation (Narrative.pushItem n item) = Narrative.recommendation n.
Proof.
  unfold Narrative.pushItem. by destruct item, (Narrative.currentSection n).
Qed.

Lemma readLine_recommendation n line :
  Narrative.recommendation (readLine n line) = Narrative.recommendation n
  ∨ Narrative.recommendation (readLine n line) = hire ∧ recommendsHire line
  ∨ Narrative.recommendation (readLine n line) = no_hire ∧ recommendsNoHire line.
Proof.
  unfold readLine, recommendsHire, recommendsNoHire. cbv zeta.
  destruct (JsString.includes _ "strength") eqn:Hstrength; [by left|].
  destruct (JsString.includes _ "weakness") eqn:Hweakness; [by left|].
  destruct (JsString.includes _ "recommendation") eqn:Hrecommendation.
  - destruct (JsString.includes _ "hire") eqn:Hhire,
      (JsString.includes _ "no") eqn:Hno; simpl.
    + destruct (JsString.includes _ "no-hire") eqn:Hnohire; [|by left].
      right; right. by repeat split.
    + right; left. by repeat split.
    + destruct (JsString.includes _ "no-hire") eqn:Hnohire; [|by left].
      right; right. by repeat split.
    + destruct (JsString.includes _ "no-hire") eqn:Hnohire; [|by left].
      right; right. by repeat split.
  - destruct (JsString.includes _ "insight"); [by left|].
    destruct (_ || _); [|by left]. left. apply pushItem_recommendation.
Qed.

Lemma readLines_recommendation lines n :
  Narrative.recommendation (fold_left readLine lines n) = Narrative.recommendation n
  ∨ Narrative.recommendation (fold_left readLine lines n) = hire
    ∧ (∃ line, line ∈ lines ∧ recommendsHire line)
  ∨ Narrative.recommendation (fold_left readLine lines n) = no_hire
    ∧ (∃ line, line ∈ lines ∧ recommendsNoHire line).
Proof.
  revert n. induction lines as [|line lines IH]; intros n; [by left|].
  simpl.
  destruct (IH (readLine n line))
    as [Hsame|[[Hhire (l & Hl & Hline)]|[Hno (l & Hl & Hline)]]].
  - rewrite Hsame.
    destruct (readLine_recommendation n line) as [?|[[? ?]|[? ?]]].
    + by left.
    + right; left. split; [done|]. exists line. split; [left|done].
    + right; right. split; [done|]. exists line. split; [left|done].
  - right; left. split; [done|]. exists l. split; [by right|done].
  - right; right. split; [done|]. exists l. split; [by right|done].
Qed.

(** X20.  The recommendation read from a narrative is [hire] only if one of
    its lines mentions, in any case, "recommendation" and "hire" and none
    of "no", "strength" and "weakness"; it is [no_hire] only if one of its
    lines mentions "recommendation" and "no-hire" and neither "strength"
    nor "weakness"; otherwise it is [maybe]. *)
Theorem recommendation_needs_keyword_line summary :
  match Narrative.recommendation (readNarrative summary) with
  | hire =>
      ∃ line, line ∈ JsString.split "010" summary ∧ recommendsHire line
  | no_hire =>
      ∃ line, line ∈ JsString.split "010" summary ∧ recommendsNoHire line
  | maybe => True
  end.
Proof.
  unfold readNarrative.
  destruct (readLines_recommendation (JsString.split "010" summary)
              Narrative.initial) as [Hsame|[[-> ?]|[-> ?]]]; [|done..].
  by rewrite Hsame.
Qed.



End narrative.

(** ** The registry over time *)

Section registry_lifecycle.
Import Websockets Websockets.InterviewSessionManager InterviewGateway.

Lemma lookup_delete_all (keys : list string) (sessions : Sessions) key :
  fold_left (λ sessions key, delete key sessions) keys sessions !! key
  = if decide (key ∈ keys) then None else sessions !! key.
Proof.
  revert sessions. induction keys as [|k keys IH]; intros sessions; [done|].
  simpl. rewrite IH.
  destruct (decide (key ∈ keys)) as [Hin|Hnotin].
  - rewrite decide_True; [done|by right].
  - destruct (decide (key = k)) as [->|Hne].
    + rewrite decide_True by left. apply lookup_delete_eq.
    + rewrite decide_False by (by intros [?|?]%elem_of_cons).
      by apply lookup_delete_ne.
Qed.

(** X22.  [cleanupExpiredSessions] removes exactly the entries whose
    session was created more than 86400000 ms before [now]; an entry of
    that age or younger is kept as it is. *)
Theorem cleanup_by_age now (sessions : Sessions) key :
  cleanupExpiredSessions now sessions !! key
  = match sessions !! key with
    | Some session =>
        if 86400000 <? now - InterviewSession.createdAt session
        then None else Some session
    | None => None
    end.
Proof.
  unfold cleanupExpiredSessions. cbv zeta. rewrite lookup_delete_all.
  destruct (sessions !! key) as [session|] eqn:Hkey.
  - destruct (86400000 <? now - InterviewSession.createdAt session) eqn:Hage.
    + rewrite decide_True; [done|].
      apply list_elem_of_omap. exists (key, session).
      split; [by apply elem_of_map_to_list|]. simpl. by rewrite Hage.
    + rewrite decide_False; [done|].
      intros ([k session'] & Hin & Hexpired)%list_elem_of_omap.
      apply elem_of_map_to_list in Hin. simpl in Hexpired.
      destruct (86400000 <? now - InterviewSession.createdAt session') eqn:Hage';
        [|done].
      injection Hexpired as ->. rewrite Hkey in Hin. injection Hin as ->.
      by rewrite Hage in Hage'.
  - by destruct (decide _).
Qed.

Lemma removeParticipant_registered (sessions : Sessions) interviewId session
    socketId :
  registered sessions interviewId session →
  ∃ sessions',
    removeParticipant (InterviewSession.id session) socketId sessions
    = (sessions', inr tt)
    ∧ registered sessions' interviewId
        (spread session
           (if String.eqb (InterviewSession.candidateSocketId session) socketId
            then [isActive false; candidateSocketId "";
                  recruiterSocketIds
                    (List.filter (λ id, negb (String.eqb id socketId))
                       (InterviewSession.recruiterSocketIds session))]
            else [recruiterSocketIds
                    (List.filter (λ id, negb (String.eqb id socketId))
                       (InterviewSession.recruiterSocketIds session))])).
Proof.
  intros Hregistered.
  unfold removeParticipant, mbind at 1, Async_bind, andThen at 1, getSession at 1.
  rewrite (proj1 (proj2 Hregistered)).
  destruct (String.eqb _ socketId); by apply updateSession_registered.
Qed.

(** X23.  When a candidate's socket disconnects, the session it carries is
    marked inactive and interrupted with reason "disconnect", under both
    of its keys, and the room of the interview is told.  The candidate
    socket of the session is cleared only if it is the one that
    disconnected: the disconnect of any other candidate socket that
    carries the session id interrupts the session all the same. *)
Theorem disconnect_interrupts_session (sessions : Sessions) interviewId session
    clientId now :
  registered sessions interviewId session →
  ∃ sessions' session',
    handleDisconnect clientId (Some (InterviewSession.id session)) "candidate"
      now sessions
    = (sessions', [roomEmit (interviewKey interviewId) "interview-interrupted"])
    ∧ registered sessions' interviewId session'
    ∧ InterviewSession.isActive session' = false
    ∧ InterviewSession.interruptedAt session' = Some now
    ∧ InterviewSession.interruptionReason session' = Some "disconnect"
    ∧ InterviewSession.candidateSocketId session'
      = (if String.eqb (InterviewSession.candidateSocketId session) clientId
         then "" else InterviewSession.candidateSocketId session)
    ∧ InterviewSession.recruiterSocketIds session'
      = List.filter (λ id, negb (String.eqb id clientId))
          (InterviewSession.recruiterSocketIds session).
Proof.
  intros Hregistered.
  destruct (removeParticipant_registered sessions interviewId session clientId
              Hregistered) as (sessions1 & Hremove & Hregistered1).
  set (session1 := spread session _) in Hregistered1.
  destruct (updateSession_registered sessions1 interviewId session1
              [isActive false; interruptedAt now; interruptionReason "disconnect"]
              Hregistered1) as (sessions2 & Hupdate & Hregistered2).
  assert (InterviewSession.id session1 = InterviewSession.id session) as Hid
    by apply spread_id.
  exists sessions2, (spread session1 [isActive false; interruptedAt now;
                                      interruptionReason "disconnect"]).
  split.
  - unfold handleDisconnect. rewrite Hremove.
    change ("candidate" =? "candidate")%string with true. cbv iota.
    unfold handleInterviewInterruption, getSession.
    rewrite <-Hid, (proj1 (proj2 Hregistered1)), Hupdate.
    by rewrite (proj2 (proj2 Hregistered1)).
  - split; [done|]. subst session1.
    destruct session as [? ? ? candidate ? ? ? ? ? ? ? ? ? ? ? ? ?]. simpl.
    by destruct (String.eqb candidate clientId).
Qed.

Lemma disconnect_interrupts_session_witness :
  ∃ session',
    registered
      (handleDisconnect "socket-0" (Some SampleRegistry.sessionId) "candidate"
         1700000060000 SampleRegistry.observed).1 "iv" session'
    ∧ InterviewSession.isActive session' = false
    ∧ InterviewSession.candidateSocketId session' = "socket-1".
Proof.
  assert (registered SampleRegistry.observed "iv"
            (InterviewSession.mk SampleRegistry.sessionId "iv" None "socket-1"
               ["recruiter-1"] false None None None None (Progress.mk 0 1 0 3) 100
               None None None None 1700000000012)) as Hregistered.
  { repeat split; vm_compute; reflexivity. }
  destruct (disconnect_interrupts_session SampleRegistry.observed "iv" _
              "socket-0" 1700000060000 Hregistered)
    as (sessions' & session' & Hrun & Hregistered' & Hactive & _ & _
        & Hcandidate & _).
  cbn [InterviewSession.id] in Hrun.
  exists session'. rewrite Hrun. split; [exact Hregistered'|].
  split; [exact Hactive|exact Hcandidate].
Defined.

(** X24.  A [handleJoinInterview] that stores no session id on the socket
    has left the registry as it was and has sent one [error] event: the
    interview was not found, is not available, or a collaborator or the
    registry threw. *)
Theorem join_rejection_keeps_registry clientId interviewId io (sessions : Sessions) :
  Handled.sessionId (handleJoinInterview clientId interviewId io sessions).2 = None →
  (handleJoinInterview clientId interviewId io sessions).1 = sessions
  ∧ ∃ message,
      Handled.emitted (handleJoinInterview clientId interviewId io sessions).2
      = [clientEmit "error" message]
      ∧ (message = "Interview not found or invalid token"
         ∨ message = "Interview is not available"
         ∨ message = "Failed to join interview").
Proof.
  destruct (handleJoinInterview clientId interviewId io sessions)
    as [sessions' handled] eqn:Hrun.
  cbn [fst snd]. revert Hrun.
  unfold handleJoinInterview, tryCatch, mbind, Async_bind, andThen.
  assert (∀ message,
            message = "Interview not found or invalid token"
            ∨ message = "Interview is not available"
            ∨ message = "Failed to join interview" →
            (sessions, Handled.mk [clientEmit "error" message] None)
            = (sessions', handled) →
            Handled.sessionId handled = None →
            sessions' = sessions
            ∧ ∃ message,
                Handled.emitted handled = [clientEmit "error" message]
                ∧ (message = "Interview not found or invalid token"
                   ∨ message = "Interview is not available"
                   ∨ message = "Failed to join interview")) as Hrejected.
  { intros message Hmessage [= <- <-] _. split; [done|]. by exists message. }
  destruct (JoinInterviewIO.findInterview io) as [[interview|]|]; simpl;
    [|apply Hrejected; auto..].
  destruct (negb _ && negb _); simpl; [apply Hrejected; auto|].
  unfold getSessionByInterviewId.
  destruct (sessions !! interviewKey interviewId) as [session|].
  - unfold updateSession, mbind, Async_bind, andThen, getSession.
    destruct (sessions !! InterviewSession.id session) as [stored|]; simpl;
      [|apply Hrejected; auto].
    unfold getSessionByInterviewId.
    destruct (_ !! interviewKey _) as [found|]; simpl;
      [destruct (String.eqb _ _); simpl|]; by intros [= <- <-].
  - unfold createSession, mbind, Async_bind, andThen.
    destruct (JoinInterviewIO.findTemplate io) as [template|]; simpl;
      [by intros [= <- <-]|apply Hrejected; auto].
Qed.

Lemma join_rejection_keeps_registry_witness :
  (handleJoinInterview "socket-2" "iv"
     (JoinInterviewIO.mk (Some None) 1700000060000 None 1700000060007)
     SampleRegistry.joined).1 = SampleRegistry.joined.
Proof.
  apply (join_rejection_keeps_registry "socket-2" "iv"
           (JoinInterviewIO.mk (Some None) 1700000060000 None 1700000060007)
           SampleRegistry.joined).
  reflexivity.
Defined.

(** X25.  A recruiter who observes an interview is added to the observers
    of its session, and the disconnect of that socket does not remove it:
    [handleObserveInterview] stores no session id on the socket, and
    without one [handleDisconnect] does nothing. *)
Theorem observer_survives_disconnect (sessions : Sessions) interviewId session
    clientId interview userType now :
  registered sessions interviewId session →
  let observing :=
    handleObserveInterview clientId interviewId (Some interview) sessions in
  noError observing.2
  ∧ handleDisconnect clientId (Handled.sessionId observing.2) userType now
      observing.1
    = (observing.1, [])
  ∧ ∃ session',
      registered observing.1 interviewId session'
      ∧ clientId ∈ InterviewSession.recruiterSocketIds session'.
Proof.
  intros Hregistered observing.
  assert (∃ sessions' session',
            observing
            = (sessions',
               Handled.mk
                 [clientEmit "observation-started" (Interview.id interview)] None)
            ∧ registered sessions' interviewId session'
            ∧ clientId ∈ InterviewSession.recruiterSocketIds session')
    as (sessions' & session' & -> & Hregistered' & Hin).
  { subst observing.
    unfold handleObserveInterview, tryCatch, mbind at 1, Async_bind, andThen at 1.
    simpl.
    unfold mbind at 1, Async_bind, andThen at 1, getSessionByInterviewId.
    rewrite (proj1 Hregistered).
    destruct (decide (clientId ∈ InterviewSession.recruiterSocketIds session))
      as [Hin|Hnotin].
    - unfold mbind, Async_bind, andThen.
      rewrite (addRecruiterObserver_present sessions _ session clientId
                 (proj1 (proj2 Hregistered)) Hin).
      by exists sessions, session.
    - destruct (addRecruiterObserver_absent sessions interviewId session clientId
                  Hregistered Hnotin) as (sessions' & Hadd & Hregistered').
      unfold mbind, Async_bind, andThen. rewrite Hadd.
      eexists _, _. split; [done|]. split; [exact Hregistered'|].
      destruct session. simpl. apply elem_of_app. right.
      by apply list_elem_of_singleton. }
  cbn [fst snd Handled.sessionId]. split; [|split; [done|by exists session']].
  intros message Hmessage. simpl in Hmessage.
  apply elem_of_cons in Hmessage as [[=]|Hmessage].
  by apply elem_of_nil in Hmessage.
Qed.

Lemma observer_survives_disconnect_witness :
  ∃ session',
    registered
      (handleDisconnect "recruiter-1"
         (Handled.sessionId
            (handleObserveInterview "recruiter-1" "iv"
               (Some (Sample.interviewOn Sample.oneAssessment))
               SampleRegistry.joined).2)
         "recruiter" 1700000060000
         (handleObserveInterview "recruiter-1" "iv"
            (Some (Sample.interviewOn Sample.oneAssessment))
            SampleRegistry.joined).1).1
      "iv" session'
    ∧ "recruiter-1" ∈ InterviewSession.recruiterSocketIds session'.
Proof.
  assert (registered SampleRegistry.joined "iv"
            (InterviewSession.mk SampleRegistry.sessionId "iv" None "socket-1"
               [] false None None None None (Progress.mk 0 1 0 3) 100
               None None None None 1700000000012)) as Hregistered.
  { repeat split; vm_compute; reflexivity. }
  destruct (observer_survives_disconnect SampleRegistry.joined "iv" _
              "recruiter-1" (Sample.interviewOn Sample.oneAssessment)
              "recruiter" 1700000060000 Hregistered)
    as (_ & Hdisconnect & session' & Hregistered' & Hin).
  exists session'. rewrite Hdisconnect. split; [exact Hregistered'|exact Hin].
Defined.

(** X30.  The first join of an interview that is found, available and has
    no session yet creates one session and stores it under its own id and
    under the key of the interview: inactive, with the joining socket as
    the candidate, no observers and trust score 100; the socket gets the
    session id and no error is sent.  The id of the session carries the
    first reading of the clock and [createdAt] is the second one, taken
    after the template was read.  A template that is not found gives a
    session with no questions to go. *)
Theorem first_join_registers clientId interviewId io (sessions : Sessions)
    interview template :
  sessions !! interviewKey interviewId = None →
  JoinInterviewIO.findInterview io = Some (Some interview) →
  Interview.id interview = interviewId →
  Interview.status interview = "ONGOING"
  ∨ Interview.status interview = "SCHEDULED" →
  JoinInterviewIO.findTemplate io = Some template →
  ∃ session,
    registered (handleJoinInterview clientId interviewId io sessions).1
      interviewId session
    ∧ Handled.sessionId (handleJoinInterview clientId interviewId io sessions).2
      = Some (InterviewSession.id session)
    ∧ noError (handleJoinInterview clientId interviewId io sessions).2
    ∧ InterviewSession.id session
      = "session:" +:+ interviewId +:+ ":" +:+ pretty (JoinInterviewIO.now io)
    ∧ InterviewSession.createdAt session = JoinInterviewIO.date io
    ∧ InterviewSession.candidateSocketId session = clientId
    ∧ InterviewSession.recruiterSocketIds session = []
    ∧ InterviewSession.isActive session = false
    ∧ InterviewSession.trustScore session = 100
    ∧ (template = None →
       InterviewSession.progress session = Progress.mk 0 0 0 0).
Proof.
  intros Hnone Hfind <- Hstatus Htemplate.
  destruct (handleJoinInterview clientId (Interview.id interview) io sessions)
    as [sessions' handled] eqn:Hrun.
  cbn [fst snd]. revert Hrun.
  unfold handleJoinInterview, tryCatch, mbind, Async_bind, andThen.
  rewrite Hfind. simpl.
  replace (negb (String.eqb (Interview.status interview) "ONGOING")
           && negb (String.eqb (Interview.status interview) "SCHEDULED"))
    with false by (by destruct Hstatus as [-> | ->]).
  unfold getSessionByInterviewId. rewrite Hnone.
  unfold createSession, mbind, Async_bind, andThen. rewrite Htemplate. simpl.
  intros [= <- <-].
  lazymatch goal with
  | |- ∃ _, registered (<[_ := ?session]> _) _ _ ∧ _ => exists session
  end.
  split; [|split; [reflexivity|]].
  - split; [apply lookup_insert_eq|]. split; [|done].
    cbn [InterviewSession.id]. rewrite lookup_insert. case_decide; [done|].
    apply lookup_insert_eq.
  - split.
    { intros message Hin. simpl in Hin.
      apply elem_of_cons in Hin as [[=]|Hin].
      apply elem_of_cons in Hin as [[=]|Hin].
      by apply elem_of_nil in Hin. }
    repeat split; try done. by intros ->.
Qed.

Lemma first_join_registers_witness :
  ∃ session,
    registered SampleRegistry.joined "iv" session
    ∧ InterviewSession.id session = "session:iv:1700000000000"
    ∧ InterviewSession.createdAt session = 1700000000012
    ∧ InterviewSession.candidateSocketId session = "socket-1".
Proof.
  destruct (first_join_registers "socket-1" "iv" SampleRegistry.joinIO ∅
              (Sample.interviewOn Sample.oneAssessment)
              (Some Sample.oneAssessment))
    as (session & Hregistered & _ & _ & Hid & Hcreated & Hcandidate & _);
    [reflexivity|reflexivity|reflexivity|left; reflexivity|reflexivity|].
  exists session. split; [exact Hregistered|].
  split; [rewrite Hid; vm_compute; reflexivity|].
  split; [exact Hcreated|exact Hcandidate].
Defined.
End registry_lifecycle.

(** ** The proctoring data of an interview *)

Section proctoring.
Import InterviewsService.

(** X26.  The trust score that [updateProctorData] writes to the interview
    is between 0 and 100, and it is the score the gateway computes when it
    reads the written data back for the session. *)
Theorem written_trust_score_is_gateway_score findFirst data stored score :
  updateProctorData findFirst data = inr (stored, score) →
  0 ≤ score ≤ 100
  ∧ InterviewGateway.calculateTrustScore (asJson stored) = score.
Proof.
  unfold updateProctorData. destruct findFirst as [current|]; [|done].
  intros [= <- <-]. split; [|done].
  unfold calculateTrustScore, Math.round. lia.
Qed.

Lemma written_trust_score_is_gateway_score_witness :
  ∃ stored,
    updateProctorData (Some None) (ProctorData.mk None (Some 2) None None)
    = inr (stored, 94)
    ∧ InterviewGateway.calculateTrustScore (asJson stored) = 94.
Proof.
  eexists. split; [reflexivity|].
  apply (written_trust_score_is_gateway_score (Some None)
           (ProctorData.mk None (Some 2) None None)).
  reflexivity.
Defined.

(** X27.  An update that brings no face detections and no negative count
    never raises the trust score: counts are added and suspicious
    activities appended.  Face detections are not covered: an update that
    brings some replaces the stored ones. *)
Theorem trust_score_never_rises current data stored score :
  updateProctorData (Some current) data = inr (stored, score) →
  ProctorData.faceDetections data = None →
  0 ≤ default 0 (ProctorData.tabSwitches data) →
  0 ≤ default 0 (ProctorData.fullscreenExits data) →
  score ≤ calculateTrustScore (default (StoredProctorData.mk [] 0 0 []) current)
  ∧ StoredProctorData.faceDetections stored
    = StoredProctorData.faceDetections
        (default (StoredProctorData.mk [] 0 0 []) current).
Proof.
  unfold updateProctorData. intros [= <- <-] Hfaces Htabs Hexits.
  rewrite Hfaces. split; [|done].
  unfold calculateTrustScore, Math.round. simpl.
  rewrite length_app. lia.
Qed.

Lemma trust_score_never_rises_witness :
  ∃ stored score,
    updateProctorData
      (Some (Some (StoredProctorData.mk [FaceDetection.mk 1 2] 1 0 [])))
      (ProctorData.mk None (Some 1) (Some 1) (Some ["pasted text"]))
    = inr (stored, score)
    ∧ score ≤ 92.
Proof.
  eexists _, _. split; [reflexivity|].
  refine (proj1 (trust_score_never_rises
                   (Some (StoredProctorData.mk [FaceDetection.mk 1 2] 1 0 []))
                   (ProctorData.mk None (Some 1) (Some 1) (Some ["pasted text"]))
                   _ _ eq_refl eq_refl _ _)); simpl; lia.
Defined.
End proctoring.

(** ** Counting the follow-ups of a question *)

Section follow_up_count.
Import ConversationManagerService InterviewOrchestratorService.

Lemma followUpsOnRecord_written sessionId questionId c (s : Store) :
  followUpsOnRecord sessionId questionId (written sessionId c s)
  = match ConversationContext.responses c !! questionId with
    | Some r => StoredResponse.followUpsAsked r
    | None => 0
    end.
Proof. unfold followUpsOnRecord. by rewrite written_lookup. Qed.

(** What is on record for a question once the entry [r] is stored for the
    question [q], where [r] has [added] follow-ups more than the entry
    [processResponse] found or made for [q]. *)
Lemma followUpsOnRecord_record c q responseText io r added questionId :
  StoredResponse.followUpsAsked r
  = StoredResponse.followUpsAsked (existingResponse c q responseText io) + added →
  match <[Question.id q := r]> (ConversationContext.responses c) !! questionId with
  | Some r => StoredResponse.followUpsAsked r
  | None => 0
  end
  = match ConversationContext.responses c !! questionId with
    | Some r => StoredResponse.followUpsAsked r
    | None => 0
    end
    + (if String.eqb (Question.id q) questionId then added else 0).
Proof.
  intros Hr. destruct (String.eqb_spec (Question.id q) questionId) as [<-|Hne].
  - rewrite lookup_insert_eq, Hr. unfold existingResponse.
    by destruct (ConversationContext.responses c !! Question.id q).
  - rewrite lookup_insert_ne by done.
    destruct (ConversationContext.responses c !! questionId); lia.
Qed.

(** The same once the entry is stored as it was found or made. *)
Lemma followUpsOnRecord_kept c q responseText io questionId :
  match
    <[Question.id q := existingResponse c q responseText io]>
      (ConversationContext.responses c) !! questionId
  with
  | Some r => StoredResponse.followUpsAsked r
  | None => 0
  end
  = match ConversationContext.responses c !! questionId with
    | Some r => StoredResponse.followUpsAsked r
    | None => 0
    end.
Proof.
  rewrite (followUpsOnRecord_record c q responseText io _ 0) by lia.
  destruct (String.eqb _ _); lia.
Qed.

Ltac kept :=
  rewrite followUpsOnRecord_written; simpl; rewrite followUpsOnRecord_kept.

(** One call: the number on record grows by one when the call asked a
    follow-up on the question, and stays otherwise. *)
Lemma processResponse_counts sessionId questionId call (s : Store) :
  followUpsOnRecord sessionId questionId
    (processResponse sessionId call.1 call.2 s).1
  = followUpsOnRecord sessionId questionId s
    + (if followUpAskedOn sessionId questionId call s then 1 else 0).
Proof.
  destruct call as [responseText io]. cbn [fst snd].
  unfold followUpAskedOn. cbn [fst snd].
  destruct (s !! sessionId) as [c|] eqn:Hc.
  2:{ rewrite processResponse_missing by done. cbn [fst]. lia. }
  assert (followUpsOnRecord sessionId questionId s
          = match ConversationContext.responses c !! questionId with
            | Some r => StoredResponse.followUpsAsked r
            | None => 0
            end) as ->.
  { unfold followUpsOnRecord. by rewrite Hc. }
  destruct (getCurrentQuestion c) as [q|] eqn:Hq.
  2:{ rewrite (processResponse_past _ _ _ _ c) by done. cbn [fst].
      rewrite followUpsOnRecord_written. simpl. lia. }
  destruct (asksFollowUp c q responseText io) eqn:Hasks.
  - rewrite (processResponse_asks _ _ _ _ c q) by done.
    destruct (ProcessResponseIO.followUpChat io) as [followUp|]; cbn [fst].
    + rewrite followUpsOnRecord_written, written_lookup. simpl.
      rewrite String.eqb_refl, bool_decide_eq_true_2 by done.
      rewrite (followUpsOnRecord_record c q responseText io _ 1) by done.
      by destruct (String.eqb _ _).
    + rewrite followUpsOnRecord_written. simpl. lia.
  - destruct (getCurrentQuestion_Some _ _ Hq) as (ta & Hta & _).
    rewrite (processResponse_advances _ _ _ _ c q ta) by done. cbv zeta.
    destruct (ProcessResponseIO.saveResponseToDatabase io) as [[]|]; cbn [fst];
      [|kept; lia].
    destruct (_ <=? ConversationContext.currentQuestionIndex c + 1)%nat;
      [destruct (_ <=? ConversationContext.currentAssessmentIndex c + 1)%nat|];
      cbn [andb]; cbv iota.
    + cbn [fst]. kept. rewrite ?andb_false_r. lia.
    + lazymatch goal with
      | |- context [match getCurrentQuestion ?moved with _ => _ end] =>
          destruct (getCurrentQuestion moved) as [next|]
      end; cbn [fst].
      * destruct (ProcessResponseIO.findInterview io) as [interview|]; cbn [fst];
          [|kept; lia].
        kept. rewrite written_lookup.
        rewrite bool_decide_eq_false_2, !andb_false_r; [lia|].
        unfold cursor. simpl. intros [= ? _]. lia.
      * kept. rewrite ?andb_false_r. lia.
    + lazymatch goal with
      | |- context [match getCurrentQuestion ?moved with _ => _ end] =>
          destruct (getCurrentQuestion moved) as [next|]
      end; cbn [fst].
      * destruct (ProcessResponseIO.findInterview io) as [interview|]; cbn [fst];
          [|kept; lia].
        rewrite written_lookup. kept.
        rewrite bool_decide_eq_false_2, !andb_false_r; [lia|].
        unfold cursor. simpl. intros [= ?]. lia.
      * kept. rewrite ?andb_false_r. lia.
Qed.

(** A sequence of calls: the number on record grows by the number of
    calls that asked a follow-up on the question. *)
Lemma turns_count sessionId questionId calls (s : Store) :
  followUpsOnRecord sessionId questionId (turns sessionId calls s)
  = followUpsOnRecord sessionId questionId s
    + Z.of_nat (followUpTurns sessionId questionId calls s).
Proof.
  revert s. induction calls as [|call calls IH]; intros s; [simpl; lia|].
  cbn [followUpTurns]. unfold turns. cbn [fold_left].
  fold (turns sessionId calls (processResponse sessionId call.1 call.2 s).1).
  rewrite IH, processResponse_counts.
  destruct (followUpAskedOn sessionId questionId call s); lia.
Qed.

Lemma followUpsFromZero_recorded c questionId r :
  followUpsFromZero c →
  recordedBy (ConversationContext.responses c) questionId r →
  followUpsFromZero
    (ConversationContext.setResponses c
       (<[questionId := r]> (ConversationContext.responses c))).
Proof.
  intros Hc (responseText & evaluation & _ & Hr) questionId' r'. simpl.
  rewrite lookup_insert. case_decide; [|apply Hc]. intros [= <-].
  assert (0 ≤ StoredResponse.followUpsAsked
                (default
                   (StoredResponse.mk responseText (EvaluationResult.score evaluation)
                      0 (Some (ResponseEvaluatorService.generateEvaluationText
                                 evaluation)))
                   (ConversationContext.responses c !! questionId))) as Hex.
  { destruct (ConversationContext.responses c !! questionId) as [r0|] eqn:Hr0;
      [by eapply Hc | done]. }
  destruct Hr as [-> | [_ ->]]; [done|]. simpl. lia.
Qed.

Lemma processResponse_fromZero sessionId responseText io (s : Store) :
  everySession followUpsFromZero s →
  everySession followUpsFromZero (processResponse sessionId responseText io s).1.
Proof.
  intros Hs. destruct (s !! sessionId) as [c|] eqn:Hc.
  - destruct (processResponse_recorded (λ _, followUpsFromZero) sessionId
                responseText io s c)
      as (c' & [_ Hall] & _); [done | done | done | | done | done].
    apply followUpsFromZero_recorded.
  - by rewrite processResponse_missing.
Qed.

Lemma reachable_fromZero (s : Store) :
  reachable s → everySession followUpsFromZero s.
Proof.
  intros [calls ->]. induction calls as [|call calls IH] using rev_ind.
  - intros k c. simpl. by rewrite lookup_empty.
  - rewrite fold_left_app. simpl. destruct call; simpl.
    + apply startInterview_everySession; [|done..].
      intros ???? questionId r. simpl. by rewrite lookup_empty.
    + by apply processResponse_fromZero.
    + by apply completeInterview_everySession.
Qed.

Lemma followUpsOnRecord_bounds sessionId questionId (s : Store) :
  everySession followUpsFromZero s →
  everySession (followUpsAtMost 1) s →
  0 ≤ followUpsOnRecord sessionId questionId s ≤ 1.
Proof.
  intros Hzero Hone. unfold followUpsOnRecord.
  destruct (s !! sessionId) as [c|] eqn:Hc; [|simpl; lia]. simpl.
  destruct (ConversationContext.responses c !! questionId) as [r|] eqn:Hr; [|lia].
  split; [by eapply Hzero | by eapply Hone].
Qed.

(** C10.  With one follow-up asked the policy answers false, whatever the
    evaluation and the length of the answer.  In every store the
    orchestrator can reach, each question of each session has at most one
    follow-up on record; and from such a store, in every sequence of
    [processResponse] calls on a session, at most one call asks a
    follow-up on any one question, and none does once a follow-up is on
    record for the question. *)
Theorem at_most_one_followUp :
  (∀ e len, ResponseEvaluatorService.needsFollowUp e 1 len = false)
  ∧ (∀ s : gmap string ConversationContext.t,
       reachable s →
       ∀ sessionId c questionId r,
         s !! sessionId = Some c →
         ConversationContext.responses c !! questionId = Some r →
         StoredResponse.followUpsAsked r ≤ 1)
  ∧ (∀ s : gmap string ConversationContext.t,
       reachable s →
       ∀ sessionId questionId calls,
         (followUpTurns sessionId questionId calls s ≤ 1)%nat
         ∧ (1 ≤ followUpsOnRecord sessionId questionId s →
            followUpTurns sessionId questionId calls s = 0%nat)).
Proof.
  split; [|split].
  - intros e len. by apply needsFollowUp_after_one.
  - intros s Hs sessionId c questionId r Hc Hr.
    by eapply (reachable_followUps 1 ltac:(lia) s Hs).
  - intros s Hs sessionId questionId calls.
    pose proof (reachable_fromZero s Hs) as Hzero.
    pose proof (reachable_followUps 1 ltac:(lia) s Hs) as Hone.
    pose proof (turns_followUps 1 ltac:(lia) sessionId calls s Hone) as Hone'.
    assert (everySession followUpsFromZero (turns sessionId calls s)) as Hzero'.
    { clear Hone Hone'. induction calls as [|call calls IH] using rev_ind; [done|].
      rewrite turns_snoc. by apply processResponse_fromZero. }
    pose proof (followUpsOnRecord_bounds sessionId questionId s Hzero Hone).
    pose proof (followUpsOnRecord_bounds sessionId questionId _ Hzero' Hone').
    pose proof (turns_count sessionId questionId calls s). lia.
Qed.
End follow_up_count.
